(** * Feature derivation over OHLC series: a shallow embedding

    This development embeds the feature-derivation core of the repository
    ([src/utils.py], [src/metrics_calculations.py] and the column selection
    of [src/ml_model.py]) and proves properties of it.

    Modelling conventions.
    - A pandas [float64] cell is a value of [fval]: a rational number, or one
      of the IEEE special values NaN, +inf, -inf.  Arithmetic is that of
      binary64: every operation returns its exact result rounded to the
      nearest double, ties to even, and overflows to an infinity.  The two
      zeros are one value, so the sign of a quotient by zero is that of the
      dividend.
    - A [datetime64] cell is an integer count of nanoseconds since the epoch;
      the date column holds parsed timestamps only (no NaT cell).
    - A [DataFrame] is an index (row labels) and an ordered list of named
      columns; Python exceptions are values of [exn] threaded through the
      [result] monad. *)

From Stdlib Require Import ZArith QArith Qround Qabs Qpower Lia Lqa List Ascii.
From Stdlib Require Import Sorting.Permutation Sorting.Sorted Sorting.Mergesort Orders.
From stdpp Require Import base list strings pretty sorting.

(** ** Exceptions and results *)

Inductive exn : Type :=
| KeyError (missing : list string)
| ValueError (msg : string)
| TypeError (msg : string)
| IndexError (msg : string)
| OverflowError (msg : string)
| OSError (msg : string).

Inductive result (A : Type) : Type :=
| Ok (a : A)
| Raise (e : exn).
Arguments Ok {A} a.
Arguments Raise {A} e.

Global Instance result_ret : MRet result := λ A a, Ok a.

Global Instance result_bind : MBind result := λ A B k m,
  match m with
  | Ok a => k a
  | Raise e => Raise e
  end.

(** ** Float cells *)

Inductive fval : Type :=
| NaN
| NegInf
| Num (q : Q)
| PosInf.

Definition is_nan (x : fval) : bool :=
  match x with NaN => true | _ => false end.

Definition is_finite (x : fval) : bool :=
  match x with Num _ => true | _ => false end.

Definition is_inf (x : fval) : bool :=
  match x with NegInf | PosInf => true | _ => false end.

(** [a <= b] on floats; every comparison with NaN is false. *)
Definition fle_b (a b : fval) : bool :=
  match a, b with
  | NaN, _ | _, NaN => false
  | NegInf, _ => true
  | _, PosInf => true
  | Num x, Num y => Qle_bool x y
  | _, _ => false
  end.

Definition fge_b (a b : fval) : bool := fle_b b a.

(** [a == b] on floats: equality of values; NaN equals nothing. *)
Definition feq_b (a b : fval) : bool :=
  match a, b with
  | NegInf, NegInf | PosInf, PosInf => true
  | Num x, Num y => Qeq_bool x y
  | _, _ => false
  end.

(** The same comparisons as propositions. *)
Definition fle (a b : fval) : Prop :=
  match a, b with
  | NaN, _ | _, NaN => False
  | NegInf, _ => True
  | _, PosInf => True
  | Num x, Num y => (x <= y)%Q
  | _, _ => False
  end.

Definition feq (a b : fval) : Prop :=
  match a, b with
  | NegInf, NegInf | PosInf, PosInf => True
  | Num x, Num y => (x == y)%Q
  | _, _ => False
  end.

(** *** Skip-NaN extremes: [Series.max()] and [Series.min()]

    Both are folds of a binary choice that ignores NaN; the result is NaN
    exactly when no cell holds a value (empty or all-NaN input). *)

Definition pick (le_b : fval → fval → bool) (a b : fval) : fval :=
  match a, b with
  | NaN, _ => b
  | _, NaN => a
  | _, _ => if le_b a b then b else a
  end.

Definition nan_extreme (le_b : fval → fval → bool) (l : list fval) : fval :=
  foldr (pick le_b) NaN l.

Definition nanmax : list fval → fval := nan_extreme fle_b.
Definition nanmin : list fval → fval := nan_extreme fge_b.

(** [Series.max()] on a datetime column: [None] stands for [NaT], the result
    on an empty selection. *)
Definition max_date (l : list Z) : option Z :=
  foldr (λ d acc, match acc with
                  | None => Some d
                  | Some m => Some (Z.max d m)
                  end) None l.

(** *** Rounding to binary64

    A double has 53 significant bits; its last bit weighs [2^e], where [e]
    is 52 below the exponent of the leading bit and never below -1074 (the
    subnormal range).  An exact result is rounded to the nearest multiple of
    [2^e], a tie to the even one; a rounded result of [2^1024] or more
    overflows. *)

(** Rounding to the nearest integer, halves to the even neighbour (the mode
    of IEEE arithmetic and of numpy's [rint]). *)
Definition round_half_even (q : Q) : Z :=
  let f := Qfloor q in
  match (q - inject_Z f ?= 1 # 2)%Q with
  | Lt => f
  | Gt => (f + 1)%Z
  | Eq => if Z.even f then f else (f + 1)%Z
  end.

(** The exponent of the leading bit of a positive rational. *)
Definition Qlog2 (q : Q) : Z :=
  let k := (Z.log2 (Qnum q) - Z.log2 (Zpos (Qden q)))%Z in
  if Qle_bool (2 ^ k) q then k else (k - 1)%Z.

Definition ulp_exp (q : Q) : Z := Z.max (Qlog2 q - 52) (-1074).

Definition round_pos (q : Q) : Q :=
  let e := ulp_exp q in
  (inject_Z (round_half_even (q / 2 ^ e)) * 2 ^ e)%Q.

Definition round64 (q : Q) : fval :=
  match (q ?= 0)%Q with
  | Eq => Num 0
  | Gt => let v := round_pos q in if Qle_bool (2 ^ 1024) v then PosInf else Num v
  | Lt => let v := round_pos (- q) in if Qle_bool (2 ^ 1024) v then NegInf else Num (- v)
  end.

(** *** Arithmetic of float cells (IEEE rules for the special values) *)

Definition fsub (a b : fval) : fval :=
  match a, b with
  | NaN, _ | _, NaN => NaN
  | Num x, Num y => round64 (x - y)
  | PosInf, PosInf | NegInf, NegInf => NaN
  | PosInf, _ => PosInf
  | NegInf, _ => NegInf
  | Num _, PosInf => NegInf
  | Num _, NegInf => PosInf
  end.

Definition fneg (a : fval) : fval :=
  match a with
  | NaN => NaN
  | NegInf => PosInf
  | PosInf => NegInf
  | Num x => Num (- x)
  end.

(** An infinity carrying the sign of [x]; NaN when [x] is zero. *)
Definition signed_inf (x : Q) : fval :=
  match (x ?= 0)%Q with
  | Lt => NegInf
  | Eq => NaN
  | Gt => PosInf
  end.

Definition fmul (a b : fval) : fval :=
  match a, b with
  | NaN, _ | _, NaN => NaN
  | Num x, Num y => round64 (x * y)
  | PosInf, Num y | Num y, PosInf => signed_inf y
  | NegInf, Num y | Num y, NegInf => fneg (signed_inf y)
  | PosInf, PosInf | NegInf, NegInf => PosInf
  | PosInf, NegInf | NegInf, PosInf => NegInf
  end.

(** Division never raises: a zero divisor gives an infinity with the sign of
    the dividend, and NaN for [0 / 0]. *)
Definition fdiv (a b : fval) : fval :=
  match a, b with
  | NaN, _ | _, NaN => NaN
  | Num x, Num y => if Qeq_bool y 0 then signed_inf x else round64 (x / y)
  | Num _, PosInf | Num _, NegInf => Num 0
  | PosInf, Num y => if Qle_bool 0 y then PosInf else NegInf
  | NegInf, Num y => if Qle_bool 0 y then NegInf else PosInf
  | _, _ => NaN
  end.

(** [numpy.rint] *)
Definition frint (a : fval) : fval :=
  match a with
  | Num x => Num (inject_Z (round_half_even x))
  | _ => a
  end.

(** [round(x, 2)] on a float column is numpy's [rint(x * 100) / 100], each
    step in binary64. *)
Definition fround2 (a : fval) : fval :=
  fdiv (frint (fmul a (Num 100))) (Num 100).

(** ** Series and frames *)

Inductive Series : Type :=
| DateS (cells : list Z)
| FloatS (cells : list fval).

Definition series_len (s : Series) : nat :=
  match s with
  | DateS l => length l
  | FloatS l => length l
  end.

(** Column names are unique; the order of the columns is part of the frame. *)
Record DataFrame : Type := mkDataFrame {
  index : list Z;
  columns : list (string * Series)
}.

(** [len(data)] *)
Definition len (data : DataFrame) : nat := length (index data).

(** [range(n)] *)
Definition range (n : nat) : list Z := seqZ 0 (Z.of_nat n).

Fixpoint lookup_col (name : string) (cols : list (string * Series)) : option Series :=
  match cols with
  | [] => None
  | (n, s) :: cols' => if String.eqb n name then Some s else lookup_col name cols'
  end.

Definition has_col (cols : list (string * Series)) (name : string) : bool :=
  match lookup_col name cols with Some _ => true | None => false end.

(** [data[name]] *)
Definition getitem (data : DataFrame) (name : string) : result Series :=
  match lookup_col name (columns data) with
  | Some s => Ok s
  | None => Raise (KeyError [name])
  end.

Fixpoint assign_col (name : string) (s : Series) (cols : list (string * Series))
  : list (string * Series) :=
  match cols with
  | [] => [(name, s)]
  | (n, c) :: cols' =>
      if String.eqb n name then (n, s) :: cols' else (n, c) :: assign_col name s cols'
  end.

(** [data[name] = s]: an existing column is replaced in place, a new one is
    appended.  Every value assigned in this program carries the frame's own
    index (or is a plain list), so only its length can be wrong. *)
Definition setitem (data : DataFrame) (name : string) (s : Series) : result DataFrame :=
  if Nat.eqb (series_len s) (len data)
  then Ok {| index := index data; columns := assign_col name s (columns data) |}
  else Raise (ValueError "Length of values does not match length of index").

(** [data[names]]: the sub-frame of the requested columns, in the requested
    order; the [KeyError] lists the requested names that are not columns. *)
Definition getitems (data : DataFrame) (names : list string) : result DataFrame :=
  match List.filter (λ n, negb (has_col (columns data) n)) names with
  | [] => Ok {| index := index data;
                columns := omap (λ n, pair n <$> lookup_col n (columns data)) names |}
  | missing => Raise (KeyError missing)
  end.

(** The dtype a computation expects.  Frames whose [Date] column is not a
    datetime column or whose price columns are not float columns are outside
    the model; the embedding reports them as [TypeError]. *)
Definition as_float (s : Series) : result (list fval) :=
  match s with
  | FloatS l => Ok l
  | DateS _ => Raise (TypeError "float64 column expected")
  end.

Definition as_dates (s : Series) : result (list Z) :=
  match s with
  | DateS l => Ok l
  | FloatS _ => Raise (TypeError "datetime64 column expected")
  end.

(** *** Positional and label-based row selection *)

(** One bound of a Python slice over a sequence of length [n]: a negative
    bound counts from the end, and both are clipped to [0, n]. *)
Definition py_index (n i : Z) : Z :=
  if (i <? 0)%Z then Z.max 0 (i + n) else Z.min i n.

(** [s.iloc[start:stop]] *)
Definition iloc_slice {A} (start stop : Z) (l : list A) : list A :=
  let n := Z.of_nat (length l) in
  let a := py_index n start in
  let b := py_index n stop in
  take (Z.to_nat (b - a)) (drop (Z.to_nat a) l).

(** [s.iloc[i]] *)
Definition iloc_at {A} (i : Z) (l : list A) : result A :=
  let n := Z.of_nat (length l) in
  let j := if (i <? 0)%Z then (i + n)%Z else i in
  if (j <? 0)%Z then Raise (IndexError "single positional indexer is out-of-bounds")
  else match l !! Z.to_nat j with
       | Some x => Ok x
       | None => Raise (IndexError "single positional indexer is out-of-bounds")
       end.

(** Boolean-mask selection: the rows whose mask cell is true, in order. *)
Fixpoint select_rows {A} (mask : list bool) (l : list A) : list A :=
  match mask, l with
  | m :: mask', x :: l' => if m then x :: select_rows mask' l' else select_rows mask' l'
  | _, _ => []
  end.

Definition series_select (mask : list bool) (s : Series) : Series :=
  match s with
  | DateS l => DateS (select_rows mask l)
  | FloatS l => FloatS (select_rows mask l)
  end.

Definition frame_select (mask : list bool) (data : DataFrame) : DataFrame :=
  {| index := select_rows mask (index data);
     columns := prod_map id (series_select mask) <$> columns data |}.

(** [data.loc[a:b]] on a frame whose index is increasing: the rows whose
    label lies in the closed interval [a, b]. *)
Definition loc_slice (data : DataFrame) (a b : Z) : DataFrame :=
  frame_select ((λ l, (a <=? l)%Z && (l <=? b)%Z) <$> index data) data.

Fixpoint index_pos (label : Z) (idx : list Z) : option nat :=
  match idx with
  | [] => None
  | l :: idx' => if (l =? label)%Z then Some 0%nat else S <$> index_pos label idx'
  end.

(** [data.loc[label, "Date"]] *)
Definition loc_date (data : DataFrame) (label : Z) : result Z :=
  d ← getitem data "Date" ≫= as_dates;
  match index_pos label (index data) ≫= (d !!.) with
  | Some x => Ok x
  | None => Raise (KeyError [pretty label])
  end.

(** *** Rolling windows: [s.rolling(window, min_periods).agg()]

    The constructor validates its arguments.  Before it aggregates, pandas
    replaces every infinite cell of the column by NaN, so a rolling
    aggregation sees the finite cells only.  The window of row [i] is the
    positional slice [i-window+1 .. i] clipped at the start of the series; a
    row whose window holds fewer than [min_periods] non-NaN cells gets NaN. *)
Definition count_valid (w : list fval) : nat :=
  length (List.filter (λ x, negb (is_nan x)) w).

Definition prep_values (xs : list fval) : list fval :=
  (λ x, if is_inf x then NaN else x) <$> xs.

Definition rolling (agg : list fval → fval) (window min_periods : Z) (xs : list fval)
  : result (list fval) :=
  if (window <? 0)%Z then Raise (ValueError "window must be an integer 0 or greater")
  else if (window <? min_periods)%Z then Raise (ValueError "min_periods must be <= window")
  else let values := prep_values xs in
       Ok ((λ i, let w := iloc_slice (Z.max 0 (i - window + 1)) (i + 1) values in
                 if (Z.of_nat (count_valid w) <? min_periods)%Z then NaN else agg w)
           <$> range (length values)).

(** Binary arithmetic on two series aligned on a shared zero-based index: a
    row present in only one operand meets NaN. *)
Fixpoint align_with (f : fval → fval → fval) (a b : list fval) : list fval :=
  match a with
  | [] => f NaN <$> b
  | x :: a' =>
      match b with
      | [] => f x NaN :: align_with f a' []
      | y :: b' => f x y :: align_with f a' b'
      end
  end.

(** [Timedelta.days]: whole days, rounded towards minus infinity. *)
Definition ns_per_day : Z := 86400000000000.
Definition timedelta_days (delta : Z) : Z := (delta / ns_per_day)%Z.

(** A list of [int]/[None] cells stored as a column: [None] becomes NaN. *)
Definition of_days (d : option Z) : fval :=
  match d with
  | Some n => Num (inject_Z n)
  | None => NaN
  end.

(** ** [src/utils.py]: helper functions for the metrics *)

Module utils.

Definition calculate_historical_high (data : DataFrame) (days : Z) : result Series :=
  h ← getitem data "High" ≫= as_float;
  r ← rolling nanmax days 1 h;
  Ok (FloatS r).

Definition calculate_historical_low (data : DataFrame) (days : Z) : result Series :=
  l ← getitem data "Low" ≫= as_float;
  r ← rolling nanmin days 1 l;
  Ok (FloatS r).

(** The result is [None] when no row of the window holds the extreme,
    i.e. when the window has no value at all. *)
Definition days_since_high (data : DataFrame) (index days : Z) : result (option Z) :=
  let subset := loc_slice data (Z.max 0 (index - days + 1)) index in
  h ← getitem subset "High" ≫= as_float;
  let high_value := nanmax h in
  d ← getitem subset "Date" ≫= as_dates;
  let high_date := max_date (select_rows ((λ x, feq_b x high_value) <$> h) d) in
  match high_date with
  | Some hd => cur ← loc_date data index; Ok (Some (timedelta_days (cur - hd)))
  | None => Ok None
  end.

Definition days_since_low (data : DataFrame) (index days : Z) : result (option Z) :=
  let subset := loc_slice data (Z.max 0 (index - days + 1)) index in
  l ← getitem subset "Low" ≫= as_float;
  let low_value := nanmin l in
  d ← getitem subset "Date" ≫= as_dates;
  let low_date := max_date (select_rows ((λ x, feq_b x low_value) <$> l) d) in
  match low_date with
  | Some ld => cur ← loc_date data index; Ok (Some (timedelta_days (cur - ld)))
  | None => Ok None
  end.

(** [round(((current - reference) / reference) * 100, 2)] *)
Definition calculate_pct_diff (current reference : Series) : result Series :=
  c ← as_float current;
  r ← as_float reference;
  Ok (FloatS (fround2 <$>
              ((λ x, fmul x (Num 100)) <$> align_with fdiv (align_with fsub c r) r))).

Definition calculate_future_high (data : DataFrame) (days : Z) : result Series :=
  let n := Z.of_nat (len data) in
  future_high ← mapM (λ i,
    if (i <? n - 1)%Z
    then h ← getitem data "High" ≫= as_float;
         Ok (nanmax (iloc_slice (i + 1) (Z.min n (i + days)) h))
    else h ← getitem data "High" ≫= as_float; iloc_at i h) (range (len data));
  Ok (FloatS future_high).

Definition calculate_future_low (data : DataFrame) (days : Z) : result Series :=
  let n := Z.of_nat (len data) in
  future_low ← mapM (λ i,
    if (i <? n - 1)%Z
    then l ← getitem data "Low" ≫= as_float;
         Ok (nanmin (iloc_slice (i + 1) (Z.min n (i + days)) l))
    else l ← getitem data "Low" ≫= as_float; iloc_at i l) (range (len data));
  Ok (FloatS future_low).

End utils.

(** ** [src/metrics_calculations.py] *)

(** Column names built by the f-strings of the source. *)
Definition High_Last (v : Z) : string := "High_Last_" +:+ pretty v +:+ "_Days".
Definition Days_Since_High_Last (v : Z) : string :=
  "Days_Since_High_Last_" +:+ pretty v +:+ "_Days".
Definition Pct_Diff_From_High_Last (v : Z) : string :=
  "%_Diff_From_High_Last_" +:+ pretty v +:+ "_Days".
Definition Low_Last (v : Z) : string := "Low_Last_" +:+ pretty v +:+ "_Days".
Definition Days_Since_Low_Last (v : Z) : string :=
  "Days_Since_Low_Last_" +:+ pretty v +:+ "_Days".
Definition Pct_Diff_From_Low_Last (v : Z) : string :=
  "%_Diff_From_Low_Last_" +:+ pretty v +:+ "_Days".
Definition High_Next (v : Z) : string := "High_Next_" +:+ pretty v +:+ "_Days".
Definition Pct_Diff_From_High_Next (v : Z) : string :=
  "%_Diff_From_High_Next_" +:+ pretty v +:+ "_Days".
Definition Low_Next (v : Z) : string := "Low_Next_" +:+ pretty v +:+ "_Days".
Definition Pct_Diff_From_Low_Next (v : Z) : string :=
  "%_Diff_From_Low_Next_" +:+ pretty v +:+ "_Days".

(** [pd.to_datetime(s)] on a column that already holds timestamps. *)
Definition to_datetime (s : Series) : result Series :=
  d ← as_dates s; Ok (DateS d).

(** *** [sort_values] and [reset_index] *)

(** Rows are ordered by date, rows of equal date by their position. *)
Module DateOrder <: TotalLeBool.
Definition t : Type := Z * nat.
Definition leb (a b : t) : bool :=
  (a.1 <? b.1)%Z || ((a.1 =? b.1)%Z && (a.2 <=? b.2)%nat).
Lemma leb_total (a b : t) : leb a b = true ∨ leb b a = true.
Proof.
  unfold leb.
  destruct (Z.ltb_spec a.1 b.1), (Z.ltb_spec b.1 a.1), (Z.eqb_spec a.1 b.1),
    (Z.eqb_spec b.1 a.1), (Nat.leb_spec a.2 b.2), (Nat.leb_spec b.2 a.2);
    simpl; auto; lia.
Qed.
End DateOrder.

Module DateSort := Sort DateOrder.

(** The positions of the rows in ascending order of their keys.  Rows with
    equal keys are listed in their input order, which is what numpy's default
    sort does on a short column; on a long column it gives no guarantee for
    ties, and no statement below depends on the order of rows of equal date. *)
Definition argsort (keys : list Z) : list nat :=
  snd <$> DateSort.sort (zip keys (seq 0 (length keys))).

Definition take_rows {A} (p : list nat) (l : list A) : list A :=
  omap (λ j, l !! j) p.

Definition series_take (p : list nat) (s : Series) : Series :=
  match s with
  | DateS l => DateS (take_rows p l)
  | FloatS l => FloatS (take_rows p l)
  end.

(** [data.sort_values(by)], for a datetime column [by]: every column and the
    index are permuted alike. *)
Definition sort_values (data : DataFrame) (by_ : string) : result DataFrame :=
  k ← getitem data by_ ≫= as_dates;
  let p := argsort k in
  Ok {| index := take_rows p (index data);
        columns := prod_map id (series_take p) <$> columns data |}.

(** [data.reset_index(drop=True)] *)
Definition reset_index_drop (data : DataFrame) : DataFrame :=
  {| index := range (len data); columns := columns data |}.

Module metrics_calculations.

Definition add_historical_metrics (data : DataFrame) (variable1 : Z) : result DataFrame :=
  (* Historical high price *)
  hh ← utils.calculate_historical_high data variable1;
  data ← setitem data (High_Last variable1) hh;
  (* Days since high *)
  dsh ← mapM (λ i, if (variable1 - 1 <=? i)%Z
                   then utils.days_since_high data i variable1
                   else Ok (Some 0%Z)) (range (len data));
  data ← setitem data (Days_Since_High_Last variable1) (FloatS (of_days <$> dsh));
  (* Percentage difference from historical high *)
  close ← getitem data "Close";
  ref ← getitem data (High_Last variable1);
  pdh ← utils.calculate_pct_diff close ref;
  data ← setitem data (Pct_Diff_From_High_Last variable1) pdh;
  (* Historical low price *)
  hl ← utils.calculate_historical_low data variable1;
  data ← setitem data (Low_Last variable1) hl;
  (* Days since low *)
  dsl ← mapM (λ i, if (variable1 - 1 <=? i)%Z
                   then utils.days_since_low data i variable1
                   else Ok (Some 0%Z)) (range (len data));
  data ← setitem data (Days_Since_Low_Last variable1) (FloatS (of_days <$> dsl));
  (* Percentage difference from historical low *)
  close ← getitem data "Close";
  ref ← getitem data (Low_Last variable1);
  pdl ← utils.calculate_pct_diff close ref;
  setitem data (Pct_Diff_From_Low_Last variable1) pdl.

Definition add_future_metrics (data : DataFrame) (variable2 : Z) : result DataFrame :=
  (* Future high price *)
  fh ← utils.calculate_future_high data variable2;
  data ← setitem data (High_Next variable2) fh;
  (* Percentage difference from future high *)
  close ← getitem data "Close";
  ref ← getitem data (High_Next variable2);
  pdh ← utils.calculate_pct_diff close ref;
  data ← setitem data (Pct_Diff_From_High_Next variable2) pdh;
  (* Future low price *)
  fl ← utils.calculate_future_low data variable2;
  data ← setitem data (Low_Next variable2) fl;
  (* Percentage difference from future low *)
  close ← getitem data "Close";
  ref ← getitem data (Low_Next variable2);
  pdl ← utils.calculate_pct_diff close ref;
  setitem data (Pct_Diff_From_Low_Next variable2) pdl.

(** The first two statements of [calculate_metrics]: parse the dates, sort
    by date, renumber the rows. *)
Definition normalize (data : DataFrame) : result DataFrame :=
  d ← getitem data "Date" ≫= to_datetime;
  data ← setitem data "Date" d;
  data ← sort_values data "Date";
  Ok (reset_index_drop data).

Definition calculate_metrics (data : DataFrame) (variable1 variable2 : Z)
  : result DataFrame :=
  data ← normalize data;
  data ← add_historical_metrics data variable1;
  add_future_metrics data variable2.

End metrics_calculations.

(** ** [src/ml_model.py]: selection of the feature and target columns *)

Module ml_model.

Definition feature_columns (variable1 : Z) : list string :=
  [ Days_Since_High_Last variable1;
    Pct_Diff_From_High_Last variable1;
    Days_Since_Low_Last variable1;
    Pct_Diff_From_Low_Last variable1 ].

Definition target_columns (variable2 : Z) : list string :=
  [ Pct_Diff_From_High_Next variable2;
    Pct_Diff_From_Low_Next variable2 ].

(** The matrices [X] and [y] that [train_model] hands to the learner. *)
Definition train_model_X_y (data : DataFrame) (variable1 variable2 : Z)
  : result (DataFrame * DataFrame) :=
  X ← getitems data (feature_columns variable1);
  y ← getitems data (target_columns variable2);
  Ok (X, y).

End ml_model.

(** ** The derived columns in closed form

    What the functions above compute on a frame whose rows are numbered
    [0 .. N-1] and whose [Date], [High], [Low] and [Close] columns are the
    lists [dates], [high], [low] and [close]; the evaluation lemmas below
    relate each formula to the function it comes from. *)

(** Cells of [rolling(W, min_periods=1)] followed by a skip-NaN extreme. *)
Definition trailing (agg : list fval → fval) (W : Z) (xs : list fval) : list fval :=
  (λ i, agg (iloc_slice (Z.max 0 (i - W + 1)) (i + 1) (prep_values xs)))
  <$> range (length xs).

(** The label mask of [data.loc[a:b]] on the index [0 .. n-1]. *)
Definition window_mask (n : nat) (a b : Z) : list bool :=
  (λ l, (a <=? l)%Z && (l <=? b)%Z) <$> range n.

(** The value of [days_since_high] ([agg = nanmax]) and [days_since_low]
    ([agg = nanmin]) at row [i]. *)
Definition days_since_cell (agg : list fval → fval) (dates : list Z) (xs : list fval)
    (W i : Z) : option Z :=
  let m := window_mask (length dates) (Z.max 0 (i - W + 1)) i in
  let w := select_rows m xs in
  match max_date (select_rows ((λ x, feq_b x (agg w)) <$> w) (select_rows m dates)) with
  | Some hd => Some (timedelta_days (default 0%Z (dates !! Z.to_nat i) - hd))
  | None => None
  end.

Definition days_since_column (agg : list fval → fval) (dates : list Z) (xs : list fval)
    (W : Z) : list fval :=
  of_days <$> ((λ i, if (W - 1 <=? i)%Z then days_since_cell agg dates xs W i
                     else Some 0%Z) <$> range (length dates)).

Definition pct_diff_cells (c r : list fval) : list fval :=
  fround2 <$> ((λ x, fmul x (Num 100)) <$> align_with fdiv (align_with fsub c r) r).

Definition forward (agg : list fval → fval) (V : Z) (xs : list fval) : list fval :=
  let n := Z.of_nat (length xs) in
  (λ i, if (i <? n - 1)%Z
        then agg (iloc_slice (i + 1) (Z.min n (i + V)) xs)
        else default NaN (xs !! Z.to_nat i)) <$> range (length xs).

Definition historical_columns (W : Z) (dates : list Z) (high low close : list fval)
    (cols : list (string * Series)) : list (string * Series) :=
  let th := trailing nanmax W high in
  let tl := trailing nanmin W low in
  assign_col (Pct_Diff_From_Low_Last W) (FloatS (pct_diff_cells close tl))
    (assign_col (Days_Since_Low_Last W) (FloatS (days_since_column nanmin dates low W))
      (assign_col (Low_Last W) (FloatS tl)
        (assign_col (Pct_Diff_From_High_Last W) (FloatS (pct_diff_cells close th))
          (assign_col (Days_Since_High_Last W)
                      (FloatS (days_since_column nanmax dates high W))
            (assign_col (High_Last W) (FloatS th) cols))))).

Definition future_columns (V : Z) (high low close : list fval)
    (cols : list (string * Series)) : list (string * Series) :=
  let fh := forward nanmax V high in
  let fl := forward nanmin V low in
  assign_col (Pct_Diff_From_Low_Next V) (FloatS (pct_diff_cells close fl))
    (assign_col (Low_Next V) (FloatS fl)
      (assign_col (Pct_Diff_From_High_Next V) (FloatS (pct_diff_cells close fh))
        (assign_col (High_Next V) (FloatS fh) cols))).

(** A frame as the normalizer leaves it: rows numbered from zero, and the
    four columns the metrics read, one cell per row. *)
Record ohlc_frame (data : DataFrame) (dates : list Z) (high low close : list fval)
  : Prop := {
  ohlc_index : index data = range (length dates);
  ohlc_Date : lookup_col "Date" (columns data) = Some (DateS dates);
  ohlc_High : lookup_col "High" (columns data) = Some (FloatS high);
  ohlc_Low : lookup_col "Low" (columns data) = Some (FloatS low);
  ohlc_Close : lookup_col "Close" (columns data) = Some (FloatS close);
  ohlc_high_len : length high = length dates;
  ohlc_low_len : length low = length dates;
  ohlc_close_len : length close = length dates
}.

(** ** Extremes, as the specification words them *)

(** [extreme_of le_b l v]: [v] is the extreme, in the order [le_b], of the
    values the cells of [l] hold, and NaN when no cell holds a value. *)
Definition extreme_of (le_b : fval → fval → bool) (l : list fval) (v : fval) : Prop :=
  (v = NaN ∧ ∀ x, x ∈ l → x = NaN) ∨
  (v ≠ NaN ∧ v ∈ l ∧ ∀ x, x ∈ l → x ≠ NaN → le_b x v = true).

(** The cells of [xs] at the rows [a .. b], both ends included. *)
Definition cell_in (xs : list fval) (a b : Z) (x : fval) : Prop :=
  ∃ j : nat, (a ≤ Z.of_nat j ≤ b)%Z ∧ xs !! j = Some x.

(** [max_over xs a b v]: [v] is the maximum of the values that [xs] holds
    at the rows [a .. b], and NaN when these rows hold no value (no such
    row, or NaN cells only).  [min_over] is the symmetric minimum. *)
Definition max_over (xs : list fval) (a b : Z) (v : fval) : Prop :=
  (v = NaN ∧ ∀ x, cell_in xs a b x → x = NaN) ∨
  (v ≠ NaN ∧ cell_in xs a b v ∧ ∀ x, cell_in xs a b x → x ≠ NaN → fle x v).

Definition min_over (xs : list fval) (a b : Z) (v : fval) : Prop :=
  (v = NaN ∧ ∀ x, cell_in xs a b x → x = NaN) ∨
  (v ≠ NaN ∧ cell_in xs a b v ∧ ∀ x, cell_in xs a b x → x ≠ NaN → fle v x).

(** The same over the finite values only: [v] is the maximum of the finite
    values that [xs] holds at the rows [a .. b], and NaN when these rows hold
    no finite value (no such row, or NaN and infinite cells only). *)
Definition max_finite_over (xs : list fval) (a b : Z) (v : fval) : Prop :=
  (v = NaN ∧ ∀ x, cell_in xs a b x → is_finite x = false) ∨
  (is_finite v = true ∧ cell_in xs a b v ∧
   ∀ x, cell_in xs a b x → is_finite x = true → fle x v).

Definition min_finite_over (xs : list fval) (a b : Z) (v : fval) : Prop :=
  (v = NaN ∧ ∀ x, cell_in xs a b x → is_finite x = false) ∨
  (is_finite v = true ∧ cell_in xs a b v ∧
   ∀ x, cell_in xs a b x → is_finite x = true → fle v x).

(** ** Sample frames *)

Definition day (n : Z) : Z := (n * ns_per_day)%Z.
Definition price (z : Z) : fval := Num (inject_Z z).

(** Five consecutive days, already in date order. *)
Definition demo_frame : DataFrame :=
  {| index := range 5;
     columns :=
       [ ("Date", DateS [day 1; day 2; day 3; day 4; day 5]);
         ("Open", FloatS [price 6; price 7; price 8; price 8; price 7]);
         ("High", FloatS [price 10; price 12; price 9; price 15; price 11]);
         ("Low", FloatS [price 5; price 6; price 4; price 7; price 6]);
         ("Close", FloatS [price 6; price 7; price 8; price 8; price 7]) ] |}.

(** A single bar whose prices are missing. *)
Definition gap_frame : DataFrame :=
  {| index := range 1;
     columns :=
       [ ("Date", DateS [day 1]);
         ("Open", FloatS [NaN]);
         ("High", FloatS [NaN]);
         ("Low", FloatS [NaN]);
         ("Close", FloatS [NaN]) ] |}.

(** Four bars with a missing and an infinite price. *)
Definition inf_frame : DataFrame :=
  {| index := range 4;
     columns :=
       [ ("Date", DateS [day 1; day 2; day 3; day 4]);
         ("Open", FloatS [NaN; price 3; price 3; NaN]);
         ("High", FloatS [NaN; PosInf; price 3; NaN]);
         ("Low", FloatS [NaN; NegInf; price 2; NaN]);
         ("Close", FloatS [NaN; price 3; price 3; NaN]) ] |}.

(** Two bars that carry the same date. *)
Definition twin_frame : DataFrame :=
  {| index := range 2;
     columns :=
       [ ("Date", DateS [day 1; day 1]);
         ("Open", FloatS [price 6; price 7]);
         ("High", FloatS [price 10; price 12]);
         ("Low", FloatS [price 5; price 6]);
         ("Close", FloatS [price 6; price 7]) ] |}.

(** Two bars, the later one first. *)
Definition reversed_frame : DataFrame :=
  {| index := range 2;
     columns :=
       [ ("Date", DateS [day 2; day 1]);
         ("Open", FloatS [price 7; price 6]);
         ("High", FloatS [price 12; price 10]);
         ("Low", FloatS [price 6; price 5]);
         ("Close", FloatS [price 7; price 6]) ] |}.

(** No bar at all. *)
Definition empty_frame : DataFrame :=
  {| index := [];
     columns :=
       [ ("Date", DateS []); ("Open", FloatS []); ("High", FloatS []);
         ("Low", FloatS []); ("Close", FloatS []) ] |}.

(** A single bar whose high and low are zero. *)
Definition zero_frame : DataFrame :=
  {| index := range 1;
     columns :=
       [ ("Date", DateS [day 1]);
         ("Open", FloatS [price 0]);
         ("High", FloatS [price 0]);
         ("Low", FloatS [price 0]);
         ("Close", FloatS [price 5]) ] |}.

(** The columns of a table built by [parse_response_data]. *)
Definition base_names : list string := ["Date"; "Open"; "High"; "Low"; "Close"].

Definition only_base_columns (data : DataFrame) : Prop :=
  ∀ n : string, has_col (columns data) n = true → n ∈ base_names.

(** The names of the columns each stage writes. *)
Definition historical_names (W : Z) : list string :=
  [ High_Last W; Days_Since_High_Last W; Pct_Diff_From_High_Last W;
    Low_Last W; Days_Since_Low_Last W; Pct_Diff_From_Low_Last W ].

Definition future_names (V : Z) : list string :=
  [ High_Next V; Pct_Diff_From_High_Next V; Low_Next V; Pct_Diff_From_Low_Next V ].

(** ** Readings of the specification that the code does not meet *)

(** The trailing high of [data] for window [W] is the window maximum and
    holds a value at every row. *)
Definition trailing_high_defined_at_every_row
    (data : DataFrame) (high : list fval) (W : Z) : Prop :=
  ∃ th, utils.calculate_historical_high data W = Ok (FloatS th) ∧
    ∀ i : nat, (i < length high)%nat →
      ∃ v, th !! i = Some v ∧
           max_over high (Z.max 0 (Z.of_nat i - W + 1)) (Z.of_nat i) v ∧ v ≠ NaN.

(** The trailing high of [data] for window [W] is the maximum of the
    available values of the window, infinite ones included. *)
Definition trailing_high_is_window_maximum
    (data : DataFrame) (high : list fval) (W : Z) : Prop :=
  ∃ th, utils.calculate_historical_high data W = Ok (FloatS th) ∧
    ∀ i : nat, (i < length high)%nat →
      ∃ v, th !! i = Some v ∧
           max_over high (Z.max 0 (Z.of_nat i - W + 1)) (Z.of_nat i) v.

(** The body shared by [utils.days_since_high] and [utils.days_since_low]:
    they differ in the column read and in the extreme taken. *)
Definition days_since_extreme (col : string) (agg : list fval → fval)
    (data : DataFrame) (index days : Z) : result (option Z) :=
  let subset := loc_slice data (Z.max 0 (index - days + 1)) index in
  h ← getitem subset col ≫= as_float;
  let value := agg h in
  d ← getitem subset "Date" ≫= as_dates;
  let date := max_date (select_rows ((λ x, feq_b x value) <$> h) d) in
  match date with
  | Some hd => cur ← loc_date data index; Ok (Some (timedelta_days (cur - hd)))
  | None => Ok None
  end.

Arguments High_Last : simpl never.
Arguments Days_Since_High_Last : simpl never.
Arguments Pct_Diff_From_High_Last : simpl never.
Arguments Low_Last : simpl never.
Arguments Days_Since_Low_Last : simpl never.
Arguments Pct_Diff_From_Low_Last : simpl never.
Arguments High_Next : simpl never.
Arguments Pct_Diff_From_High_Next : simpl never.
Arguments Low_Next : simpl never.
Arguments Pct_Diff_From_Low_Next : simpl never.

(** A frame as the fetcher hands it over: any index, any row order; the
    columns the metrics read are present, one cell per row. *)
Record raw_frame (data : DataFrame) (dates : list Z) (high low close : list fval)
  : Prop := {
  raw_Date : lookup_col "Date" (columns data) = Some (DateS dates);
  raw_High : lookup_col "High" (columns data) = Some (FloatS high);
  raw_Low : lookup_col "Low" (columns data) = Some (FloatS low);
  raw_Close : lookup_col "Close" (columns data) = Some (FloatS close);
  raw_date_len : length dates = len data;
  raw_high_len : length high = len data;
  raw_low_len : length low = len data;
  raw_close_len : length close = len data
}.

(** Date order of a column: non-decreasing, and strictly increasing. *)
Definition ascending (dates : list Z) : Prop :=
  ∀ (j k : nat) (dj dk : Z),
    (j ≤ k)%nat → dates !! j = Some dj → dates !! k = Some dk → (dj ≤ dk)%Z.

Definition strictly_ascending (dates : list Z) : Prop :=
  ∀ (j k : nat) (dj dk : Z),
    (j < k)%nat → dates !! j = Some dj → dates !! k = Some dk → (dj < dk)%Z.

(** After normalization the timestamps are strictly increasing. *)
Definition normalized_dates_strictly_increasing (data : DataFrame) : Prop :=
  ∃ out dates',
    metrics_calculations.normalize data = Ok out ∧
    getitem out "Date" = Ok (DateS dates') ∧
    strictly_ascending dates'.

(** The stage that turned [data] into [out] left every row where it was:
    every column of [data] is a column of [out], cell for cell. *)
Definition stage_keeps_rows_in_place (data out : DataFrame) : Prop :=
  ∀ (n : string) (s : Series), getitem data n = Ok s → getitem out n = Ok s.

(** [most_recent_at xs a b v j]: row [j] is the occurrence of the value [v]
    in [xs] over the rows [a .. b] that is closest to [b]. *)
Definition most_recent_at (xs : list fval) (a b : Z) (v : fval) (j : nat) : Prop :=
  (a ≤ Z.of_nat j ≤ b)%Z ∧
  (∃ x, xs !! j = Some x ∧ feq x v) ∧
  ∀ (k : nat) (x : fval), (j < k)%nat → (Z.of_nat k ≤ b)%Z → xs !! k = Some x → ¬ feq x v.

(** A timestamp that is a calendar date (midnight). *)
Definition is_date (t : Z) : Prop := (t mod ns_per_day = 0)%Z.

(** [n] is the number of days from [earlier] to [later]: the whole days
    elapsed, which for two calendar dates is their exact distance. *)
Definition days_between (earlier later n : Z) : Prop :=
  (0 ≤ n)%Z ∧
  (n * ns_per_day ≤ later - earlier < (n + 1) * ns_per_day)%Z ∧
  (is_date earlier → is_date later → later = earlier + n * ns_per_day)%Z.

(** The days-since cell of row [i], as the specification words it: with [v]
    the extreme of [xs] over the window [i-W+1 .. i], the cell is the number
    of days between the date of row [i] and the date of the most recent row of
    the window whose value is [v]; it is NaN when the window has no value. *)
Definition days_since_spec (is_extreme : list fval → Z → Z → fval → Prop)
    (dates : list Z) (xs : list fval) (W : Z) (i : nat) (cell : fval) : Prop :=
  ∃ v, is_extreme xs (Z.of_nat i - W + 1)%Z (Z.of_nat i) v ∧
    ((v = NaN ∧ cell = NaN) ∨
     (v ≠ NaN ∧
      ∃ (j : nat) (dj di n : Z),
        most_recent_at xs (Z.of_nat i - W + 1)%Z (Z.of_nat i) v j ∧
        dates !! j = Some dj ∧ dates !! i = Some di ∧
        days_between dj di n ∧ cell = Num (inject_Z n))).

(** [x] is [exact] rounded to two decimal places: a whole number of
    hundredths, at most half a hundredth away from [exact]. *)
Definition rounded_to_2_decimals (exact x : Q) : Prop :=
  (∃ k : Z, x == inject_Z k / 100)%Q ∧
  (exact - (1 # 200) <= x)%Q ∧ (x <= exact + (1 # 200))%Q.

(** ** [src/utils.py]: helper functions for the data retrieval and for [main.py] *)

(** One element of the API response: a JSON object, of which the code reads
    five keys.  [None] stands for an absent key; the timestamp is an integer
    count of seconds and a price is the float the JSON decoder made of the
    number. *)
Record Item : Type := mkItem {
  TIMESTAMP : option Z;
  OPEN : option Q;
  HIGH : option Q;
  LOW : option Q;
  CLOSE : option Q
}.

(** [item.get(key)] stored in a float column: [None] becomes NaN. *)
Definition of_price (v : option Q) : fval :=
  match v with
  | Some q => Num q
  | None => NaN
  end.

Definition ns_per_second : Z := 1000000000.

(** The instant [ts] seconds after the epoch, as a datetime column stores it. *)
Definition instant (ts : Z) : Z := (ts * ns_per_second)%Z.

(** The timestamps of the years 1 to 9999, which are the dates a [datetime]
    can hold. *)
Definition min_timestamp : Z := -62135596800.
Definition max_timestamp : Z := 253402300799.

(** [datetime.utcfromtimestamp(ts)] for an integer [ts].  A timestamp
    outside the years 1 to 9999 raises: [ValueError] (its message names the
    year) while the C library can still break the timestamp down,
    [OSError] when it cannot (the year does not fit its [int]), and
    [OverflowError] when the timestamp does not fit a 64-bit [time_t]; the
    two outer bounds are those of CPython on 64-bit Linux. *)
Definition utcfromtimestamp (ts : Z) : result Z :=
  if (ts <? -9223372036854775808)%Z || (9223372036854775807 <? ts)%Z
  then Raise (OverflowError "timestamp out of range for platform time_t")
  else if (ts <? -67768040609740800)%Z || (67768036191676799 <? ts)%Z
  then Raise (OSError "Value too large for defined data type")
  else if (ts <? min_timestamp)%Z || (max_timestamp <? ts)%Z
  then Raise (ValueError "year is out of range")
  else Ok (instant ts).

(** One record of the comprehension: [item["TIMESTAMP"]] raises when the
    key is absent, the [get]s do not. *)
Definition record_of_item (item : Item) : result (Z * fval * fval * fval * fval) :=
  match TIMESTAMP item with
  | Some ts =>
      date ← utcfromtimestamp ts;
      Ok (date, of_price (OPEN item), of_price (HIGH item),
          of_price (LOW item), of_price (CLOSE item))
  | None => Raise (KeyError ["TIMESTAMP"])
  end.

(** The timestamps a [datetime64[ns]] column can hold (the years 1678 to
    2261).  Of records dated in this range pandas makes a datetime column;
    a date outside it is kept as a Python object, a kind of column this
    embedding does not have.  Likewise a price column is a float column when
    at least one record carries the price (the others get NaN); when none
    does, pandas keeps a column of [None] objects. *)
Definition in_ns_range (ts : Z) : Prop := (-9223372036 ≤ ts ≤ 9223372036)%Z.

Definition dated (item : Item) : Prop :=
  ∃ ts, TIMESTAMP item = Some ts ∧ in_ns_range ts.

Definition some_item_has (key : Item → option Q) (data : list Item) : Prop :=
  ∃ item, item ∈ data ∧ is_Some (key item).

Definition priced (data : list Item) : Prop :=
  some_item_has OPEN data ∧ some_item_has HIGH data ∧
  some_item_has LOW data ∧ some_item_has CLOSE data.

(** [pd.DataFrame(records)]: no record gives a frame without any column. *)
Definition DataFrame_of_records (records : list (Z * fval * fval * fval * fval))
  : DataFrame :=
  match records with
  | [] => {| index := []; columns := [] |}
  | _ =>
      {| index := range (length records);
         columns :=
           [ ("Date", DateS ((λ r, r.1.1.1.1) <$> records));
             ("Open", FloatS ((λ r, r.1.1.1.2) <$> records));
             ("High", FloatS ((λ r, r.1.1.2) <$> records));
             ("Low", FloatS ((λ r, r.1.2) <$> records));
             ("Close", FloatS ((λ r, r.2) <$> records)) ] |}
  end.

Definition parse_response_data (data : list Item) : result DataFrame :=
  records ← mapM record_of_item data;
  Ok (DataFrame_of_records records).

(** [data[data["Date"] >= start_date]], with [start_date] already parsed
    into a timestamp: the index labels of the kept rows are kept. *)
Definition filter_data_by_date (data : DataFrame) (start_date : Z) : result DataFrame :=
  d ← getitem data "Date" ≫= as_dates;
  Ok (frame_select ((λ t, (start_date <=? t)%Z) <$> d) data).

(** [s.replace("/", "")] *)
Fixpoint remove_slashes (s : string) : string :=
  match s with
  | EmptyString => EmptyString
  | String c s' =>
      if Ascii.eqb c "/"%char then remove_slashes s' else String c (remove_slashes s')
  end.

(** [f"{sheet_name}_{suffix}"] *)
Definition suffixed (sheet_name : string) (suffix : Z) : string :=
  sheet_name +:+ "_" +:+ pretty suffix.

(** [name in book.sheetnames] *)
Definition name_in (name : string) (sheetnames : list string) : bool :=
  existsb (String.eqb name) sheetnames.

(** The [while] loop of [add_to_excel], entered with [suffix]: the first
    suffix from there on whose name is not a sheet of the book.  [fuel]
    bounds the number of tests; [None] means it ran out. *)
Fixpoint free_suffix (fuel : nat) (sheetnames : list string) (sheet_name : string)
    (suffix : Z) : option Z :=
  match fuel with
  | O => None
  | S fuel' =>
      if name_in (suffixed sheet_name suffix) sheetnames
      then free_suffix fuel' sheetnames sheet_name (suffix + 1)
      else Some suffix
  end.

Inductive write_mode : Type := ModeAppend | ModeWrite.

(** [add_to_excel] up to the call of the writer: the mode the writer is
    opened in and the sheet name the table is written under.  [book] is
    [None] when [output.xlsx] does not exist, else the sheet names of the
    loaded workbook. *)
Definition add_to_excel (fuel : nat) (book : option (list string)) (sheet_name : string)
  : option (write_mode * string) :=
  let sheet_name := remove_slashes sheet_name in
  match book with
  | Some sheetnames =>
      if name_in sheet_name sheetnames
      then suffix ← free_suffix fuel sheetnames sheet_name 1;
           Some (ModeAppend, suffixed sheet_name suffix)
      else Some (ModeAppend, sheet_name)
  | None => Some (ModeWrite, sheet_name)
  end.

(** Every column of the frame has one cell per row. *)
Definition frame_wf (data : DataFrame) : Prop :=
  Forall (λ c, series_len c.2 = len data) (columns data).

(** A response of three bars, the second without prices. *)
Definition demo_items : list Item :=
  [ {| TIMESTAMP := Some 86400%Z; OPEN := Some 6%Q; HIGH := Some 10%Q;
       LOW := Some 5%Q; CLOSE := Some 6%Q |};
    {| TIMESTAMP := Some 172800%Z; OPEN := None; HIGH := None; LOW := None;
       CLOSE := None |};
    {| TIMESTAMP := Some 259200%Z; OPEN := Some 8%Q; HIGH := Some 9%Q;
       LOW := Some 4%Q; CLOSE := Some 8%Q |} ].

(** The record the comprehension builds for an item that has a timestamp. *)
Definition record_or_default (item : Item) : Z * fval * fval * fval * fval :=
  (instant (default 0%Z (TIMESTAMP item)), of_price (OPEN item),
   of_price (HIGH item), of_price (LOW item), of_price (CLOSE item)).

(** A table without any column, as an empty response parses to. *)
Definition no_columns_frame : DataFrame := {| index := []; columns := [] |}.

(** A non-empty table that has lost its [High] and [Low] columns. *)
Definition priceless_frame : DataFrame :=
  {| index := range 2;
     columns := [ ("Date", DateS [day 1; day 2]); ("Close", FloatS [price 6; price 7]) ] |}.

(** The columns the historical stage writes, as an association list. *)
Definition own_historical_columns (W : Z) (dates : list Z) (high low close : list fval)
  : list (string * Series) :=
  historical_columns W dates high low close [].

(** ["/" in s] *)
Fixpoint contains_slash (s : string) : bool :=
  match s with
  | EmptyString => false
  | String c s' => Ascii.eqb c "/"%char || contains_slash s'
  end.

(** A workbook that already holds the sheet and its first two copies. *)
Definition demo_sheetnames : list string := ["BTCUSD"; "BTCUSD_1"; "ETHUSD"; "BTCUSD_2"].

(** * Properties *)

(** ** The order on float cells *)

Lemma fle_b_spec (a b : fval) : fle_b a b = true ↔ fle a b.
Proof.
  destruct a, b; simpl; try tauto; try (split; [discriminate|tauto]).
  apply Qle_bool_iff.
Qed.

Lemma feq_b_spec (a b : fval) : feq_b a b = true ↔ feq a b.
Proof.
  destruct a, b; simpl; try tauto; try (split; [discriminate|tauto]).
  apply Qeq_bool_iff.
Qed.

Lemma fle_b_total (a b : fval) :
  a ≠ NaN → b ≠ NaN → fle_b a b = true ∨ fle_b b a = true.
Proof.
  destruct a, b; simpl; try tauto; intros _ _.
  destruct (Qlt_le_dec q0 q) as [Hlt|Hle].
  - right. apply Qle_bool_iff, Qlt_le_weak, Hlt.
  - left. apply Qle_bool_iff, Hle.
Qed.

Lemma fle_b_trans (a b c : fval) :
  fle_b a b = true → fle_b b c = true → fle_b a c = true.
Proof.
  destruct a, b, c; simpl; try tauto; try discriminate.
  rewrite !Qle_bool_iff. apply Qle_trans.
Qed.

Lemma fge_b_total (a b : fval) :
  a ≠ NaN → b ≠ NaN → fge_b a b = true ∨ fge_b b a = true.
Proof. intros Ha Hb. unfold fge_b. destruct (fle_b_total a b Ha Hb); tauto. Qed.

Lemma fge_b_trans (a b c : fval) :
  fge_b a b = true → fge_b b c = true → fge_b a c = true.
Proof. unfold fge_b. intros H1 H2. exact (fle_b_trans _ _ _ H2 H1). Qed.

Lemma feq_b_refl (a : fval) : a ≠ NaN → feq_b a a = true.
Proof. destruct a; simpl; try tauto. intros _. apply Qeq_bool_iff. reflexivity. Qed.


(** ** Rounding to the nearest integer and to binary64 *)

Lemma inject_Z_half_le (k : Z) : (inject_Z k <= 1 # 2)%Q → (k ≤ 0)%Z.
Proof. unfold Qle. simpl. lia. Qed.

Lemma round_half_even_near (t : Q) :
  (t - (1 # 2) <= inject_Z (round_half_even t))%Q ∧
  (inject_Z (round_half_even t) <= t + (1 # 2))%Q.
Proof.
  unfold round_half_even.
  pose proof (Qfloor_le t) as Hlo. pose proof (Qlt_floor t) as Hhi.
  rewrite inject_Z_plus in Hhi.
  assert (Hup : (inject_Z (Qfloor t + 1) == inject_Z (Qfloor t) + 1)%Q)
    by (rewrite inject_Z_plus; reflexivity).
  change (inject_Z 1) with 1%Q in Hhi.
  destruct (t - inject_Z (Qfloor t) ?= 1 # 2)%Q eqn:E.
  - apply Qeq_alt in E. destruct (Z.even (Qfloor t)); rewrite ?Hup; lra.
  - apply Qlt_alt in E. lra.
  - apply Qgt_alt in E. rewrite Hup. lra.
Qed.

(** ** Powers of two *)

Lemma pow2_pos (k : Z) : (0 < 2 ^ k)%Q.
Proof. by apply Qpower_0_lt. Qed.

Lemma pow2_plus (a b : Z) : (2 ^ (a + b) == 2 ^ a * 2 ^ b)%Q.
Proof. by apply Qpower_plus. Qed.

Lemma pow2_le (a b : Z) : (a ≤ b)%Z → (2 ^ a <= 2 ^ b)%Q.
Proof. intros H. by apply Qpower_le_compat_l. Qed.

Lemma pow2_S (a : Z) : (2 ^ (a + 1) == 2 * 2 ^ a)%Q.
Proof. rewrite pow2_plus. change (2 ^ 1)%Q with 2%Q. ring. Qed.

Lemma pow2_inject (n : Z) : (0 ≤ n)%Z → (inject_Z (2 ^ n) == 2 ^ n)%Q.
Proof. intros H. by rewrite Zpower_Qpower. Qed.

Lemma pow2_cancel (a b : Z) : (2 ^ a * / 2 ^ b * 2 ^ b == 2 ^ a)%Q.
Proof. field. apply Qnot_eq_sym, Qlt_not_eq, pow2_pos. Qed.

(** The leading bit of a positive rational. *)
Lemma Qlog2_spec (q : Q) :
  (0 < q)%Q → (2 ^ Qlog2 q <= q)%Q ∧ (q < 2 ^ (Qlog2 q + 1))%Q.
Proof.
  intros Hq. destruct q as [n d]. unfold Qlog2. cbn [Qnum Qden].
  assert (Hn : (0 < n)%Z) by (unfold Qlt in Hq; simpl in Hq; lia).
  set (a := Z.log2 n). set (b := Z.log2 (Z.pos d)).
  pose proof (Z.log2_spec n Hn) as [Ha1 Ha2]. fold a in Ha1, Ha2.
  pose proof (Z.log2_spec (Z.pos d) ltac:(lia)) as [Hb1 Hb2]. fold b in Hb1, Hb2.
  pose proof (Z.log2_nonneg n) as Ha0. pose proof (Z.log2_nonneg (Z.pos d)) as Hb0.
  fold a in Ha0. fold b in Hb0.
  assert (Hqn : (n # d == inject_Z n / inject_Z (Z.pos d))%Q) by apply Qmake_Qdiv.
  assert (Hd : (0 < inject_Z (Z.pos d))%Q) by (unfold Qlt; simpl; lia).
  (* n / d < 2^(a+1) / 2^b and 2^a / 2^(b+1) < n / d *)
  assert (Hup : (n # d < 2 ^ (a - b + 1))%Q).
  { rewrite Hqn. apply Qlt_shift_div_r; [done|].
    replace (a - b + 1)%Z with ((a + 1) + - b)%Z by lia.
    rewrite pow2_plus, Qpower_opp.
    apply Qlt_le_trans with (2 ^ (a + 1) * / 2 ^ b * 2 ^ b)%Q.
    - rewrite pow2_cancel.
      rewrite <- pow2_inject by lia. rewrite <- Zlt_Qlt. lia.
    - apply Qmult_le_l.
      + apply Qmult_lt_0_compat; [apply pow2_pos|apply Qinv_lt_0_compat, pow2_pos].
      + rewrite <- pow2_inject by lia. rewrite <- Zle_Qle. lia. }
  assert (Hlo : (2 ^ (a - b - 1) < n # d)%Q).
  { rewrite Hqn. apply Qlt_shift_div_l; [done|].
    replace (a - b - 1)%Z with (a + - (b + 1))%Z by lia.
    rewrite pow2_plus, Qpower_opp.
    apply Qlt_le_trans with (2 ^ a * / 2 ^ (b + 1) * 2 ^ (b + 1))%Q.
    - apply Qmult_lt_l.
      + apply Qmult_lt_0_compat; [apply pow2_pos|apply Qinv_lt_0_compat, pow2_pos].
      + rewrite <- pow2_inject by lia. rewrite <- Zlt_Qlt. lia.
    - rewrite pow2_cancel.
      rewrite <- pow2_inject by lia. rewrite <- Zle_Qle. lia. }
  destruct (Qle_bool (2 ^ (a - b)) (n # d)) eqn:E.
  - apply Qle_bool_iff in E. split; [done|done].
  - split.
    + by apply Qlt_le_weak.
    + replace (a - b - 1 + 1)%Z with (a - b)%Z by lia.
      apply Qnot_le_lt. intros Hle. apply Qle_bool_iff in Hle. congruence.
Qed.

Lemma inject_Z_half_ge (k : Z) : (- (1 # 2) <= inject_Z k)%Q → (0 ≤ k)%Z.
Proof. unfold Qle. simpl. lia. Qed.

(** ** Rounding to binary64 *)

Lemma round_pos_near (q : Q) :
  (0 < q)%Q →
  (q - (1 # 2) * 2 ^ ulp_exp q <= round_pos q)%Q ∧
  (round_pos q <= q + (1 # 2) * 2 ^ ulp_exp q)%Q ∧
  (0 <= round_pos q)%Q.
Proof.
  intros Hq. unfold round_pos. cbv zeta.
  set (e := ulp_exp q). pose proof (pow2_pos e) as He.
  set (x := (q / 2 ^ e)%Q).
  destruct (round_half_even_near x) as [Hlo Hhi].
  set (m := inject_Z (round_half_even x)) in *.
  assert (Hx : (q == x * 2 ^ e)%Q).
  { unfold x. field. apply Qnot_eq_sym, Qlt_not_eq, He. }
  assert (Hx0 : (0 < x)%Q).
  { unfold x. apply Qlt_shift_div_l; [done|]. lra. }
  assert (Hm0 : (0 <= m)%Q).
  { assert (Hz : (0 ≤ round_half_even x)%Z) by (apply inject_Z_half_ge; fold m; lra).
    unfold m, Qle. simpl. lia. }
  pose proof (Qmult_le_compat_r _ _ (2 ^ e) Hlo ltac:(by apply Qlt_le_weak)) as Hlo'.
  pose proof (Qmult_le_compat_r _ _ (2 ^ e) Hhi ltac:(by apply Qlt_le_weak)) as Hhi'.
  pose proof (Qmult_le_0_compat _ _ Hm0 ltac:(by apply Qlt_le_weak, He)) as Hm'.
  repeat split; lra.
Qed.

Lemma half_ulp_bound (q : Q) :
  (0 < q)%Q → ((1 # 2) * 2 ^ ulp_exp q <= q * 2 ^ (-53) + 2 ^ (-1075))%Q.
Proof.
  intros Hq. destruct (Qlog2_spec q Hq) as [Hl _].
  pose proof (pow2_pos (-1075)) as Hs.
  assert (Hq' : (0 <= q * 2 ^ (-53))%Q)
    by (apply Qmult_le_0_compat; [by apply Qlt_le_weak|by apply Qlt_le_weak, pow2_pos]).
  unfold ulp_exp. destruct (Z.max_spec (Qlog2 q - 52) (-1074)) as [[_ ->]|[_ ->]].
  - assert (E : ((1 # 2) * 2 ^ (-1074) == 2 ^ (-1075))%Q) by reflexivity.
    rewrite E. lra.
  - replace (Qlog2 q - 52)%Z with (Qlog2 q + (-53) + 1)%Z by lia.
    rewrite pow2_S, pow2_plus.
    assert (H : (2 ^ Qlog2 q * 2 ^ (-53) <= q * 2 ^ (-53))%Q)
      by (apply Qmult_le_compat_r; [done|by apply Qlt_le_weak, pow2_pos]).
    lra.
Qed.

Lemma round_pos_error (q : Q) :
  (0 < q)%Q →
  (q - (q * 2 ^ (-53) + 2 ^ (-1075)) <= round_pos q)%Q ∧
  (round_pos q <= q + (q * 2 ^ (-53) + 2 ^ (-1075)))%Q ∧
  (0 <= round_pos q)%Q.
Proof.
  intros Hq. destruct (round_pos_near q Hq) as (Hlo & Hhi & H0).
  pose proof (half_ulp_bound q Hq). repeat split; lra.
Qed.

Lemma round64_cases (q : Q) :
  ((q == 0)%Q ∧ round64 q = Num 0) ∨
  ((0 < q)%Q ∧ ((2 ^ 1024 <= round_pos q)%Q ∧ round64 q = PosInf ∨
                (round_pos q < 2 ^ 1024)%Q ∧ round64 q = Num (round_pos q))) ∨
  ((q < 0)%Q ∧ ((2 ^ 1024 <= round_pos (- q))%Q ∧ round64 q = NegInf ∨
                (round_pos (- q) < 2 ^ 1024)%Q ∧ round64 q = Num (- round_pos (- q)))).
Proof.
  unfold round64. destruct (q ?= 0)%Q eqn:E.
  - left. split; [by apply Qeq_alt|done].
  - right. right. apply Qlt_alt in E. split; [done|]. cbv zeta.
    destruct (Qle_bool (2 ^ 1024) (round_pos (- q))) eqn:B.
    + left. split; [by apply Qle_bool_iff|done].
    + right. split; [|done]. apply Qnot_le_lt. intros H.
      apply Qle_bool_iff in H. congruence.
  - right. left. apply Qgt_alt in E. split; [done|]. cbv zeta.
    destruct (Qle_bool (2 ^ 1024) (round_pos q)) eqn:B.
    + left. split; [by apply Qle_bool_iff|done].
    + right. split; [|done]. apply Qnot_le_lt. intros H.
      apply Qle_bool_iff in H. congruence.
Qed.

Lemma round64_zero (q : Q) : (q == 0)%Q → round64 q = Num 0.
Proof. intros H. unfold round64. apply Qeq_alt in H. by rewrite H. Qed.

Lemma round64_not_nan (q : Q) : round64 q ≠ NaN.
Proof.
  destruct (round64_cases q) as [[_ ->]|[[_ [[_ ->]|[_ ->]]]|[_ [[_ ->]|[_ ->]]]]]; done.
Qed.

(** The error of one rounding: half a unit in the last place, that is at
    most [2^-53] relative to the value, or [2^-1075] in the subnormal range. *)
Lemma round64_error (q v : Q) :
  round64 q = Num v →
  (Qabs (v - q) <= Qabs q * 2 ^ (-53) + 2 ^ (-1075))%Q.
Proof.
  intros Hv. pose proof (pow2_pos (-1075)) as Hs.
  destruct (round64_cases q) as [[H0 E]|[[Hq [[_ E]|[_ E]]]|[Hq [[_ E]|[_ E]]]]];
    rewrite E in Hv; try done; injection Hv as <-.
  - rewrite H0. change (Qabs (0 - 0)) with 0%Q. change (Qabs 0) with 0%Q. lra.
  - destruct (round_pos_error q Hq) as (Hlo & Hhi & _).
    rewrite (Qabs_pos q) by lra. apply Qabs_Qle_condition. split; lra.
  - destruct (round_pos_error (- q) ltac:(lra)) as (Hlo & Hhi & _).
    rewrite (Qabs_neg q) by lra. apply Qabs_Qle_condition. split; lra.
Qed.

Lemma round64_finite (q : Q) :
  (Qabs q <= 2 ^ 1023)%Q → ∃ v, round64 q = Num v.
Proof.
  intros Hb.
  destruct (round64_cases q) as [[H0 E]|[[Hq [[Hov E]|[_ E]]]|[Hq [[Hov E]|[_ E]]]]];
    try by eexists.
  - destruct (round_pos_error q Hq) as (_ & Hhi & _).
    rewrite (Qabs_pos q) in Hb by lra. lra.
  - destruct (round_pos_error (- q) ltac:(lra)) as (_ & Hhi & _).
    rewrite (Qabs_neg q) in Hb by lra. lra.
Qed.

Lemma round64_nonneg (q : Q) :
  (0 <= q)%Q → round64 q = PosInf ∨ ∃ v, round64 q = Num v ∧ (0 <= v)%Q.
Proof.
  intros Hq.
  destruct (round64_cases q) as [[H0 E]|[[Hq' [[_ E]|[_ E]]]|[Hq' _]]].
  - right. exists 0%Q. split; [done|lra].
  - by left.
  - right. eexists. split; [done|]. by destruct (round_pos_error q Hq') as (_ & _ & ?).
  - lra.
Qed.

Lemma round64_nonpos (q : Q) :
  (q <= 0)%Q → round64 q = NegInf ∨ ∃ v, round64 q = Num v ∧ (v <= 0)%Q.
Proof.
  intros Hq.
  destruct (round64_cases q) as [[H0 E]|[[Hq' _]|[Hq' [[_ E]|[_ E]]]]].
  - right. exists 0%Q. split; [done|lra].
  - lra.
  - by left.
  - right. eexists. split; [done|].
    destruct (round_pos_error (- q) ltac:(lra)) as (_ & _ & ?). lra.
Qed.

(** One rounding step of an error analysis: [q] approximates [t] within
    [A], and [t] is at most [T] in size. *)
Lemma round64_step (q t A T : Q) :
  (Qabs (q - t) <= A)%Q → (Qabs t <= T)%Q → (T + A <= 2 ^ 1023)%Q →
  ∃ v, round64 q = Num v ∧
       (Qabs (v - t) <= A + (T + A) * 2 ^ (-53) + 2 ^ (-1075))%Q.
Proof.
  intros HA HT Hb.
  assert (Hq : (Qabs q <= T + A)%Q).
  { apply Qabs_Qle_condition in HA, HT. apply Qabs_Qle_condition. split; lra. }
  destruct (round64_finite q ltac:(lra)) as [v Hv]. exists v. split; [done|].
  pose proof (round64_error q v Hv) as He.
  assert (Hm : (Qabs q * 2 ^ (-53) <= (T + A) * 2 ^ (-53))%Q)
    by (apply Qmult_le_compat_r; [done|by apply Qlt_le_weak, pow2_pos]).
  apply Qabs_Qle_condition in HA, He. apply Qabs_Qle_condition. split; lra.
Qed.

(** ** The arithmetic of one percentage cell *)

Lemma Qabs_div (s b : Q) : ¬ (b == 0)%Q → (Qabs (s / b) == Qabs s / Qabs b)%Q.
Proof. intros Hb. unfold Qdiv. by rewrite Qabs_Qmult, Qabs_Qinv. Qed.

Lemma Qabs_pos_lt (b : Q) : ¬ (b == 0)%Q → (0 < Qabs b)%Q.
Proof.
  intros Hb. apply Qabs_case; intros H.
  - destruct (Qle_lt_or_eq _ _ H) as [|E]; [done|]. destruct Hb. by symmetry.
  - destruct (Qle_lt_or_eq _ _ H) as [|E]; [lra|]. by destruct Hb.
Qed.

Lemma pct_cell_float (a b : Q) :
  (2 ^ (-1022) <= Qabs b)%Q →
  (Qabs (a - b) <= 2 ^ 1023)%Q →
  (Qabs ((a - b) / b) <= 2 ^ 1000)%Q →
  ∃ (x : Q) (k : Z),
    fround2 (fmul (fdiv (fsub (Num a) (Num b)) (Num b)) (Num 100)) = Num x ∧
    round64 (inject_Z k / 100) = Num x ∧
    (Qabs (x - (a - b) / b * 100)
     <= (1 # 200) + Qabs ((a - b) / b * 100) * (1 # 1000000000000000)
        + (1 # 1000000000000))%Q.
Proof.
  intros Hb Hs HX.
  pose proof (pow2_pos (-1022)) as Hp.
  assert (Hb0 : ¬ (b == 0)%Q).
  { intros E. rewrite E in Hb. change (Qabs 0) with 0%Q in Hb. lra. }
  assert (Hbp : (0 < Qabs b)%Q) by lra.
  set (s := (a - b)%Q) in *. set (X := (s / b)%Q) in *.
  unfold fround2. cbn [fsub]. fold s.
  (* the difference *)
  destruct (round64_step s s 0 (Qabs s)) as (d & -> & Hd);
    [setoid_replace (s - s)%Q with 0%Q using relation Qeq by ring; done|lra|lra|].
  (* the quotient *)
  cbn [fdiv].
  destruct (Qeq_bool b 0) eqn:E; [by apply Qeq_bool_iff in E|].
  assert (Hinv : (/ Qabs b <= 2 ^ 1022)%Q).
  { apply Qle_shift_inv_r; [done|].
    apply Qle_trans with (2 ^ 1022 * 2 ^ (-1022))%Q; [by vm_compute|].
    apply Qmult_le_l; [by apply pow2_pos|done]. }
  assert (Hinv0 : (0 <= / Qabs b)%Q) by (apply Qinv_le_0_compat; lra).
  assert (HD : (Qabs (d / b - X) <= Qabs X * 2 ^ (-53) + 2 ^ (-53))%Q).
  { unfold X.
    setoid_replace (d / b - s / b)%Q with ((d - s) / b)%Q using relation Qeq
      by (field; done).
    rewrite !Qabs_div by done. unfold Qdiv.
    pose proof (Qmult_le_compat_r _ _ (/ Qabs b) Hd Hinv0) as H1.
    pose proof (Qmult_le_compat_r _ _ (2 ^ (-1075)) Hinv ltac:(by vm_compute)) as H2.
    assert (E1 : (2 ^ 1022 * 2 ^ (-1075) == 2 ^ (-53))%Q) by (by vm_compute).
    lra. }
  destruct (round64_step (d / b) X _ (Qabs X) HD ltac:(lra) ltac:(lra)) as (y1 & -> & Hy1).
  (* times 100 *)
  cbn [fmul].
  assert (H100 : ∀ q t A, (Qabs (q - t) <= A)%Q → (Qabs (q * 100 - t * 100) <= A * 100)%Q).
  { intros q t A H. apply Qabs_Qle_condition in H. apply Qabs_Qle_condition. split; lra. }
  assert (HT100 : ∀ t T, (Qabs t <= T)%Q → (Qabs (t * 100) <= T * 100)%Q).
  { intros t T H. apply Qabs_Qle_condition in H. apply Qabs_Qle_condition. split; lra. }
  pose proof (Qabs_nonneg X) as HX0.
  destruct (round64_step (y1 * 100) (X * 100) _ (Qabs X * 100) (H100 _ _ _ Hy1)
              (HT100 _ _ (Qle_refl _)) ltac:(lra)) as (y2 & -> & Hy2).
  (* the rounding to two decimals *)
  cbn [fmul].
  destruct (round64_step (y2 * 100) (X * 100 * 100) _ (Qabs X * 100 * 100)
              (H100 _ _ _ Hy2) (HT100 _ _ (HT100 _ _ (Qle_refl _))) ltac:(lra))
    as (y3 & -> & Hy3).
  cbn [frint fdiv]. change (Qeq_bool 100 0) with false. cbv iota.
  destruct (round_half_even_near y3) as [Hklo Hkhi].
  set (k := round_half_even y3) in *.
  assert (Hk : ∀ B, (Qabs (y3 - X * 100 * 100) <= B)%Q →
                     (Qabs (inject_Z k / 100 - X * 100) <= (1 # 200) + B * (1 # 100))%Q).
  { intros B HB. apply Qabs_Qle_condition in HB. apply Qabs_Qle_condition.
    unfold Qdiv. change (/ 100)%Q with (1 # 100)%Q. split; lra. }
  destruct (round64_step (inject_Z k / 100) (X * 100) _ (Qabs X * 100) (Hk _ Hy3)
              (HT100 _ _ (Qle_refl _)) ltac:(lra)) as (x & Hx & Hxe).
  exists x, k. split; [done|]. split; [done|].
  assert (EX : (Qabs (X * 100) == Qabs X * 100)%Q) by (by rewrite Qabs_Qmult).
  rewrite EX. lra.
Qed.

(** ** Skip-NaN extremes are extremes *)

Section Extreme.
Variable le_b : fval → fval → bool.
Hypothesis le_total : ∀ a b, a ≠ NaN → b ≠ NaN → le_b a b = true ∨ le_b b a = true.
Hypothesis le_trans : ∀ a b c, le_b a b = true → le_b b c = true → le_b a c = true.

Lemma pick_nan (a b : fval) : pick le_b a b = NaN ↔ a = NaN ∧ b = NaN.
Proof.
  destruct a, b; simpl; try tauto;
    try (destruct (le_b _ _)); split; try discriminate; intros [? ?]; discriminate.
Qed.

Lemma nan_extreme_nan (l : list fval) :
  nan_extreme le_b l = NaN ↔ ∀ x, x ∈ l → x = NaN.
Proof.
  induction l as [|y l IH]; simpl.
  - split; [intros _ x Hx; inversion Hx|done].
  - rewrite pick_nan, IH. split.
    + intros [-> Hl] x Hx. apply elem_of_cons in Hx as [->|Hx]; auto.
    + intros H. split; [apply H; left|intros x Hx; apply H; by right].
Qed.

Lemma nan_extreme_elem (l : list fval) :
  nan_extreme le_b l ≠ NaN → nan_extreme le_b l ∈ l.
Proof.
  induction l as [|y l IH]; simpl; [done|].
  intros Hne. fold (nan_extreme le_b l) in *.
  destruct y; simpl in *; try (right; by apply IH);
    destruct (nan_extreme le_b l) eqn:E;
    try (left; reflexivity);
    destruct (le_b _ _); try (left; reflexivity); right; apply IH; discriminate.
Qed.

Lemma nan_extreme_bound (l : list fval) (x : fval) :
  x ∈ l → x ≠ NaN → le_b x (nan_extreme le_b l) = true.
Proof.
  induction l as [|y l IH]; simpl; [intros Hx; inversion Hx|].
  fold (nan_extreme le_b l).
  intros Hx Hnan. apply elem_of_cons in Hx as [->|Hx].
  - assert (Hrefl : le_b y y = true) by (destruct (le_total y y Hnan Hnan); done).
    destruct y; try done; simpl;
      destruct (nan_extreme le_b l); try done;
      match goal with |- context [if ?c then _ else _] => destruct c eqn:E end; done.
  - specialize (IH Hx Hnan).
    assert (HE : nan_extreme le_b l ≠ NaN).
    { intros HE. rewrite nan_extreme_nan in HE. by apply Hnan, HE. }
    destruct y; simpl; try done;
      destruct (nan_extreme le_b l) eqn:E; try done;
      match goal with |- context [if ?c then _ else _] => destruct c eqn:E' end;
      try done;
      match type of E' with
      | le_b ?a ?b = false =>
          destruct (le_total a b ltac:(discriminate) ltac:(discriminate)) as [Hab|Hba];
          [congruence|exact (le_trans _ _ _ IH Hba)]
      end.
Qed.
End Extreme.

Lemma fval_nan_dec (v : fval) : v = NaN ∨ v ≠ NaN.
Proof. destruct v; [by left|right..]; discriminate. Qed.

Lemma nanmax_extreme (l : list fval) : extreme_of fle_b l (nanmax l).
Proof.
  unfold extreme_of, nanmax. destruct (fval_nan_dec (nan_extreme fle_b l)) as [E|E].
  - left. split; [done|]. exact (proj1 (nan_extreme_nan _ _) E).
  - right. split; [done|]. split; [by apply nan_extreme_elem|].
    intros x Hx Hn. apply nan_extreme_bound; eauto using fle_b_total, fle_b_trans.
Qed.

Lemma nanmin_extreme (l : list fval) : extreme_of fge_b l (nanmin l).
Proof.
  unfold extreme_of, nanmin. destruct (fval_nan_dec (nan_extreme fge_b l)) as [E|E].
  - left. split; [done|]. exact (proj1 (nan_extreme_nan _ _) E).
  - right. split; [done|]. split; [by apply nan_extreme_elem|].
    intros x Hx Hn. apply nan_extreme_bound; eauto using fge_b_total, fge_b_trans.
Qed.

(** ** Windows by position *)

Lemma elem_of_iloc_slice {A} (a b : Z) (l : list A) (x : A) :
  (0 ≤ a)%Z → (0 ≤ b)%Z →
  x ∈ iloc_slice a b l ↔ ∃ j : nat, (a ≤ Z.of_nat j < b)%Z ∧ l !! j = Some x.
Proof.
  intros Ha Hb. unfold iloc_slice, py_index.
  destruct (Z.ltb_spec a 0), (Z.ltb_spec b 0); try lia.
  rewrite elem_of_take. split.
  - intros (i & Hi & Hlt). rewrite lookup_drop in Hi.
    eexists. split; [|exact Hi]. apply lookup_lt_Some in Hi. lia.
  - intros (j & Hj & Hx). exists (j - Z.to_nat a)%nat.
    apply lookup_lt_Some in Hx as Hlt. rewrite lookup_drop.
    replace (Z.to_nat (a `min` Z.of_nat (length l)) + (j - Z.to_nat a))%nat with j by lia.
    split; [done|lia].
Qed.

Lemma nanmax_iloc_slice (xs : list fval) (a b : Z) :
  (0 ≤ a)%Z → (0 ≤ b + 1)%Z → max_over xs a b (nanmax (iloc_slice a (b + 1) xs)).
Proof.
  intros Ha Hb.
  assert (Hcell : ∀ x, x ∈ iloc_slice a (b + 1) xs ↔ cell_in xs a b x).
  { intros x. rewrite elem_of_iloc_slice by lia. unfold cell_in.
    split; intros (j & Hj & Hx); exists j; (split; [lia|done]). }
  destruct (nanmax_extreme (iloc_slice a (b + 1) xs)) as [[E Hall]|(E & Hin & Hub)].
  - left. split; [done|]. intros x Hx. by apply Hall, Hcell.
  - right. split; [done|]. split; [by apply Hcell|].
    intros x Hx Hn. apply fle_b_spec, Hub; [by apply Hcell|done].
Qed.

Lemma nanmin_iloc_slice (xs : list fval) (a b : Z) :
  (0 ≤ a)%Z → (0 ≤ b + 1)%Z → min_over xs a b (nanmin (iloc_slice a (b + 1) xs)).
Proof.
  intros Ha Hb.
  assert (Hcell : ∀ x, x ∈ iloc_slice a (b + 1) xs ↔ cell_in xs a b x).
  { intros x. rewrite elem_of_iloc_slice by lia. unfold cell_in.
    split; intros (j & Hj & Hx); exists j; (split; [lia|done]). }
  destruct (nanmin_extreme (iloc_slice a (b + 1) xs)) as [[E Hall]|(E & Hin & Hub)].
  - left. split; [done|]. intros x Hx. by apply Hall, Hcell.
  - right. split; [done|]. split; [by apply Hcell|].
    intros x Hx Hn. apply fle_b_spec. apply (Hub x); [by apply Hcell|done].
Qed.

(** ** Rolling windows *)

Lemma count_valid_0 (w : list fval) : count_valid w = 0%nat → ∀ x, x ∈ w → x = NaN.
Proof.
  unfold count_valid. induction w as [|y w IH]; simpl; intros H x Hx.
  - inversion Hx.
  - destruct y; simpl in H; try discriminate.
    apply elem_of_cons in Hx as [->|Hx]; [done|by apply IH].
Qed.

Lemma lookup_range (n i : nat) : (i < n)%nat → range n !! i = Some (Z.of_nat i).
Proof. intros H. unfold range. by rewrite lookup_seqZ_lt by lia. Qed.

Lemma length_range (n : nat) : length (range n) = n.
Proof. unfold range. rewrite length_seqZ. lia. Qed.

Lemma length_prep_values (xs : list fval) : length (prep_values xs) = length xs.
Proof. unfold prep_values. by rewrite length_fmap. Qed.

Lemma lookup_prep_values (xs : list fval) (j : nat) :
  prep_values xs !! j = (λ x, if is_inf x then NaN else x) <$> xs !! j.
Proof. unfold prep_values. by rewrite list_lookup_fmap. Qed.

Lemma prep_values_finite (xs : list fval) :
  Forall (λ x, is_inf x = false) xs → prep_values xs = xs.
Proof.
  unfold prep_values. induction 1 as [|x xs Hx _ IH]; [done|].
  rewrite fmap_cons, IH. by rewrite Hx.
Qed.

(** A cell of the prepared column is a cell of the column, with NaN for an
    infinite one. *)
Lemma cell_in_prep_values (xs : list fval) (a b : Z) (y : fval) :
  cell_in (prep_values xs) a b y ↔
  ∃ x, cell_in xs a b x ∧ y = (if is_inf x then NaN else x).
Proof.
  unfold cell_in. split.
  - intros (j & Hj & Hy). rewrite lookup_prep_values in Hy.
    destruct (xs !! j) as [x|] eqn:E; [|done]. injection Hy as <-.
    exists x. split; [by exists j|done].
  - intros (x & (j & Hj & Hx) & ->). exists j. split; [done|].
    by rewrite lookup_prep_values, Hx.
Qed.

Lemma max_over_prep_values (xs : list fval) (a b : Z) (v : fval) :
  max_over (prep_values xs) a b v → max_finite_over xs a b v.
Proof.
  intros [[-> Hall]|(Hv & Hin & Hub)].
  - left. split; [done|]. intros x Hx.
    specialize (Hall (if is_inf x then NaN else x)).
    rewrite cell_in_prep_values in Hall.
    destruct x; try done. by discriminate Hall; [exists (Num q)].
  - apply cell_in_prep_values in Hin as (x & Hx & ->).
    right. destruct x; try done. split; [done|]. split; [done|].
    intros y Hy Hfin. apply Hub; [|by destruct y].
    apply cell_in_prep_values. exists y. split; [done|]. by destruct y.
Qed.

Lemma min_over_prep_values (xs : list fval) (a b : Z) (v : fval) :
  min_over (prep_values xs) a b v → min_finite_over xs a b v.
Proof.
  intros [[-> Hall]|(Hv & Hin & Hub)].
  - left. split; [done|]. intros x Hx.
    specialize (Hall (if is_inf x then NaN else x)).
    rewrite cell_in_prep_values in Hall.
    destruct x; try done. by discriminate Hall; [exists (Num q)].
  - apply cell_in_prep_values in Hin as (x & Hx & ->).
    right. destruct x; try done. split; [done|]. split; [done|].
    intros y Hy Hfin. apply Hub; [|by destruct y].
    apply cell_in_prep_values. exists y. split; [done|]. by destruct y.
Qed.

Lemma rolling_extreme (le_b : fval → fval → bool) (W : Z) (xs : list fval) :
  (1 ≤ W)%Z →
  ∃ r, rolling (nan_extreme le_b) W 1 xs = Ok r ∧ length r = length xs ∧
       ∀ i : nat, (i < length xs)%nat →
         r !! i = Some (nan_extreme le_b
                          (iloc_slice (Z.max 0 (Z.of_nat i - W + 1)) (Z.of_nat i + 1)
                             (prep_values xs))).
Proof.
  intros HW. unfold rolling.
  destruct (Z.ltb_spec W 0); [lia|]. destruct (Z.ltb_spec W 1); [lia|].
  cbv zeta. rewrite length_prep_values.
  eexists. split; [reflexivity|]. split.
  - by rewrite length_fmap, length_range.
  - intros i Hi. rewrite list_lookup_fmap, lookup_range by done. simpl. f_equal.
    destruct (Z.ltb_spec (Z.of_nat (count_valid
      (iloc_slice (Z.max 0 (Z.of_nat i - W + 1)) (Z.of_nat i + 1) (prep_values xs)))) 1)
      as [Hc|Hc]; [|done].
    symmetry. apply nan_extreme_nan. apply count_valid_0. lia.
Qed.

(** ** Trailing extremes *)

Lemma trailing_high_rows (data : DataFrame) (high : list fval) (W : Z) :
  getitem data "High" = Ok (FloatS high) → (1 ≤ W)%Z →
  ∃ th, utils.calculate_historical_high data W = Ok (FloatS th) ∧
        length th = length high ∧
        ∀ i : nat, (i < length high)%nat →
          ∃ v, th !! i = Some v ∧
               max_finite_over high (Z.max 0 (Z.of_nat i - W + 1)) (Z.of_nat i) v.
Proof.
  intros Hh HW. unfold utils.calculate_historical_high. rewrite Hh. simpl.
  destruct (rolling_extreme fle_b W high HW) as (r & Hr & Hlen & Hrow).
  fold nanmax in Hr. unfold mbind at 1. rewrite Hr. simpl.
  exists r. split; [done|]. split; [done|].
  intros i Hi. eexists. split; [by apply Hrow|].
  apply max_over_prep_values, nanmax_iloc_slice; lia.
Qed.

Lemma trailing_low_rows (data : DataFrame) (low : list fval) (W : Z) :
  getitem data "Low" = Ok (FloatS low) → (1 ≤ W)%Z →
  ∃ tl, utils.calculate_historical_low data W = Ok (FloatS tl) ∧
        length tl = length low ∧
        ∀ i : nat, (i < length low)%nat →
          ∃ v, tl !! i = Some v ∧
               min_finite_over low (Z.max 0 (Z.of_nat i - W + 1)) (Z.of_nat i) v.
Proof.
  intros Hl HW. unfold utils.calculate_historical_low. rewrite Hl. simpl.
  destruct (rolling_extreme fge_b W low HW) as (r & Hr & Hlen & Hrow).
  fold nanmin in Hr. unfold mbind at 1. rewrite Hr. simpl.
  exists r. split; [done|]. split; [done|].
  intros i Hi. eexists. split; [by apply Hrow|].
  apply min_over_prep_values, nanmin_iloc_slice; lia.
Qed.

Lemma max_over_defined (xs : list fval) (a b : Z) (v : fval) :
  max_over xs a b v → (v ≠ NaN ↔ ∃ x, cell_in xs a b x ∧ x ≠ NaN).
Proof.
  intros [[-> Hall]|(Hv & Hin & _)]; split; try done.
  - intros (x & Hx & Hn) _. by apply Hn, Hall.
  - intros _. by exists v.
Qed.

Lemma min_over_defined (xs : list fval) (a b : Z) (v : fval) :
  min_over xs a b v → (v ≠ NaN ↔ ∃ x, cell_in xs a b x ∧ x ≠ NaN).
Proof.
  intros [[-> Hall]|(Hv & Hin & _)]; split; try done.
  - intros (x & Hx & Hn) _. by apply Hn, Hall.
  - intros _. by exists v.
Qed.

Lemma max_finite_over_defined (xs : list fval) (a b : Z) (v : fval) :
  max_finite_over xs a b v →
  (v ≠ NaN ↔ ∃ x, cell_in xs a b x ∧ is_finite x = true).
Proof.
  intros [[-> Hall]|(Hv & Hin & _)]; split; try done.
  - intros (x & Hx & Hn) _. rewrite (Hall x Hx) in Hn. discriminate.
  - intros _. by exists v.
  - intros _ ->. discriminate.
Qed.

Lemma min_finite_over_defined (xs : list fval) (a b : Z) (v : fval) :
  min_finite_over xs a b v →
  (v ≠ NaN ↔ ∃ x, cell_in xs a b x ∧ is_finite x = true).
Proof.
  intros [[-> Hall]|(Hv & Hin & _)]; split; try done.
  - intros (x & Hx & Hn) _. rewrite (Hall x Hx) in Hn. discriminate.
  - intros _. by exists v.
  - intros _ ->. discriminate.
Qed.

(** Where the window holds no infinite cell, the finite values are the
    available ones. *)
Lemma max_finite_over_no_inf (xs : list fval) (a b : Z) (v : fval) :
  (∀ x, cell_in xs a b x → is_inf x = false) →
  max_finite_over xs a b v → max_over xs a b v.
Proof.
  intros Hinf [[-> Hall]|(Hv & Hin & Hub)].
  - left. split; [done|]. intros x Hx.
    pose proof (Hall x Hx). pose proof (Hinf x Hx). by destruct x.
  - right. split; [by destruct v|]. split; [done|].
    intros x Hx Hn. apply Hub; [done|]. pose proof (Hinf x Hx). by destruct x.
Qed.

Lemma min_finite_over_no_inf (xs : list fval) (a b : Z) (v : fval) :
  (∀ x, cell_in xs a b x → is_inf x = false) →
  min_finite_over xs a b v → min_over xs a b v.
Proof.
  intros Hinf [[-> Hall]|(Hv & Hin & Hub)].
  - left. split; [done|]. intros x Hx.
    pose proof (Hall x Hx). pose proof (Hinf x Hx). by destruct x.
  - right. split; [by destruct v|]. split; [done|].
    intros x Hx Hn. apply Hub; [done|]. pose proof (Hinf x Hx). by destruct x.
Qed.

(** C1, as amended.  For every frame with float columns [High] and [Low] and
    every window length [W >= 1], the trailing-high column has one cell per
    row, and its cell at row [i] is the maximum of the finite values of
    [High] over the rows [max(0, i-W+1) .. i]: the rolling window skips
    missing cells and, as pandas prepares the column, infinite cells too.
    The cell holds a value exactly when that window holds at least one finite
    value, so the short windows of the first [W-1] rows never make it
    undefined, and a row whose own high is finite always gets a value.  Where
    the window holds no infinite cell, the cell is the maximum of the
    available values.  The trailing-low column is the symmetric minimum over
    [Low]. *)
Theorem trailing_extremes_are_window_extremes
    (data : DataFrame) (high low : list fval) (W : Z) :
  getitem data "High" = Ok (FloatS high) →
  getitem data "Low" = Ok (FloatS low) →
  (1 ≤ W)%Z →
  ∃ th tl,
    utils.calculate_historical_high data W = Ok (FloatS th) ∧
    utils.calculate_historical_low data W = Ok (FloatS tl) ∧
    length th = length high ∧ length tl = length low ∧
    (∀ (i : nat) (x : fval), high !! i = Some x →
       ∃ v, th !! i = Some v ∧
            max_finite_over high (Z.max 0 (Z.of_nat i - W + 1)) (Z.of_nat i) v ∧
            (v ≠ NaN ↔
               ∃ y, cell_in high (Z.max 0 (Z.of_nat i - W + 1)) (Z.of_nat i) y ∧
                    is_finite y = true) ∧
            (is_finite x = true → v ≠ NaN) ∧
            ((∀ y, cell_in high (Z.max 0 (Z.of_nat i - W + 1)) (Z.of_nat i) y →
                   is_inf y = false) →
             max_over high (Z.max 0 (Z.of_nat i - W + 1)) (Z.of_nat i) v)) ∧
    (∀ (i : nat) (x : fval), low !! i = Some x →
       ∃ v, tl !! i = Some v ∧
            min_finite_over low (Z.max 0 (Z.of_nat i - W + 1)) (Z.of_nat i) v ∧
            (v ≠ NaN ↔
               ∃ y, cell_in low (Z.max 0 (Z.of_nat i - W + 1)) (Z.of_nat i) y ∧
                    is_finite y = true) ∧
            (is_finite x = true → v ≠ NaN) ∧
            ((∀ y, cell_in low (Z.max 0 (Z.of_nat i - W + 1)) (Z.of_nat i) y →
                   is_inf y = false) →
             min_over low (Z.max 0 (Z.of_nat i - W + 1)) (Z.of_nat i) v)).
Proof.
  intros Hh Hl HW.
  destruct (trailing_high_rows data high W Hh HW) as (th & Hth & Hlh & Hrh).
  destruct (trailing_low_rows data low W Hl HW) as (tl & Htl & Hll & Hrl).
  exists th, tl. repeat split; try done.
  - intros i x Hx. destruct (Hrh i) as (v & Hv & Hmax); [by eapply lookup_lt_Some|].
    exists v. split; [done|]. split; [done|].
    split; [by apply max_finite_over_defined|]. split.
    + intros Hn. apply (max_finite_over_defined _ _ _ _ Hmax).
      exists x. split; [|done]. exists i. split; [lia|done].
    + intros Hinf. by apply max_finite_over_no_inf.
  - intros i x Hx. destruct (Hrl i) as (v & Hv & Hmin); [by eapply lookup_lt_Some|].
    exists v. split; [done|]. split; [done|].
    split; [by apply min_finite_over_defined|]. split.
    + intros Hn. apply (min_finite_over_defined _ _ _ _ Hmin).
      exists x. split; [|done]. exists i. split; [lia|done].
    + intros Hinf. by apply min_finite_over_no_inf.
Qed.

Lemma trailing_extremes_witness :
  ∃ th tl,
    utils.calculate_historical_high inf_frame 2 = Ok (FloatS th) ∧
    utils.calculate_historical_low inf_frame 2 = Ok (FloatS tl) ∧
    th = [NaN; NaN; price 3; price 3] ∧ tl = [NaN; NaN; price 2; price 2].
Proof.
  destruct (trailing_extremes_are_window_extremes inf_frame
              [NaN; PosInf; price 3; NaN] [NaN; NegInf; price 2; NaN] 2)
    as (th & tl & Hth & Htl & _); [reflexivity|reflexivity|lia|].
  exists th, tl. split; [exact Hth|]. split; [exact Htl|].
  vm_compute in Hth, Htl.
  injection Hth as <-. injection Htl as <-. split; reflexivity.
Defined.

(** The reading of C1 under which every row holds a value fails on a bar
    whose high is missing: its trailing high is NaN.  The reading under
    which the cell is the maximum of the values the window holds fails on an
    infinite high: the rolling window drops it, so the row of the infinite
    high gets NaN and the next row the finite 3. *)
Lemma trailing_high_gap_counterexample :
  getitem gap_frame "High" = Ok (FloatS [NaN]) ∧
  utils.calculate_historical_high gap_frame 1 = Ok (FloatS [NaN]) ∧
  ¬ trailing_high_defined_at_every_row gap_frame [NaN] 1 ∧
  getitem inf_frame "High" = Ok (FloatS [NaN; PosInf; price 3; NaN]) ∧
  utils.calculate_historical_high inf_frame 2
  = Ok (FloatS [NaN; NaN; price 3; price 3]) ∧
  ¬ trailing_high_is_window_maximum inf_frame [NaN; PosInf; price 3; NaN] 2.
Proof.
  split; [reflexivity|]. split; [reflexivity|]. split; [|split; [reflexivity|split]].
  - intros (th & Hth & Hrow). vm_compute in Hth. injection Hth as <-.
    destruct (Hrow 0%nat) as (v & Hv & _ & Hn); [simpl; lia|].
    simpl in Hv. injection Hv as <-. by apply Hn.
  - vm_compute. reflexivity.
  - intros (th & Hth & Hrow). vm_compute in Hth. injection Hth as <-.
    destruct (Hrow 1%nat) as (v & Hv & Hmax); [simpl; lia|].
    simpl in Hv. injection Hv as <-.
    destruct Hmax as [[_ Hall]|[Hn _]]; [|done].
    discriminate (Hall PosInf). exists 1%nat. split; [lia|done].
Qed.

(** ** Forward extremes *)

Lemma mapM_Ok {A B} (f : A → result B) (g : A → B) (l : list A) :
  (∀ x, x ∈ l → f x = Ok (g x)) → mapM f l = Ok (g <$> l).
Proof.
  induction l as [|x l IH]; intros Hf; simpl; [done|].
  rewrite (Hf x) by left. simpl. rewrite IH; [done|].
  intros y Hy. apply Hf. by right.
Qed.

Lemma elem_of_range (n : nat) (i : Z) : i ∈ range n ↔ (0 ≤ i < Z.of_nat n)%Z.
Proof. unfold range. rewrite elem_of_seqZ. lia. Qed.

Lemma iloc_at_lookup {A} (l : list A) (i : nat) (x : A) :
  l !! i = Some x → iloc_at (Z.of_nat i) l = Ok x.
Proof.
  intros H. unfold iloc_at.
  destruct (Z.ltb_spec (Z.of_nat i) 0) as [|_]; [lia|].
  destruct (Z.ltb_spec (Z.of_nat i) 0) as [|_]; [lia|].
  by rewrite Nat2Z.id, H.
Qed.

(** The shared shape of [calculate_future_high] and [calculate_future_low]. *)
Lemma future_extreme_rows (agg : list fval → fval) (col : string)
    (data : DataFrame) (xs : list fval) (V : Z) :
  getitem data col = Ok (FloatS xs) → length xs = len data →
  ∃ r,
    mapM (λ i,
      if (i <? Z.of_nat (len data) - 1)%Z
      then h ← getitem data col ≫= as_float;
           Ok (agg (iloc_slice (i + 1) (Z.min (Z.of_nat (len data)) (i + V)) h))
      else h ← getitem data col ≫= as_float; iloc_at i h) (range (len data)) = Ok r ∧
    length r = len data ∧
    (∀ i : nat, (i + 1 < len data)%nat →
       r !! i = Some (agg (iloc_slice (Z.of_nat i + 1)
                             (Z.min (Z.of_nat (len data)) (Z.of_nat i + V)) xs))) ∧
    (∀ i : nat, (i + 1 = len data)%nat → r !! i = xs !! i).
Proof.
  intros Hcol Hlen.
  set (g := λ i : Z,
    if (i <? Z.of_nat (len data) - 1)%Z
    then agg (iloc_slice (i + 1) (Z.min (Z.of_nat (len data)) (i + V)) xs)
    else default NaN (xs !! Z.to_nat i)).
  exists (g <$> range (len data)). split; [|split; [|split]].
  - apply mapM_Ok. intros i Hi. apply elem_of_range in Hi.
    rewrite Hcol. simpl. unfold g.
    destruct (Z.ltb_spec i (Z.of_nat (len data) - 1)); [done|].
    destruct (lookup_lt_is_Some_2 xs (Z.to_nat i)) as [x Hx]; [lia|].
    rewrite Hx. simpl. rewrite <- (Z2Nat.id i) by lia. by apply iloc_at_lookup.
  - by rewrite length_fmap, length_range.
  - intros i Hi. rewrite list_lookup_fmap, lookup_range by lia. simpl. unfold g.
    destruct (Z.ltb_spec (Z.of_nat i) (Z.of_nat (len data) - 1)); [done|lia].
  - intros i Hi. rewrite list_lookup_fmap, lookup_range by lia. simpl. unfold g.
    destruct (Z.ltb_spec (Z.of_nat i) (Z.of_nat (len data) - 1)); [lia|].
    rewrite Nat2Z.id.
    destruct (lookup_lt_is_Some_2 xs i) as [x Hx]; [lia|]. by rewrite Hx.
Qed.

Lemma future_high_rows (data : DataFrame) (high : list fval) (V : Z) :
  getitem data "High" = Ok (FloatS high) → length high = len data →
  ∃ fh,
    utils.calculate_future_high data V = Ok (FloatS fh) ∧
    length fh = len data ∧
    (∀ i : nat, (i + 1 < len data)%nat →
       fh !! i = Some (nanmax (iloc_slice (Z.of_nat i + 1)
                                 (Z.min (Z.of_nat (len data)) (Z.of_nat i + V)) high))) ∧
    (∀ i : nat, (i + 1 = len data)%nat → fh !! i = high !! i).
Proof.
  intros Hcol Hlen.
  destruct (future_extreme_rows nanmax "High" data high V Hcol Hlen)
    as (r & Hr & Hl & Hrow & Hlast).
  exists r. unfold utils.calculate_future_high. rewrite Hr. done.
Qed.

Lemma future_low_rows (data : DataFrame) (low : list fval) (V : Z) :
  getitem data "Low" = Ok (FloatS low) → length low = len data →
  ∃ fl,
    utils.calculate_future_low data V = Ok (FloatS fl) ∧
    length fl = len data ∧
    (∀ i : nat, (i + 1 < len data)%nat →
       fl !! i = Some (nanmin (iloc_slice (Z.of_nat i + 1)
                                 (Z.min (Z.of_nat (len data)) (Z.of_nat i + V)) low))) ∧
    (∀ i : nat, (i + 1 = len data)%nat → fl !! i = low !! i).
Proof.
  intros Hcol Hlen.
  destruct (future_extreme_rows nanmin "Low" data low V Hcol Hlen)
    as (r & Hr & Hl & Hrow & Hlast).
  exists r. unfold utils.calculate_future_low. rewrite Hr. done.
Qed.

(** C2.  For a frame of [N] rows and a forward window [V >= 1], the
    forward-high column has one cell per row; at every row [i] but the last
    it is the maximum of the values of [High] over the rows
    [i+1 .. min(N-1, i+V-1)], which lie strictly after [i]; at the last row it
    is that row's own high.  The forward-low column is the symmetric minimum
    over [Low]. *)
Theorem forward_extremes_are_window_extremes
    (data : DataFrame) (high low : list fval) (V : Z) :
  getitem data "High" = Ok (FloatS high) → length high = len data →
  getitem data "Low" = Ok (FloatS low) → length low = len data →
  (1 ≤ V)%Z →
  let N := Z.of_nat (len data) in
  ∃ fh fl,
    utils.calculate_future_high data V = Ok (FloatS fh) ∧
    utils.calculate_future_low data V = Ok (FloatS fl) ∧
    length fh = len data ∧ length fl = len data ∧
    (∀ i : nat, (Z.of_nat i < N - 1)%Z →
       ∃ v w, fh !! i = Some v ∧ fl !! i = Some w ∧
              max_over high (Z.of_nat i + 1) (Z.min (N - 1) (Z.of_nat i + V - 1)) v ∧
              min_over low (Z.of_nat i + 1) (Z.min (N - 1) (Z.of_nat i + V - 1)) w) ∧
    (∀ i : nat, Z.of_nat i = (N - 1)%Z →
       fh !! i = high !! i ∧ fl !! i = low !! i ∧ is_Some (high !! i) ∧ is_Some (low !! i)).
Proof.
  intros Hh Hlh Hl Hll HV N.
  destruct (future_high_rows data high V Hh Hlh) as (fh & Hfh & Hnh & Hrh & Hlasth).
  destruct (future_low_rows data low V Hl Hll) as (fl & Hfl & Hnl & Hrl & Hlastl).
  exists fh, fl. repeat split; try done.
  - intros i Hi. eexists _, _.
    split; [apply Hrh; lia|]. split; [apply Hrl; lia|].
    replace (Z.min (Z.of_nat (len data)) (Z.of_nat i + V))
      with (Z.min (N - 1) (Z.of_nat i + V - 1) + 1)%Z by (unfold N; lia).
    split; [apply nanmax_iloc_slice|apply nanmin_iloc_slice]; lia.
  - apply Hlasth. lia.
  - apply Hlastl. lia.
  - apply lookup_lt_is_Some_2. lia.
  - apply lookup_lt_is_Some_2. lia.
Qed.

Lemma forward_extremes_witness :
  ∃ fh fl,
    utils.calculate_future_high demo_frame 2 = Ok (FloatS fh) ∧
    utils.calculate_future_low demo_frame 2 = Ok (FloatS fl) ∧
    fh !! 2%nat = Some (price 15) ∧ fh !! 4%nat = Some (price 11).
Proof.
  destruct (forward_extremes_are_window_extremes demo_frame
              [price 10; price 12; price 9; price 15; price 11]
              [price 5; price 6; price 4; price 7; price 6] 2)
    as (fh & fl & Hfh & Hfl & _); [reflexivity|reflexivity|reflexivity|reflexivity|lia|].
  exists fh, fl. split; [exact Hfh|]. split; [exact Hfl|].
  vm_compute in Hfh. injection Hfh as <-. split; reflexivity.
Defined.

Lemma elem_of_iloc_slice_after {A} (a b : Z) (l : list A) (x : A) :
  (0 ≤ a)%Z → x ∈ iloc_slice a b l → ∃ j : nat, (a ≤ Z.of_nat j)%Z ∧ l !! j = Some x.
Proof.
  intros Ha. unfold iloc_slice, py_index.
  destruct (Z.ltb_spec a 0); [lia|].
  rewrite elem_of_take. intros (i & Hi & _). rewrite lookup_drop in Hi.
  eexists. split; [|exact Hi]. apply lookup_lt_Some in Hi. lia.
Qed.

Lemma iloc_slice_empty {A} (a : Z) (l : list A) : iloc_slice a a l = [].
Proof. unfold iloc_slice. by rewrite Z.sub_diag. Qed.

Lemma nan_extreme_later (le_b : fval → fval → bool) (xs : list fval) (a b : Z) (v : fval) :
  (0 ≤ a)%Z → nan_extreme le_b (iloc_slice a b xs) = v → v ≠ NaN →
  ∃ j : nat, (a ≤ Z.of_nat j)%Z ∧ xs !! j = Some v.
Proof.
  intros Ha <- Hv. apply (elem_of_iloc_slice_after a b); [done|].
  by apply nan_extreme_elem.
Qed.

(** C10.  With a forward window of [V = 1] the forward-high and forward-low
    of every row but the last are NaN (the extreme of an empty slice), not
    the row's own high or low.  For every [V] the last row gets its own high
    and low, and a value found at any other row is the high (low) of a
    strictly later row. *)
Theorem forward_self_fallback_only_at_last_row
    (data : DataFrame) (high low : list fval) :
  getitem data "High" = Ok (FloatS high) → length high = len data →
  getitem data "Low" = Ok (FloatS low) → length low = len data →
  (∃ fh fl,
     utils.calculate_future_high data 1 = Ok (FloatS fh) ∧
     utils.calculate_future_low data 1 = Ok (FloatS fl) ∧
     ∀ i : nat, (i + 1 < len data)%nat → fh !! i = Some NaN ∧ fl !! i = Some NaN) ∧
  (∀ V : Z, ∃ fh fl,
     utils.calculate_future_high data V = Ok (FloatS fh) ∧
     utils.calculate_future_low data V = Ok (FloatS fl) ∧
     (∀ i : nat, (i + 1 = len data)%nat →
        fh !! i = high !! i ∧ fl !! i = low !! i ∧
        is_Some (high !! i) ∧ is_Some (low !! i)) ∧
     (∀ (i : nat) (v : fval), (i + 1 < len data)%nat → v ≠ NaN →
        (fh !! i = Some v → ∃ j : nat, (i < j)%nat ∧ high !! j = Some v) ∧
        (fl !! i = Some v → ∃ j : nat, (i < j)%nat ∧ low !! j = Some v))).
Proof.
  intros Hh Hlh Hl Hll. split.
  - destruct (future_high_rows data high 1 Hh Hlh) as (fh & Hfh & _ & Hrh & _).
    destruct (future_low_rows data low 1 Hl Hll) as (fl & Hfl & _ & Hrl & _).
    exists fh, fl. split; [done|]. split; [done|].
    intros i Hi. rewrite Hrh, Hrl by done.
    replace (Z.min (Z.of_nat (len data)) (Z.of_nat i + 1)) with (Z.of_nat i + 1)%Z by lia.
    by rewrite !iloc_slice_empty.
  - intros V.
    destruct (future_high_rows data high V Hh Hlh) as (fh & Hfh & _ & Hrh & Hlasth).
    destruct (future_low_rows data low V Hl Hll) as (fl & Hfl & _ & Hrl & Hlastl).
    exists fh, fl. split; [done|]. split; [done|]. split.
    + intros i Hi. split; [by apply Hlasth|]. split; [by apply Hlastl|].
      split; apply lookup_lt_is_Some_2; lia.
    + intros i v Hi Hv. split; intros Hrow.
      * rewrite Hrh in Hrow by done. injection Hrow as Hrow.
        apply nan_extreme_later in Hrow as (j & Hj & Hx); [|lia|done].
        exists j. split; [lia|done].
      * rewrite Hrl in Hrow by done. injection Hrow as Hrow.
        apply nan_extreme_later in Hrow as (j & Hj & Hx); [|lia|done].
        exists j. split; [lia|done].
Qed.

Lemma forward_self_fallback_witness :
  ∃ fh fl,
    utils.calculate_future_high demo_frame 1 = Ok (FloatS fh) ∧
    utils.calculate_future_low demo_frame 1 = Ok (FloatS fl) ∧
    fh = [NaN; NaN; NaN; NaN; price 11] ∧ fl = [NaN; NaN; NaN; NaN; price 6].
Proof.
  destruct (forward_self_fallback_only_at_last_row demo_frame
              [price 10; price 12; price 9; price 15; price 11]
              [price 5; price 6; price 4; price 7; price 6])
    as [(fh & fl & Hfh & Hfl & _) _]; [reflexivity|reflexivity|reflexivity|reflexivity|].
  exists fh, fl. split; [exact Hfh|]. split; [exact Hfl|].
  vm_compute in Hfh, Hfl. injection Hfh as <-. injection Hfl as <-. split; reflexivity.
Defined.

(** ** Frames: reading and writing columns *)

Lemma lookup_col_assign_eq (n : string) (s : Series) (cols : list (string * Series)) :
  lookup_col n (assign_col n s cols) = Some s.
Proof.
  induction cols as [|[m c] cols IH]; simpl.
  - by rewrite String.eqb_refl.
  - destruct (String.eqb m n) eqn:E; simpl; rewrite E; [done|exact IH].
Qed.

Lemma lookup_col_assign_ne (n m : string) (s : Series) (cols : list (string * Series)) :
  String.eqb n m = false →
  lookup_col m (assign_col n s cols) = lookup_col m cols.
Proof.
  intros Hne. induction cols as [|[k c] cols IH]; simpl.
  - by rewrite Hne.
  - destruct (String.eqb k n) eqn:E; simpl.
    + apply String.eqb_eq in E as ->. by rewrite Hne.
    + by rewrite IH.
Qed.

Lemma lookup_col_select (mask : list bool) (cols : list (string * Series)) (n : string) :
  lookup_col n (prod_map id (series_select mask) <$> cols)
  = series_select mask <$> lookup_col n cols.
Proof.
  induction cols as [|[m c] cols IH]; simpl; [done|].
  destruct (String.eqb m n); [done|exact IH].
Qed.

Lemma lookup_col_take (p : list nat) (cols : list (string * Series)) (n : string) :
  lookup_col n (prod_map id (series_take p) <$> cols)
  = series_take p <$> lookup_col n cols.
Proof.
  induction cols as [|[m c] cols IH]; simpl; [done|].
  destruct (String.eqb m n); [done|exact IH].
Qed.

Lemma getitem_lookup (data : DataFrame) (n : string) (s : Series) :
  lookup_col n (columns data) = Some s → getitem data n = Ok s.
Proof. intros H. unfold getitem. by rewrite H. Qed.

Lemma setitem_Ok (data : DataFrame) (n : string) (s : Series) :
  series_len s = len data →
  setitem data n s = Ok {| index := index data; columns := assign_col n s (columns data) |}.
Proof. intros H. unfold setitem. by rewrite H, Nat.eqb_refl. Qed.

(** ** Evaluation of the helper functions *)

Lemma rolling_eval (le_b : fval → fval → bool) (W : Z) (xs : list fval) :
  (1 ≤ W)%Z → rolling (nan_extreme le_b) W 1 xs = Ok (trailing (nan_extreme le_b) W xs).
Proof.
  intros HW. unfold rolling, trailing. cbv zeta. rewrite length_prep_values.
  destruct (Z.ltb_spec W 0); [lia|]. destruct (Z.ltb_spec W 1); [lia|].
  f_equal. apply list_fmap_ext. intros _ i _. simpl.
  destruct (Z.ltb_spec (Z.of_nat (count_valid
    (iloc_slice (Z.max 0 (i - W + 1)) (i + 1) (prep_values xs)))) 1) as [Hc|Hc]; [|done].
  symmetry. apply nan_extreme_nan. apply count_valid_0. lia.
Qed.

Lemma length_trailing (agg : list fval → fval) (W : Z) (xs : list fval) :
  length (trailing agg W xs) = length xs.
Proof. unfold trailing. by rewrite length_fmap, length_range. Qed.

Lemma length_forward (agg : list fval → fval) (V : Z) (xs : list fval) :
  length (forward agg V xs) = length xs.
Proof. unfold forward. by rewrite length_fmap, length_range. Qed.

Lemma length_days_since_column (agg : list fval → fval) (dates : list Z)
    (xs : list fval) (W : Z) :
  length (days_since_column agg dates xs W) = length dates.
Proof. unfold days_since_column. by rewrite !length_fmap, length_range. Qed.

Lemma length_align_with (f : fval → fval → fval) (a b : list fval) :
  length (align_with f a b) = Nat.max (length a) (length b).
Proof.
  revert b. induction a as [|x a IH]; intros b; simpl.
  - by rewrite length_fmap.
  - destruct b; simpl; rewrite IH; simpl; lia.
Qed.

Lemma length_pct_diff_cells (c r : list fval) :
  length c = length r → length (pct_diff_cells c r) = length c.
Proof.
  intros H. unfold pct_diff_cells. rewrite !length_fmap, !length_align_with. lia.
Qed.

Lemma calculate_historical_high_eval (data : DataFrame) (high : list fval) (W : Z) :
  lookup_col "High" (columns data) = Some (FloatS high) → (1 ≤ W)%Z →
  utils.calculate_historical_high data W = Ok (FloatS (trailing nanmax W high)).
Proof.
  intros Hh HW. unfold utils.calculate_historical_high.
  rewrite (getitem_lookup _ _ _ Hh). simpl.
  unfold nanmax. by rewrite rolling_eval.
Qed.

Lemma calculate_historical_low_eval (data : DataFrame) (low : list fval) (W : Z) :
  lookup_col "Low" (columns data) = Some (FloatS low) → (1 ≤ W)%Z →
  utils.calculate_historical_low data W = Ok (FloatS (trailing nanmin W low)).
Proof.
  intros Hl HW. unfold utils.calculate_historical_low.
  rewrite (getitem_lookup _ _ _ Hl). simpl.
  unfold nanmin. by rewrite rolling_eval.
Qed.

Lemma calculate_pct_diff_eval (c r : list fval) :
  utils.calculate_pct_diff (FloatS c) (FloatS r) = Ok (FloatS (pct_diff_cells c r)).
Proof. reflexivity. Qed.

Lemma index_pos_seqZ (n : nat) (k i : Z) :
  (k ≤ i < k + Z.of_nat n)%Z →
  index_pos i (seqZ k (Z.of_nat n)) = Some (Z.to_nat (i - k)).
Proof.
  revert k. induction n as [|n IH]; intros k Hi; [lia|].
  rewrite seqZ_cons by lia. simpl.
  destruct (Z.eqb_spec k i) as [->|Hne].
  - by rewrite Z.sub_diag.
  - replace (Z.pred (Z.of_nat (S n))) with (Z.of_nat n) by lia.
    rewrite IH by lia. simpl. f_equal. lia.
Qed.

Lemma days_since_extreme_eval (col : string) (agg : list fval → fval)
    (data : DataFrame) (dates : list Z) (xs : list fval) (W i : Z) :
  index data = range (length dates) →
  lookup_col "Date" (columns data) = Some (DateS dates) →
  lookup_col col (columns data) = Some (FloatS xs) →
  (0 ≤ i < Z.of_nat (length dates))%Z →
  days_since_extreme col agg data i W = Ok (days_since_cell agg dates xs W i).
Proof.
  intros Hidx Hd Hx Hi. unfold days_since_extreme, days_since_cell, loc_slice.
  rewrite Hidx. fold (window_mask (length dates) (Z.max 0 (i - W + 1)) i).
  unfold getitem at 1 2. simpl. rewrite !lookup_col_select, Hx, Hd. simpl.
  destruct (max_date _) as [hd|]; [|done].
  unfold loc_date. rewrite (getitem_lookup _ _ _ Hd). simpl.
  rewrite Hidx. unfold range. rewrite index_pos_seqZ by lia. simpl.
  rewrite Z.sub_0_r.
  destruct (lookup_lt_is_Some_2 dates (Z.to_nat i)) as [d Hdi]; [lia|].
  by rewrite Hdi.
Qed.

Lemma days_since_high_eval (data : DataFrame) (dates : list Z) (high : list fval)
    (W i : Z) :
  index data = range (length dates) →
  lookup_col "Date" (columns data) = Some (DateS dates) →
  lookup_col "High" (columns data) = Some (FloatS high) →
  (0 ≤ i < Z.of_nat (length dates))%Z →
  utils.days_since_high data i W = Ok (days_since_cell nanmax dates high W i).
Proof. apply (days_since_extreme_eval "High" nanmax). Qed.

Lemma days_since_low_eval (data : DataFrame) (dates : list Z) (low : list fval)
    (W i : Z) :
  index data = range (length dates) →
  lookup_col "Date" (columns data) = Some (DateS dates) →
  lookup_col "Low" (columns data) = Some (FloatS low) →
  (0 ≤ i < Z.of_nat (length dates))%Z →
  utils.days_since_low data i W = Ok (days_since_cell nanmin dates low W i).
Proof. apply (days_since_extreme_eval "Low" nanmin). Qed.

(** ** Evaluation of the two metric stages *)

Ltac col_lookup :=
  repeat (rewrite lookup_col_assign_eq || rewrite lookup_col_assign_ne by reflexivity).

(** Rewrites the [getitem] of column [n] in the goal into its value [s]. *)
Ltac get_col n s :=
  rewrite (getitem_lookup _ n s) by (simpl; col_lookup; done); simpl.

Lemma len_ohlc (data : DataFrame) (dates : list Z) (high low close : list fval) :
  ohlc_frame data dates high low close → len data = length dates.
Proof. intros [Hidx _ _ _ _ _ _ _]. unfold len. by rewrite Hidx, length_range. Qed.

Lemma len_range_frame (n : nat) (cols : list (string * Series)) :
  len {| index := range n; columns := cols |} = n.
Proof. unfold len. simpl. apply length_range. Qed.

Lemma add_historical_metrics_eval
    (data : DataFrame) (dates : list Z) (high low close : list fval) (W : Z) :
  ohlc_frame data dates high low close → (1 ≤ W)%Z →
  metrics_calculations.add_historical_metrics data W
  = Ok {| index := index data;
          columns := historical_columns W dates high low close (columns data) |}.
Proof.
  intros [Hidx Hd Hh Hl Hc Hhl Hll Hcl] HW.
  destruct data as [idx cols]. simpl in *. subst idx.
  unfold metrics_calculations.add_historical_metrics.
  rewrite (calculate_historical_high_eval _ high) by done. simpl.
  rewrite setitem_Ok by (rewrite len_range_frame; simpl; by rewrite length_trailing).
  simpl. rewrite len_range_frame.
  rewrite (mapM_Ok _ (λ i, if (W - 1 <=? i)%Z
                           then days_since_cell nanmax dates high W i else Some 0%Z)).
  2:{ intros i Hi. apply elem_of_range in Hi. destruct (W - 1 <=? i)%Z; [|done].
      apply days_since_high_eval; simpl; col_lookup; done. }
  simpl. fold (days_since_column nanmax dates high W).
  rewrite setitem_Ok
    by (rewrite len_range_frame; simpl; by rewrite length_days_since_column).
  simpl. get_col "Close" (FloatS close).
  get_col (High_Last W) (FloatS (trailing nanmax W high)).
  fold (pct_diff_cells close (trailing nanmax W high)).
  rewrite setitem_Ok
    by (rewrite len_range_frame; simpl;
        rewrite length_pct_diff_cells; rewrite ?length_trailing; lia).
  simpl.
  rewrite (calculate_historical_low_eval _ low) by (simpl; col_lookup; done). simpl.
  rewrite setitem_Ok by (rewrite len_range_frame; simpl; by rewrite length_trailing).
  simpl. rewrite len_range_frame.
  rewrite (mapM_Ok _ (λ i, if (W - 1 <=? i)%Z
                           then days_since_cell nanmin dates low W i else Some 0%Z)).
  2:{ intros i Hi. apply elem_of_range in Hi. destruct (W - 1 <=? i)%Z; [|done].
      apply days_since_low_eval; simpl; col_lookup; done. }
  simpl. fold (days_since_column nanmin dates low W).
  rewrite setitem_Ok
    by (rewrite len_range_frame; simpl; by rewrite length_days_since_column).
  simpl. get_col "Close" (FloatS close).
  get_col (Low_Last W) (FloatS (trailing nanmin W low)).
  fold (pct_diff_cells close (trailing nanmin W low)).
  rewrite setitem_Ok
    by (rewrite len_range_frame; simpl;
        rewrite length_pct_diff_cells; rewrite ?length_trailing; lia).
  reflexivity.
Qed.

Lemma future_extreme_eval (agg : list fval → fval) (col : string)
    (data : DataFrame) (xs : list fval) (V : Z) :
  lookup_col col (columns data) = Some (FloatS xs) → length xs = len data →
  mapM (λ i,
    if (i <? Z.of_nat (len data) - 1)%Z
    then h ← getitem data col ≫= as_float;
         Ok (agg (iloc_slice (i + 1) (Z.min (Z.of_nat (len data)) (i + V)) h))
    else h ← getitem data col ≫= as_float; iloc_at i h) (range (len data))
  = Ok (forward agg V xs).
Proof.
  intros Hcol Hlen. unfold forward. rewrite Hlen.
  apply mapM_Ok. intros i Hi. apply elem_of_range in Hi.
  rewrite (getitem_lookup _ _ _ Hcol). simpl.
  destruct (Z.ltb_spec i (Z.of_nat (len data) - 1)); [done|].
  destruct (lookup_lt_is_Some_2 xs (Z.to_nat i)) as [x Hx]; [lia|].
  rewrite Hx. simpl. rewrite <- (Z2Nat.id i) at 1 by lia. by apply iloc_at_lookup.
Qed.

Lemma add_future_metrics_eval
    (data : DataFrame) (high low close : list fval) (V : Z) :
  lookup_col "High" (columns data) = Some (FloatS high) →
  lookup_col "Low" (columns data) = Some (FloatS low) →
  lookup_col "Close" (columns data) = Some (FloatS close) →
  length high = len data → length low = len data → length close = len data →
  metrics_calculations.add_future_metrics data V
  = Ok {| index := index data;
          columns := future_columns V high low close (columns data) |}.
Proof.
  intros Hh Hl Hc Hhl Hll Hcl.
  unfold metrics_calculations.add_future_metrics, utils.calculate_future_high.
  rewrite (future_extreme_eval nanmax "High" data high V) by done. simpl.
  rewrite setitem_Ok by (simpl; by rewrite length_forward).
  simpl. get_col "Close" (FloatS close).
  get_col (High_Next V) (FloatS (forward nanmax V high)).
  fold (pct_diff_cells close (forward nanmax V high)).
  rewrite setitem_Ok
    by (unfold len at 1; simpl; rewrite length_pct_diff_cells;
        rewrite ?length_forward; unfold len in *; lia).
  simpl. unfold utils.calculate_future_low.
  rewrite (future_extreme_eval nanmin "Low" _ low V)
    by (simpl; col_lookup; done).
  simpl.
  rewrite setitem_Ok by (simpl; by rewrite length_forward).
  simpl. get_col "Close" (FloatS close).
  get_col (Low_Next V) (FloatS (forward nanmin V low)).
  fold (pct_diff_cells close (forward nanmin V low)).
  rewrite setitem_Ok
    by (unfold len at 1; simpl; rewrite length_pct_diff_cells;
        rewrite ?length_forward; unfold len in *; lia).
  reflexivity.
Qed.

(** ** Sorting by date *)

Lemma take_rows_seq {A} (l1 l2 : list A) :
  take_rows (seq (length l1) (length l2)) (l1 ++ l2) = l2.
Proof.
  revert l1. induction l2 as [|x l2 IH]; intros l1; simpl; [done|].
  unfold take_rows in *. simpl. rewrite list_lookup_middle by done. simpl. f_equal.
  specialize (IH (l1 ++ [x])). rewrite length_app, <- app_assoc in IH. simpl in IH.
  by rewrite Nat.add_1_r in IH.
Qed.

Lemma take_rows_Permutation {A} (p : list nat) (l : list A) :
  Permutation p (seq 0 (length l)) → Permutation (take_rows p l) l.
Proof.
  intros Hp. unfold take_rows. rewrite Hp.
  exact (eq_ind_r (λ k, Permutation k l) (Permutation_refl l) (take_rows_seq [] l)).
Qed.

Lemma argsort_Permutation (keys : list Z) :
  Permutation (argsort keys) (seq 0 (length keys)).
Proof.
  unfold argsort. rewrite <- DateSort.Permuted_sort.
  rewrite snd_zip; [done|]. by rewrite length_seq.
Qed.

Lemma length_take_rows_argsort {A} (keys : list Z) (l : list A) :
  length l = length keys → length (take_rows (argsort keys) l) = length l.
Proof.
  intros H. apply Permutation_length, take_rows_Permutation.
  rewrite H. apply argsort_Permutation.
Qed.

Lemma take_rows_keys (keys : list Z) (kp : list (Z * nat)) :
  Forall (λ x, keys !! x.2 = Some x.1) kp → take_rows (kp.*2) keys = kp.*1.
Proof.
  unfold take_rows. induction 1 as [|[k j] kp Hx _ IH]; simpl; [done|].
  simpl in Hx. rewrite Hx. simpl. f_equal. exact IH.
Qed.

Lemma zip_keys_positions (keys : list Z) :
  Forall (λ x, keys !! x.2 = Some x.1) (zip keys (seq 0 (length keys))).
Proof.
  apply Forall_lookup. intros i [k j] Hi. simpl.
  apply lookup_zip_Some in Hi as [Hk Hj].
  apply lookup_seq in Hj as [-> _]. done.
Qed.

Lemma ascending_StronglySorted (l : list Z) : StronglySorted Z.le l → ascending l.
Proof.
  induction 1 as [|x l Hl IH Hx]; intros j k dj dk Hjk Hj Hk.
  - by rewrite lookup_nil in Hj.
  - destruct j as [|j], k as [|k]; simpl in *; try lia.
    + injection Hj as <-. injection Hk as <-. lia.
    + injection Hj as <-. rewrite Forall_forall in Hx.
      apply Hx. by eapply list_elem_of_lookup_2.
    + apply (IH j k); [lia|done..].
Qed.

Lemma DateOrder_leb_iff (a b : Z * nat) :
  DateOrder.leb a b = true ↔ (a.1 < b.1)%Z ∨ (a.1 = b.1 ∧ (a.2 ≤ b.2)%nat).
Proof.
  unfold DateOrder.leb.
  rewrite orb_true_iff, andb_true_iff, Z.ltb_lt, Z.eqb_eq, Nat.leb_le. tauto.
Qed.

Lemma DateOrder_leb_le (a b : Z * nat) : is_true (DateOrder.leb a b) → (a.1 ≤ b.1)%Z.
Proof. unfold is_true. rewrite DateOrder_leb_iff. lia. Qed.

Lemma DateOrder_leb_trans : Transitive (λ a b, is_true (DateOrder.leb a b)).
Proof. intros a b c. unfold is_true. rewrite !DateOrder_leb_iff. lia. Qed.

Lemma argsort_ascending (keys : list Z) : ascending (take_rows (argsort keys) keys).
Proof.
  unfold argsort.
  set (kp := DateSort.sort (zip keys (seq 0 (length keys)))).
  assert (Hkp : Forall (λ x, keys !! x.2 = Some x.1) kp).
  { unfold kp. rewrite <- DateSort.Permuted_sort. apply zip_keys_positions. }
  rewrite (take_rows_keys _ _ Hkp).
  apply ascending_StronglySorted.
  assert (Hs : StronglySorted (λ a b, is_true (DateOrder.leb a b)) kp).
  { apply DateSort.StronglySorted_sort. exact DateOrder_leb_trans. }
  clear Hkp. induction Hs as [|a l Hl IH Ha]; simpl; constructor; [exact IH|].
  apply Forall_fmap. eapply Forall_impl; [exact Ha|].
  intros b Hb. simpl. by apply DateOrder_leb_le.
Qed.

Lemma ascending_NoDup (l : list Z) : ascending l → NoDup l → strictly_ascending l.
Proof.
  intros Hasc Hnd j k dj dk Hjk Hj Hk.
  pose proof (Hasc j k dj dk ltac:(lia) Hj Hk) as Hle.
  destruct (Z.eq_dec dj dk) as [->|Hne]; [|lia].
  pose proof (NoDup_lookup _ _ _ _ Hnd Hj Hk). lia.
Qed.

(** ** The normalizer *)

Lemma assign_col_same (n : string) (s : Series) (cols : list (string * Series)) :
  lookup_col n cols = Some s → assign_col n s cols = cols.
Proof.
  induction cols as [|[m c] cols IH]; simpl; [done|].
  destruct (String.eqb m n) eqn:E.
  - by intros [= ->].
  - intros H. by rewrite IH.
Qed.

Lemma normalize_dates_eval (data : DataFrame) (dates : list Z) :
  lookup_col "Date" (columns data) = Some (DateS dates) → length dates = len data →
  metrics_calculations.normalize data
  = Ok {| index := range (len data);
          columns := prod_map id (series_take (argsort dates)) <$> columns data |}.
Proof.
  intros Hd Hdl.
  unfold metrics_calculations.normalize.
  rewrite (getitem_lookup _ _ _ Hd). simpl.
  rewrite setitem_Ok by done. simpl.
  rewrite (assign_col_same _ _ _ Hd).
  unfold sort_values. rewrite (getitem_lookup _ "Date" (DateS dates)) by done. simpl.
  unfold reset_index_drop, len. simpl.
  rewrite length_take_rows_argsort by (unfold len in Hdl; lia). done.
Qed.

Lemma normalize_eval (data : DataFrame) (dates : list Z) (high low close : list fval) :
  raw_frame data dates high low close →
  metrics_calculations.normalize data
  = Ok {| index := range (len data);
          columns := prod_map id (series_take (argsort dates)) <$> columns data |}.
Proof. intros [Hd _ _ _ Hdl _ _ _]. by apply normalize_dates_eval. Qed.

Lemma normalize_ohlc (data : DataFrame) (dates : list Z) (high low close : list fval) :
  raw_frame data dates high low close →
  let p := argsort dates in
  ohlc_frame {| index := range (len data);
                columns := prod_map id (series_take p) <$> columns data |}
             (take_rows p dates) (take_rows p high) (take_rows p low) (take_rows p close).
Proof.
  intros [Hd Hh Hl Hc Hdl Hhl Hll Hcl] p.
  assert (Hlen : ∀ {A} (l : list A), length l = len data →
                 length (take_rows p l) = len data).
  { intros A l H. unfold p. rewrite length_take_rows_argsort; lia. }
  constructor; simpl; rewrite ?lookup_col_take, ?Hd, ?Hh, ?Hl, ?Hc, ?Hlen by done; done.
Qed.

Lemma strictly_ascending_NoDup (l : list Z) : strictly_ascending l → NoDup l.
Proof.
  intros Hs. apply NoDup_alt. intros i j x Hi Hj.
  destruct (Nat.lt_trichotomy i j) as [Hlt|[->|Hlt]]; [|done|].
  - pose proof (Hs i j x x Hlt Hi Hj). lia.
  - pose proof (Hs j i x x Hlt Hj Hi). lia.
Qed.

(** C5, as amended.  For every table whose [Date] column holds parsed
    timestamps, one per row and in any row order, the normalizer returns the
    same rows sorted ascending by date (non-decreasing) under the index
    [0, 1, ..., N-1]; equal timestamps are kept, so the timestamps are
    strictly increasing exactly when the input has no duplicate date. *)
Theorem normalizer_sorts_by_date (data : DataFrame) (dates : list Z) :
  getitem data "Date" = Ok (DateS dates) → length dates = len data →
  ∃ out dates' p,
    metrics_calculations.normalize data = Ok out ∧
    index out = range (len data) ∧
    getitem out "Date" = Ok (DateS dates') ∧
    ascending dates' ∧
    Permutation dates' dates ∧
    (strictly_ascending dates' ↔ NoDup dates) ∧
    Permutation p (seq 0 (len data)) ∧
    (∀ n, lookup_col n (columns out) = series_take p <$> lookup_col n (columns data)).
Proof.
  intros Hget Hdl.
  assert (Hd : lookup_col "Date" (columns data) = Some (DateS dates)).
  { unfold getitem in Hget. destruct (lookup_col "Date" (columns data)); congruence. }
  pose proof (normalize_dates_eval _ _ Hd Hdl) as Heval.
  assert (Hperm : Permutation (take_rows (argsort dates) dates) dates)
    by apply take_rows_Permutation, argsort_Permutation.
  eexists _, (take_rows (argsort dates) dates), (argsort dates).
  split; [exact Heval|]. simpl. split; [done|].
  split; [apply getitem_lookup; simpl; by rewrite lookup_col_take, Hd|].
  split; [apply argsort_ascending|]. split; [done|]. split; [|split].
  - split.
    + intros Hs. rewrite <- Hperm. by apply strictly_ascending_NoDup.
    + intros Hnd. apply ascending_NoDup; [apply argsort_ascending|by rewrite Hperm].
  - rewrite <- Hdl. apply argsort_Permutation.
  - intros n. apply lookup_col_take.
Qed.

Lemma normalizer_witness :
  ∃ out,
    metrics_calculations.normalize reversed_frame = Ok out ∧
    index out = [0; 1]%Z ∧
    getitem out "Date" = Ok (DateS [day 1; day 2]).
Proof.
  destruct (normalizer_sorts_by_date reversed_frame [day 2; day 1])
    as (out & dates' & p & Hout & Hidx & _); [reflexivity|reflexivity|].
  exists out. split; [exact Hout|]. split; [exact Hidx|].
  vm_compute in Hout. injection Hout as <-. reflexivity.
Defined.

(** Two bars with the same date stay two bars with the same date: the
    normalized timestamps are not strictly increasing. *)
Lemma normalizer_duplicate_dates_counterexample :
  (∃ out, metrics_calculations.normalize twin_frame = Ok out ∧
          getitem out "Date" = Ok (DateS [day 1; day 1])) ∧
  ¬ normalized_dates_strictly_increasing twin_frame.
Proof.
  split.
  - eexists. split; reflexivity.
  - intros (out & dates' & Hout & Hd & Hs).
    vm_compute in Hout. injection Hout as <-.
    vm_compute in Hd. injection Hd as <-.
    specialize (Hs 0%nat 1%nat _ _ ltac:(lia) eq_refl eq_refl). lia.
Qed.

(** ** Row counts through the stages *)

Lemma lookup_col_assign_other (n m : string) (s : Series) (cols : list (string * Series)) :
  n ≠ m → lookup_col m (assign_col n s cols) = lookup_col m cols.
Proof. intros H. apply lookup_col_assign_ne. by apply String.eqb_neq. Qed.

Lemma lookup_historical_other (W : Z) (dates : list Z) (high low close : list fval)
    (cols : list (string * Series)) (n : string) :
  n ∉ historical_names W →
  lookup_col n (historical_columns W dates high low close cols) = lookup_col n cols.
Proof.
  unfold historical_names, historical_columns. rewrite !not_elem_of_cons.
  intros (? & ? & ? & ? & ? & ? & _).
  by rewrite !lookup_col_assign_other by done.
Qed.

Lemma lookup_future_other (V : Z) (high low close : list fval)
    (cols : list (string * Series)) (n : string) :
  n ∉ future_names V →
  lookup_col n (future_columns V high low close cols) = lookup_col n cols.
Proof.
  unfold future_names, future_columns. rewrite !not_elem_of_cons.
  intros (? & ? & ? & ? & _).
  by rewrite !lookup_col_assign_other by done.
Qed.

Lemma lookup_historical_own (W : Z) (dates : list Z) (high low close : list fval)
    (cols : list (string * Series)) (n : string) :
  length high = length dates → length low = length dates →
  length close = length dates →
  n ∈ historical_names W →
  ∃ cells, lookup_col n (historical_columns W dates high low close cols)
           = Some (FloatS cells) ∧ length cells = length dates.
Proof.
  intros Hh Hl Hc. unfold historical_names, historical_columns.
  rewrite !elem_of_cons, elem_of_nil.
  intros [->|[->|[->|[->|[->|[->|[]]]]]]]; col_lookup; eexists; (split; [done|]);
    rewrite ?length_trailing, ?length_days_since_column, ?length_pct_diff_cells;
    rewrite ?length_trailing; congruence.
Qed.

Lemma lookup_future_own (V : Z) (high low close : list fval)
    (cols : list (string * Series)) (n : string) :
  length high = length close → length low = length close →
  n ∈ future_names V →
  ∃ cells, lookup_col n (future_columns V high low close cols)
           = Some (FloatS cells) ∧ length cells = length close.
Proof.
  intros Hh Hl. unfold future_names, future_columns.
  rewrite !elem_of_cons, elem_of_nil.
  intros [->|[->|[->|[->|[]]]]]; col_lookup; eexists; (split; [done|]);
    rewrite ?length_forward, ?length_pct_diff_cells;
    rewrite ?length_forward; congruence.
Qed.

Lemma bind_Ok {A B} (a : A) (k : A → result B) : (Ok a ≫= k) = k a.
Proof. reflexivity. Qed.

Lemma calculate_metrics_eval
    (data : DataFrame) (dates : list Z) (high low close : list fval) (W V : Z) :
  raw_frame data dates high low close → (1 ≤ W)%Z →
  let p := argsort dates in
  metrics_calculations.calculate_metrics data W V
  = Ok {| index := range (len data);
          columns :=
            future_columns V (take_rows p high) (take_rows p low) (take_rows p close)
              (historical_columns W (take_rows p dates) (take_rows p high)
                 (take_rows p low) (take_rows p close)
                 (prod_map id (series_take p) <$> columns data)) |}.
Proof.
  intros Hraw HW p. subst p. unfold metrics_calculations.calculate_metrics.
  rewrite (normalize_eval _ _ _ _ _ Hraw), bind_Ok.
  pose proof (normalize_ohlc _ _ _ _ _ Hraw) as Ho. cbv zeta in Ho.
  rewrite (add_historical_metrics_eval _ _ _ _ _ W Ho HW), bind_Ok.
  destruct Ho as [_ Hd Hh Hl Hc Hhl Hll Hcl]. cbn [columns index] in *.
  assert (Hn : length (take_rows (argsort dates) dates) = len data).
  { destruct Hraw. rewrite length_take_rows_argsort; lia. }
  assert (Hbase : ∀ n, String.eqb n "High" || String.eqb n "Low" || String.eqb n "Close"
                       = true → n ∉ historical_names W).
  { intros n Hb. unfold historical_names. rewrite !not_elem_of_cons.
    repeat split; try apply not_elem_of_nil;
      intros ->; vm_compute in Hb; discriminate. }
  rewrite (add_future_metrics_eval _ (take_rows (argsort dates) high)
             (take_rows (argsort dates) low) (take_rows (argsort dates) close));
    cbn [columns index]; [done|..];
    rewrite ?lookup_historical_other by (by apply Hbase); try done;
    unfold len; cbn [index]; rewrite length_range; unfold len in Hn; lia.
Qed.

(** C9, as amended.  For every input of [N >= 0] rows and all [W >= 1] and
    [V], each stage returns a frame of exactly [N] rows.  The normalizer
    moves the rows into ascending date order (all columns by one permutation
    of the row positions, so no row is dropped or added; the dates of its
    output are non-decreasing) and numbers them [0 .. N-1]; the historical
    and the forward stage leave the index and every column other than the
    ones they write untouched, and each column they write has [N] cells.  In
    particular an empty input yields empty columns and no error. *)
Theorem stages_preserve_row_count
    (data : DataFrame) (dates : list Z) (high low close : list fval) (W V : Z) :
  raw_frame data dates high low close → (1 ≤ W)%Z →
  ∃ d1 d2 d3 p,
    metrics_calculations.normalize data = Ok d1 ∧
    metrics_calculations.add_historical_metrics d1 W = Ok d2 ∧
    metrics_calculations.add_future_metrics d2 V = Ok d3 ∧
    metrics_calculations.calculate_metrics data W V = Ok d3 ∧
    len d1 = len data ∧ len d2 = len data ∧ len d3 = len data ∧
    Permutation p (seq 0 (len data)) ∧
    (∀ n, lookup_col n (columns d1) = series_take p <$> lookup_col n (columns data)) ∧
    index d1 = range (len data) ∧
    (∃ dates', getitem d1 "Date" = Ok (DateS dates') ∧ dates' = take_rows p dates ∧
               ascending dates' ∧ Permutation dates' dates) ∧
    index d2 = index d1 ∧ index d3 = index d2 ∧
    (∀ n, n ∉ historical_names W →
          lookup_col n (columns d2) = lookup_col n (columns d1)) ∧
    (∀ n, n ∉ future_names V →
          lookup_col n (columns d3) = lookup_col n (columns d2)) ∧
    (∀ n, n ∈ historical_names W →
          ∃ cells, lookup_col n (columns d2) = Some (FloatS cells) ∧
                   length cells = len data) ∧
    (∀ n, n ∈ future_names V →
          ∃ cells, lookup_col n (columns d3) = Some (FloatS cells) ∧
                   length cells = len data).
Proof.
  intros Hraw HW.
  pose proof (calculate_metrics_eval _ _ _ _ _ W V Hraw HW) as Hall. cbv zeta in Hall.
  unfold metrics_calculations.calculate_metrics in Hall.
  pose proof (normalize_eval _ _ _ _ _ Hraw) as H1.
  pose proof (normalize_ohlc _ _ _ _ _ Hraw) as Ho. cbv zeta in Ho.
  pose proof (add_historical_metrics_eval _ _ _ _ _ W Ho HW) as H2.
  rewrite H1, bind_Ok, H2, bind_Ok in Hall.
  destruct Ho as [_ Hd Hh Hl Hc Hhl Hll Hcl].
  assert (Hn : length (take_rows (argsort dates) dates) = len data).
  { destruct Hraw. rewrite length_take_rows_argsort; lia. }
  eexists _, _, _, (argsort dates).
  split; [exact H1|]. split; [exact H2|]. split; [exact Hall|].
  split; [unfold metrics_calculations.calculate_metrics;
          by rewrite H1, bind_Ok, H2, bind_Ok|].
  cbn [index columns]. rewrite !len_range_frame.
  split; [done|]. split; [done|]. split; [done|].
  split; [destruct Hraw as [_ _ _ _ <- _ _ _]; apply argsort_Permutation|].
  split; [intros n; apply lookup_col_take|].
  split; [done|].
  split.
  { exists (take_rows (argsort dates) dates).
    split; [by apply getitem_lookup|]. split; [done|].
    split; [apply argsort_ascending|].
    apply take_rows_Permutation, argsort_Permutation. }
  split; [done|]. split; [done|].
  split; [intros n Hn'; by apply lookup_historical_other|].
  split; [intros n Hn'; by apply lookup_future_other|].
  split.
  - intros n Hn'. rewrite <- Hn. by apply lookup_historical_own.
  - intros n Hn'. rewrite <- Hn, <- Hcl. apply lookup_future_own; [congruence..|done].
Qed.

Lemma stages_preserve_row_count_witness :
  (∃ d1 d3,
     metrics_calculations.normalize reversed_frame = Ok d1 ∧
     metrics_calculations.calculate_metrics reversed_frame 2 2 = Ok d3 ∧
     len d1 = 2%nat ∧ len d3 = 2%nat ∧
     getitem d1 "Date" = Ok (DateS [day 1; day 2]) ∧
     getitem d3 "High" = Ok (FloatS [price 10; price 12]) ∧
     getitem d3 (High_Last 2) = Ok (FloatS [price 10; price 12]) ∧
     getitem d3 (High_Next 2) = Ok (FloatS [price 12; price 12])) ∧
  (∃ d3,
     metrics_calculations.calculate_metrics empty_frame 3 2 = Ok d3 ∧
     len d3 = 0%nat ∧
     getitem d3 (High_Last 3) = Ok (FloatS []) ∧
     getitem d3 (High_Next 2) = Ok (FloatS [])).
Proof.
  split.
  - destruct (stages_preserve_row_count reversed_frame [day 2; day 1]
                [price 12; price 10] [price 6; price 5] [price 7; price 6] 2 2)
      as (d1 & d2 & d3 & p & Hn & _ & _ & Hall & Hl1 & _ & Hl3 & _);
      [by constructor|lia|].
    exists d1, d3. split; [exact Hn|]. split; [exact Hall|].
    split; [exact Hl1|]. split; [exact Hl3|].
    vm_compute in Hn. injection Hn as <-.
    vm_compute in Hall. injection Hall as <-. repeat split; reflexivity.
  - destruct (stages_preserve_row_count empty_frame [] [] [] [] 3 2)
      as (d1 & d2 & d3 & p & _ & _ & _ & Hall & _ & _ & Hlen & _);
      [by constructor|lia|].
    exists d3. split; [exact Hall|]. split; [exact Hlen|].
    vm_compute in Hall. injection Hall as <-. split; reflexivity.
Defined.

(** The reading of C9 under which no stage moves a row fails on two bars
    given in reverse date order: the normalizer swaps them. *)
Lemma normalizer_reorders_counterexample :
  ∃ out,
    metrics_calculations.normalize reversed_frame = Ok out ∧
    getitem reversed_frame "Date" = Ok (DateS [day 2; day 1]) ∧
    getitem out "Date" = Ok (DateS [day 1; day 2]) ∧
    ¬ stage_keeps_rows_in_place reversed_frame out.
Proof.
  eexists. split; [reflexivity|]. split; [reflexivity|]. split; [reflexivity|].
  intros Hkeep. specialize (Hkeep "Date" _ eq_refl). vm_compute in Hkeep. discriminate.
Qed.

(** ** Days since the trailing extreme *)

Lemma lookup_days_since_column (agg : list fval → fval) (dates : list Z)
    (xs : list fval) (W : Z) (i : nat) :
  (i < length dates)%nat →
  days_since_column agg dates xs W !! i
  = Some (of_days (if (W - 1 <=? Z.of_nat i)%Z
                   then days_since_cell agg dates xs W (Z.of_nat i)
                   else Some 0%Z)).
Proof.
  intros Hi. unfold days_since_column.
  by rewrite !list_lookup_fmap, lookup_range.
Qed.

Lemma historical_days_columns
    (data : DataFrame) (dates : list Z) (high low close : list fval) (W : Z) :
  ohlc_frame data dates high low close → (1 ≤ W)%Z →
  ∃ out,
    metrics_calculations.add_historical_metrics data W = Ok out ∧
    getitem out (Days_Since_High_Last W)
    = Ok (FloatS (days_since_column nanmax dates high W)) ∧
    getitem out (Days_Since_Low_Last W)
    = Ok (FloatS (days_since_column nanmin dates low W)).
Proof.
  intros Ho HW. eexists. split; [by apply add_historical_metrics_eval|].
  unfold historical_columns.
  split; apply getitem_lookup; cbn [columns]; by col_lookup.
Qed.

(** C3.  On a normalized frame and for every window length [W >= 1], the
    days-since-high and days-since-low cells of every row [i < W-1] are the
    number 0: a value, not NaN, and whatever [days_since_high] and
    [days_since_low] would return for that row. *)
Theorem days_since_is_zero_before_full_window
    (data : DataFrame) (dates : list Z) (high low close : list fval) (W : Z) :
  ohlc_frame data dates high low close → (1 ≤ W)%Z →
  ∃ out dsh dsl,
    metrics_calculations.add_historical_metrics data W = Ok out ∧
    getitem out (Days_Since_High_Last W) = Ok (FloatS dsh) ∧
    getitem out (Days_Since_Low_Last W) = Ok (FloatS dsl) ∧
    length dsh = len data ∧ length dsl = len data ∧
    ∀ i : nat, (i < len data)%nat → (Z.of_nat i < W - 1)%Z →
      dsh !! i = Some (Num 0) ∧ dsl !! i = Some (Num 0).
Proof.
  intros Ho HW.
  destruct (historical_days_columns _ _ _ _ _ W Ho HW) as (out & Hout & Hh & Hl).
  pose proof (len_ohlc _ _ _ _ _ Ho) as Hlen.
  eexists out, _, _. split; [done|]. split; [exact Hh|]. split; [exact Hl|].
  rewrite !length_days_since_column. split; [done|]. split; [done|].
  intros i Hi Hlt. rewrite !lookup_days_since_column by lia.
  destruct (Z.leb_spec (W - 1) (Z.of_nat i)); [lia|]. done.
Qed.

Lemma days_since_is_zero_witness :
  utils.days_since_high demo_frame 2 5 = Ok (Some 1%Z) ∧
  ∃ out dsh,
    metrics_calculations.add_historical_metrics demo_frame 5 = Ok out ∧
    getitem out (Days_Since_High_Last 5) = Ok (FloatS dsh) ∧
    dsh !! 2%nat = Some (Num 0).
Proof.
  split; [reflexivity|].
  destruct (days_since_is_zero_before_full_window demo_frame
              [day 1; day 2; day 3; day 4; day 5]
              [price 10; price 12; price 9; price 15; price 11]
              [price 5; price 6; price 4; price 7; price 6]
              [price 6; price 7; price 8; price 8; price 7] 5)
    as (out & dsh & dsl & Hout & Hh & _ & _ & _ & Hrow); [by constructor|lia|].
  exists out, dsh. split; [exact Hout|]. split; [exact Hh|].
  apply (Hrow 2%nat); [vm_compute|]; lia.
Defined.

(** ** Percentage difference *)

Lemma lookup_align_with (f : fval → fval → fval) (a b : list fval) (i : nat) :
  (i < Nat.max (length a) (length b))%nat →
  align_with f a b !! i = Some (f (default NaN (a !! i)) (default NaN (b !! i))).
Proof.
  revert b i. induction a as [|x a IH]; intros b i Hi; simpl in *.
  - rewrite list_lookup_fmap.
    destruct (lookup_lt_is_Some_2 b i) as [y Hy]; [lia|]. by rewrite Hy.
  - destruct b as [|y b]; destruct i as [|i]; simpl in *; try done.
    + rewrite IH by (simpl; lia). by rewrite lookup_nil.
    + apply IH. lia.
Qed.

Lemma lookup_pct_diff_cells (c r : list fval) (i : nat) :
  (i < Nat.max (length c) (length r))%nat →
  pct_diff_cells c r !! i
  = Some (fround2 (fmul (fdiv (fsub (default NaN (c !! i)) (default NaN (r !! i)))
                               (default NaN (r !! i)))
                        (Num 100))).
Proof.
  intros Hi. unfold pct_diff_cells. rewrite !list_lookup_fmap.
  rewrite lookup_align_with by (rewrite length_align_with; lia).
  rewrite lookup_align_with by done. simpl.
  destruct (lookup_lt_is_Some_2 (align_with fsub c r) i) as [z Hz];
    [rewrite length_align_with; lia|].
  rewrite lookup_align_with in Hz by done. injection Hz as <-. done.
Qed.

Lemma fmul_100_special (x : fval) :
  is_finite x = false → fmul x (Num 100) = x.
Proof. by destruct x. Qed.

Lemma fround2_special (x : fval) : is_finite x = false → fround2 x = x.
Proof. by destruct x. Qed.

Lemma pct_cell_zero_reference (x y : fval) :
  feq y (Num 0) →
  is_finite (fround2 (fmul (fdiv (fsub x y) y) (Num 100))) = false.
Proof.
  destruct y as [| |b|]; simpl; try done. intros Hb.
  assert (E : Qeq_bool b 0 = true) by by apply Qeq_bool_iff.
  assert (E' : Qle_bool 0 b = true) by (apply Qle_bool_iff; rewrite Hb; apply Qle_refl).
  assert (Hq : ∀ z, is_finite (fdiv z (Num b)) = false).
  { intros [| |d|]; simpl; rewrite ?E, ?E'; try done.
    unfold signed_inf. by destruct (d ?= 0)%Q. }
  specialize (Hq (fsub x (Num b))).
  by rewrite fmul_100_special, fround2_special.
Qed.

(** With a finite current value and a finite non-zero reference the cell
    is a number or an infinity (on overflow), never NaN. *)
Lemma pct_cell_not_nan (a b : Q) :
  ¬ (b == 0)%Q →
  fround2 (fmul (fdiv (fsub (Num a) (Num b)) (Num b)) (Num 100)) ≠ NaN.
Proof.
  intros Hb.
  assert (E : Qeq_bool b 0 = false).
  { destruct (Qeq_bool b 0) eqn:E; [by apply Qeq_bool_iff in E|done]. }
  assert (H1 : fsub (Num a) (Num b) ≠ NaN) by apply round64_not_nan.
  assert (H2 : ∀ z, z ≠ NaN → fdiv z (Num b) ≠ NaN).
  { intros [| |d|] Hz; simpl; rewrite ?E; try done;
      [by destruct (Qle_bool 0 b)|apply round64_not_nan|by destruct (Qle_bool 0 b)]. }
  assert (H3 : ∀ z, z ≠ NaN → fmul z (Num 100) ≠ NaN).
  { intros [| |d|] Hz; simpl; try done. apply round64_not_nan. }
  assert (H4 : ∀ z, z ≠ NaN → fround2 z ≠ NaN).
  { intros z Hz. unfold fround2. specialize (H3 z Hz).
    destruct (fmul z (Num 100)) as [| |d|]; simpl; try done. apply round64_not_nan. }
  by apply H4, H3, H2.
Qed.

Lemma calculate_metrics_columns
    (data : DataFrame) (dates : list Z) (high low close : list fval) (W V : Z) :
  raw_frame data dates high low close → (1 ≤ W)%Z →
  ∃ out dates' high' low' close',
    metrics_calculations.calculate_metrics data W V = Ok out ∧
    ohlc_frame out dates' high' low' close' ∧
    len out = len data ∧ length dates' = len data ∧
    ascending dates' ∧
    lookup_col (High_Last W) (columns out) = Some (FloatS (trailing nanmax W high')) ∧
    lookup_col (Low_Last W) (columns out) = Some (FloatS (trailing nanmin W low')) ∧
    lookup_col (Days_Since_High_Last W) (columns out)
    = Some (FloatS (days_since_column nanmax dates' high' W)) ∧
    lookup_col (Days_Since_Low_Last W) (columns out)
    = Some (FloatS (days_since_column nanmin dates' low' W)) ∧
    lookup_col (High_Next V) (columns out) = Some (FloatS (forward nanmax V high')) ∧
    lookup_col (Low_Next V) (columns out) = Some (FloatS (forward nanmin V low')) ∧
    lookup_col (Pct_Diff_From_High_Last W) (columns out)
    = Some (FloatS (pct_diff_cells close' (trailing nanmax W high'))) ∧
    lookup_col (Pct_Diff_From_Low_Last W) (columns out)
    = Some (FloatS (pct_diff_cells close' (trailing nanmin W low'))) ∧
    lookup_col (Pct_Diff_From_High_Next V) (columns out)
    = Some (FloatS (pct_diff_cells close' (forward nanmax V high'))) ∧
    lookup_col (Pct_Diff_From_Low_Next V) (columns out)
    = Some (FloatS (pct_diff_cells close' (forward nanmin V low'))).
Proof.
  intros Hraw HW.
  pose proof (calculate_metrics_eval _ _ _ _ _ W V Hraw HW) as Hall. cbv zeta in Hall.
  pose proof (normalize_ohlc _ _ _ _ _ Hraw) as Ho. cbv zeta in Ho.
  destruct Ho as [Hidx Hd Hh Hl Hc Hhl Hll Hcl]. cbn [index columns] in *.
  assert (Hn : length (take_rows (argsort dates) dates) = len data).
  { destruct Hraw. rewrite length_take_rows_argsort; lia. }
  eexists _, _, _, _, _. split; [exact Hall|].
  cbn [columns]. unfold future_columns, historical_columns.
  split; [constructor; cbn [index columns]; col_lookup; try done; by rewrite Hn|].
  split; [apply len_range_frame|]. split; [done|].
  split; [apply argsort_ascending|].
  repeat split; by col_lookup.
Qed.

(** C6, as amended.  On two aligned sequences of equal length,
    [calculate_pct_diff] never fails and returns, row by row, the value of
    [(current - reference) / reference * 100] computed in double precision
    and rounded to two decimals the way numpy does it, [rint(x * 100) / 100].
    For a finite pair with a non-zero reference the cell is never NaN.  When
    in addition nothing overflows and the reference is not subnormal
    ([|reference| >= 2^-1022], [|current - reference| <= 2^1023] and a
    quotient of at most [2^1000] in size), the cell is the double nearest to
    a whole number of hundredths and lies within half a hundredth of the
    exact percentage, up to the rounding error of the double-precision steps
    (a relative [10^-15] and an absolute [10^-12]).  [pct_diff(110, 100)] is
    [10.0] and [pct_diff(90, 100)] is [-10.0]; and each of the four
    percentage-deviation columns of the pipeline, historical and forward, is
    this function applied to [Close] and the corresponding extreme column. *)
Theorem pct_diff_is_rounded_relative_difference (current reference : list fval) :
  length current = length reference →
  ∃ p,
    utils.calculate_pct_diff (FloatS current) (FloatS reference) = Ok (FloatS p) ∧
    length p = length current ∧
    (∀ (i : nat) (a b : Q),
       current !! i = Some (Num a) → reference !! i = Some (Num b) → ¬ (b == 0)%Q →
       ∃ cell, p !! i = Some cell ∧ cell ≠ NaN ∧
         ((2 ^ (-1022) <= Qabs b)%Q → (Qabs (a - b) <= 2 ^ 1023)%Q →
          (Qabs ((a - b) / b) <= 2 ^ 1000)%Q →
          ∃ (x : Q) (k : Z),
            cell = Num x ∧ round64 (inject_Z k / 100) = Num x ∧
            (Qabs (x - (a - b) / b * 100)
             <= (1 # 200) + Qabs ((a - b) / b * 100) * (1 # 1000000000000000)
                + (1 # 1000000000000))%Q)) ∧
    (∃ x y,
       utils.calculate_pct_diff (FloatS [price 110; price 90])
                                (FloatS [price 100; price 100])
       = Ok (FloatS [Num x; Num y]) ∧ (x == 10)%Q ∧ (y == -10)%Q) ∧
    (∀ (data : DataFrame) (dates : list Z) (high low close : list fval) (W V : Z),
       raw_frame data dates high low close → (1 ≤ W)%Z →
       ∃ out cl hl ll hn ln,
         metrics_calculations.calculate_metrics data W V = Ok out ∧
         getitem out "Close" = Ok cl ∧
         getitem out (High_Last W) = Ok hl ∧ getitem out (Low_Last W) = Ok ll ∧
         getitem out (High_Next V) = Ok hn ∧ getitem out (Low_Next V) = Ok ln ∧
         getitem out (Pct_Diff_From_High_Last W) = utils.calculate_pct_diff cl hl ∧
         getitem out (Pct_Diff_From_Low_Last W) = utils.calculate_pct_diff cl ll ∧
         getitem out (Pct_Diff_From_High_Next V) = utils.calculate_pct_diff cl hn ∧
         getitem out (Pct_Diff_From_Low_Next V) = utils.calculate_pct_diff cl ln).
Proof.
  intros Hlen. exists (pct_diff_cells current reference).
  split; [reflexivity|]. split; [by apply length_pct_diff_cells|]. split; [|split].
  - intros i a b Ha Hb Hne. eexists. split.
    { rewrite lookup_pct_diff_cells by (apply lookup_lt_Some in Ha; lia).
      by rewrite Ha, Hb. }
    cbn [default]. split; [by apply pct_cell_not_nan|].
    intros Hnormal Hsub Hquot. by apply pct_cell_float.
  - assert (H : ∃ x y,
               pct_diff_cells [price 110; price 90] [price 100; price 100]
               = [Num x; Num y] ∧ Qeq_bool x 10 = true ∧ Qeq_bool y (-10) = true).
    { set (r := pct_diff_cells [price 110; price 90] [price 100; price 100]).
      assert (Hr : r = r) by done. unfold r at 1 in Hr. vm_compute in Hr.
      match type of Hr with [Num ?x; Num ?y] = _ => exists x, y end.
      split; [symmetry; exact Hr|]. split; vm_compute; reflexivity. }
    destruct H as (x & y & Hp & Hx & Hy). exists x, y.
    split; [rewrite calculate_pct_diff_eval; f_equal; f_equal; exact Hp|].
    split; apply Qeq_bool_iff; assumption.
  - intros data dates high low close W V Hraw HW.
    destruct (calculate_metrics_columns _ _ _ _ _ W V Hraw HW)
      as (out & dates' & high' & low' & close' & Hout & Ho & _ & _ & _ &
          Hhl & Hll & _ & _ & Hhn & Hln & Hphl & Hpll & Hphn & Hpln).
    destruct Ho as [_ _ _ _ Hc _ _ _].
    eexists out, (FloatS close'), _, _, _, _. split; [done|].
    rewrite (getitem_lookup _ _ _ Hc), (getitem_lookup _ _ _ Hhl),
      (getitem_lookup _ _ _ Hll), (getitem_lookup _ _ _ Hhn),
      (getitem_lookup _ _ _ Hln), (getitem_lookup _ _ _ Hphl),
      (getitem_lookup _ _ _ Hpll), (getitem_lookup _ _ _ Hphn),
      (getitem_lookup _ _ _ Hpln).
    by rewrite !calculate_pct_diff_eval.
Qed.

Lemma pct_diff_witness :
  ∃ p x,
    utils.calculate_pct_diff (FloatS [price 7; price 8]) (FloatS [price 15; price 12])
    = Ok (FloatS p) ∧
    length p = 2%nat ∧ p !! 0%nat = Some (Num x) ∧
    (Qabs (x - (7 - 15) / 15 * 100)
     <= (1 # 200) + Qabs ((7 - 15) / 15 * 100) * (1 # 1000000000000000)
        + (1 # 1000000000000))%Q.
Proof.
  destruct (pct_diff_is_rounded_relative_difference
              [price 7; price 8] [price 15; price 12])
    as (p & Hp & Hlen & Hcell & _); [reflexivity|].
  destruct (Hcell 0%nat 7%Q 15%Q) as (cell & Hc & _ & Hx);
    [reflexivity|reflexivity|discriminate|].
  destruct Hx as (x & k & -> & _ & Hx);
    [vm_compute; discriminate|vm_compute; discriminate|vm_compute; discriminate|].
  exists p, x. split; [exact Hp|]. split; [exact Hlen|]. split; [exact Hc|exact Hx].
Defined.

(** The reading of C6 under which the cell is the exact percentage rounded
    to two decimals fails: for 183 against 160 the exact percentage is
    14.375, whose nearest hundredths are 14.37 and 14.38, but the double
    computed before rounding lies below 14.375 and the code returns the
    double nearest to 14.37, which is more than half a hundredth away.  And
    finite inputs with a non-zero reference can give an infinity. *)
Lemma pct_diff_exact_rounding_counterexample :
  (∃ x,
     utils.calculate_pct_diff (FloatS [price 183]) (FloatS [price 160])
     = Ok (FloatS [Num x]) ∧
     round64 (1437 # 100) = Num x ∧
     (x < (183 - 160) / 160 * 100 - (1 # 200))%Q ∧
     ¬ rounded_to_2_decimals ((183 - 160) / 160 * 100) x) ∧
  utils.calculate_pct_diff (FloatS [price (10 ^ 308)]) (FloatS [price (- 10 ^ 308)])
  = Ok (FloatS [NegInf]) ∧
  utils.calculate_pct_diff (FloatS [price 1]) (FloatS [Num (1 # 10 ^ 320)])
  = Ok (FloatS [PosInf]).
Proof.
  split; [|split; vm_compute; reflexivity].
  set (r := pct_diff_cells [price 183] [price 160]).
  assert (Hr : r = r) by done. unfold r at 1 in Hr. vm_compute in Hr.
  match type of Hr with [Num ?x] = _ => exists x end.
  split; [rewrite calculate_pct_diff_eval; f_equal; f_equal; symmetry; exact Hr|].
  split; [vm_compute; reflexivity|].
  split; [vm_compute; reflexivity|].
  intros (_ & Hlo & _). revert Hlo. vm_compute. intros H. by apply H.
Qed.

(** C8.  Wherever the reference extreme (trailing or forward high or low)
    of a row is 0, the percentage-difference cell of that row is computed
    without any error and is not a finite number (an infinity or NaN), and
    that is the cell found in the output column. *)
Theorem zero_reference_gives_non_finite
    (data : DataFrame) (dates : list Z) (high low close : list fval) (W V : Z) :
  raw_frame data dates high low close → (1 ≤ W)%Z →
  ∃ out,
    metrics_calculations.calculate_metrics data W V = Ok out ∧
    (∀ ref pct : string,
       (ref, pct) ∈ [ (High_Last W, Pct_Diff_From_High_Last W);
                      (Low_Last W, Pct_Diff_From_Low_Last W);
                      (High_Next V, Pct_Diff_From_High_Next V);
                      (Low_Next V, Pct_Diff_From_Low_Next V) ] →
       ∃ rs ps,
         getitem out ref = Ok (FloatS rs) ∧ getitem out pct = Ok (FloatS ps) ∧
         length ps = length rs ∧
         ∀ (i : nat) (z : fval), rs !! i = Some z → feq z (Num 0) →
           ∃ cell, ps !! i = Some cell ∧ is_finite cell = false) ∧
    (∀ (c r : list fval) (i : nat) (z : fval),
       r !! i = Some z → feq z (Num 0) →
       ∃ ps cell,
         utils.calculate_pct_diff (FloatS c) (FloatS r) = Ok (FloatS ps) ∧
         ps !! i = Some cell ∧ is_finite cell = false).
Proof.
  intros Hraw HW.
  assert (Hfun : ∀ (c r : list fval) (i : nat) (z : fval),
             r !! i = Some z → feq z (Num 0) →
             ∃ cell, pct_diff_cells c r !! i = Some cell ∧ is_finite cell = false).
  { intros c r i z Hz H0. eexists. split.
    - apply lookup_pct_diff_cells. apply lookup_lt_Some in Hz. lia.
    - rewrite Hz. simpl default. by apply pct_cell_zero_reference. }
  destruct (calculate_metrics_columns _ _ _ _ _ W V Hraw HW)
    as (out & dates' & high' & low' & close' & Hout & Ho & _ & _ & _ &
        Hhl & Hll & _ & _ & Hhn & Hln & Hphl & Hpll & Hphn & Hpln).
  destruct Ho as [_ _ _ _ _ Hh Hl Hc].
  exists out. split; [done|]. split.
  - intros ref pct Hin. rewrite !elem_of_cons, elem_of_nil in Hin.
    destruct Hin as [[= -> ->]|[[= -> ->]|[[= -> ->]|[[= -> ->]|[]]]]];
      eexists _, _;
      (split; [by apply getitem_lookup|]); (split; [by apply getitem_lookup|]);
      (split; [rewrite length_pct_diff_cells;
               rewrite ?length_trailing, ?length_forward; congruence|]);
      intros i z Hz H0; by eapply Hfun.
  - intros c r i z Hz H0. destruct (Hfun c r i z Hz H0) as (cell & Hcell & Hnf).
    by exists (pct_diff_cells c r), cell.
Qed.

Lemma zero_reference_witness :
  ∃ out,
    metrics_calculations.calculate_metrics zero_frame 1 1 = Ok out ∧
    getitem out (High_Last 1) = Ok (FloatS [price 0]) ∧
    getitem out (Pct_Diff_From_High_Last 1) = Ok (FloatS [PosInf]).
Proof.
  destruct (zero_reference_gives_non_finite zero_frame [day 1]
              [price 0] [price 0] [price 5] 1 1)
    as (out & Hout & _); [by constructor|lia|].
  exists out. split; [exact Hout|].
  vm_compute in Hout. injection Hout as <-. split; reflexivity.
Defined.

(** ** Column names *)

Lemma string_length_app (s t : string) :
  String.length (s +:+ t) = (String.length s + String.length t)%nat.
Proof. induction s as [|c s IH]; simpl; [done|by rewrite IH]. Qed.

Lemma string_app_inj_r (s1 s2 t : string) : s1 +:+ t = s2 +:+ t → s1 = s2.
Proof.
  intros H.
  assert (Hl : String.length s1 = String.length s2).
  { apply (f_equal String.length) in H. rewrite !string_length_app in H. lia. }
  revert s2 H Hl. induction s1 as [|c s1 IH]; intros [|d s2] H Hl; simpl in *;
    try done.
  injection H as -> H. f_equal. apply IH; [done|lia].
Qed.

Lemma template_inj (pre : string) (a b : Z) :
  pre +:+ pretty a +:+ "_Days" = pre +:+ pretty b +:+ "_Days" → a = b.
Proof.
  intros H. apply String.app_inj in H. apply string_app_inj_r in H.
  by apply pretty_Z_inj in H.
Qed.

(** Two names built from different templates, or a template and a literal,
    differ in their fixed prefix; two names of one template differ when their
    parameters do. *)
Ltac name_neq :=
  match goal with
  | H : ?a ≠ ?b |- _ ≠ _ =>
      let E := fresh in
      intros E; apply template_inj in E; first [by apply H | by apply H; symmetry]
  | |- _ ≠ _ => by apply String.eqb_neq
  end.

Ltac names_fresh :=
  unfold historical_names, future_names, base_names;
  rewrite !not_elem_of_cons; repeat split; try apply not_elem_of_nil; name_neq.

(** ** Selecting the feature and target columns *)

Lemma getitems_all_missing (data : DataFrame) (names : list string) :
  names ≠ [] →
  (∀ n, n ∈ names → has_col (columns data) n = false) →
  getitems data names = Raise (KeyError names).
Proof.
  intros Hne Hall. unfold getitems.
  assert (Hf : List.filter (λ n, negb (has_col (columns data) n)) names = names).
  { clear Hne. induction names as [|n names IH]; simpl; [done|].
    rewrite (Hall n) by left. simpl. f_equal. apply IH.
    intros m Hm. apply Hall. by right. }
  rewrite Hf. by destruct names.
Qed.

Lemma getitems_all_present (data : DataFrame) (names : list string) :
  (∀ n, n ∈ names → has_col (columns data) n = true) →
  ∃ X, getitems data names = Ok X ∧ index X = index data ∧ (columns X).*1 = names ∧
       Forall2 (λ c n, c.1 = n ∧ lookup_col n (columns data) = Some c.2) (columns X) names.
Proof.
  intros Hall. unfold getitems.
  assert (Hf : List.filter (λ n, negb (has_col (columns data) n)) names = []).
  { induction names as [|n names IH]; simpl; [done|].
    rewrite (Hall n) by left. simpl. apply IH.
    intros m Hm. apply Hall. by right. }
  rewrite Hf. eexists. split; [reflexivity|]. split; [reflexivity|]. cbn [columns].
  clear Hf. induction names as [|n names IH]; simpl; [by split|].
  specialize (Hall n ltac:(left)) as Hn. unfold has_col in Hn.
  destruct (lookup_col n (columns data)) as [s|] eqn:E; [|done].
  destruct IH as [IH1 IH2]; [intros m Hm; apply Hall; by right|].
  simpl. split; [by f_equal|]. by constructor.
Qed.

Lemma feature_columns_nonempty (W : Z) : ml_model.feature_columns W ≠ [].
Proof. unfold ml_model.feature_columns. discriminate. Qed.

Lemma target_columns_nonempty (V : Z) : ml_model.target_columns V ≠ [].
Proof. unfold ml_model.target_columns. discriminate. Qed.

Lemma has_col_lookup (cols : list (string * Series)) (n : string) (s : Series) :
  lookup_col n cols = Some s → has_col cols n = true.
Proof. intros H. unfold has_col. by rewrite H. Qed.

Lemma raw_column_absent (data : DataFrame) (p : list nat) (n : string) :
  only_base_columns data → n ∉ base_names →
  lookup_col n (prod_map id (series_take p) <$> columns data) = None.
Proof.
  intros Hbase Hn. rewrite lookup_col_take.
  destruct (lookup_col n (columns data)) as [s|] eqn:E; [|done].
  destruct Hn. apply Hbase. by eapply has_col_lookup.
Qed.

(** C7.  Take a table with the base columns only and annotate it with the
    window lengths [W] and [V].  Selecting the four feature columns and the
    two target columns with the same [W] and [V] succeeds and returns them
    in the fixed order: each selected column is the column of that name in
    the annotated table, cell for cell, with one cell per row of the input,
    under the index of the annotated table.  With any [W' <> W] the
    selection raises a [KeyError] carrying the feature names built from
    [W']; with [W] and any [V' <> V] it raises a [KeyError] carrying the
    target names built from [V'].  In both cases every name the error
    carries is absent from the table: nothing is substituted. *)
Theorem assembling_needs_the_computed_windows
    (data : DataFrame) (dates : list Z) (high low close : list fval) (W V W' V' : Z) :
  raw_frame data dates high low close → only_base_columns data → (1 ≤ W)%Z →
  ∃ out,
    metrics_calculations.calculate_metrics data W V = Ok out ∧
    (∃ X y,
       ml_model.train_model_X_y out W V = Ok (X, y) ∧
       (columns X).*1 = ml_model.feature_columns W ∧
       (columns y).*1 = ml_model.target_columns V ∧
       index X = index out ∧ index y = index out ∧
       Forall2 (λ c n, c.1 = n ∧ getitem out n = Ok c.2 ∧ series_len c.2 = len data)
               (columns X) (ml_model.feature_columns W) ∧
       Forall2 (λ c n, c.1 = n ∧ getitem out n = Ok c.2 ∧ series_len c.2 = len data)
               (columns y) (ml_model.target_columns V)) ∧
    (W' ≠ W →
       ml_model.train_model_X_y out W' V'
       = Raise (KeyError (ml_model.feature_columns W')) ∧
       ∀ n, n ∈ ml_model.feature_columns W' → has_col (columns out) n = false) ∧
    (V' ≠ V →
       ml_model.train_model_X_y out W V'
       = Raise (KeyError (ml_model.target_columns V')) ∧
       ∀ n, n ∈ ml_model.target_columns V' → has_col (columns out) n = false).
Proof.
  intros Hraw Hbase HW.
  pose proof (calculate_metrics_eval _ _ _ _ _ W V Hraw HW) as Hout. cbv zeta in Hout.
  destruct (calculate_metrics_columns _ _ _ _ _ W V Hraw HW)
    as (out & dates' & high' & low' & close' & Hout' & Ho & _ & Hlen & _ &
        _ & _ & Hdh & Hdl & _ & _ & Hphl & Hpll & Hphn & Hpln).
  destruct Ho as [_ _ _ _ _ Hhl Hll Hcl].
  assert (Hpct : ∀ xs, length xs = length dates' →
                       length (pct_diff_cells close' xs) = len data).
  { intros xs Hxs. rewrite length_pct_diff_cells; lia. }
  assert (Hfeat' : ∀ n, n ∈ ml_model.feature_columns W →
                     ∃ s, lookup_col n (columns out) = Some s ∧ series_len s = len data).
  { intros n. unfold ml_model.feature_columns. rewrite !elem_of_cons, elem_of_nil.
    intros [->|[->|[->|[->|[]]]]]; eexists; (split; [eassumption|]); simpl;
      rewrite ?length_days_since_column; try done;
      apply Hpct; rewrite length_trailing; lia. }
  assert (Htarg' : ∀ n, n ∈ ml_model.target_columns V →
                     ∃ s, lookup_col n (columns out) = Some s ∧ series_len s = len data).
  { intros n. unfold ml_model.target_columns. rewrite !elem_of_cons, elem_of_nil.
    intros [->|[->|[]]]; eexists; (split; [eassumption|]); simpl;
      apply Hpct; rewrite length_forward; lia. }
  assert (Hfeat : ∀ n, n ∈ ml_model.feature_columns W → has_col (columns out) n = true).
  { intros n Hn. destruct (Hfeat' n Hn) as (s & Hs & _). by eapply has_col_lookup. }
  assert (Htarg : ∀ n, n ∈ ml_model.target_columns V → has_col (columns out) n = true).
  { intros n Hn. destruct (Htarg' n Hn) as (s & Hs & _). by eapply has_col_lookup. }
  assert (Hcells : ∀ (cols : list (string * Series)) (names : list string),
            (∀ n, n ∈ names →
                  ∃ s, lookup_col n (columns out) = Some s ∧ series_len s = len data) →
            Forall2 (λ c n, c.1 = n ∧ lookup_col n (columns out) = Some c.2) cols names →
            Forall2 (λ c n, c.1 = n ∧ getitem out n = Ok c.2 ∧ series_len c.2 = len data)
                    cols names).
  { intros cols names Hnames Hsel.
    induction Hsel as [|c n cols names [Hc Hl] _ IH]; constructor.
    - destruct (Hnames n ltac:(left)) as (s & Hs & Hlens).
      rewrite Hl in Hs. injection Hs as <-.
      split; [done|]. split; [by apply getitem_lookup|done].
    - apply IH. intros m Hm. apply Hnames. by right. }
  assert (Habsent : ∀ n, n ∉ historical_names W → n ∉ future_names V → n ∉ base_names →
                    has_col (columns out) n = false).
  { intros n H1 H2 H3. rewrite Hout in Hout'. injection Hout' as <-.
    unfold has_col. cbn [columns].
    by rewrite lookup_future_other, lookup_historical_other, raw_column_absent. }
  exists out. split; [done|]. split; [|split].
  - destruct (getitems_all_present out _ Hfeat) as (X & HX & HiX & HcX & HsX).
    destruct (getitems_all_present out _ Htarg) as (y & Hy & Hiy & Hcy & Hsy).
    exists X, y. unfold ml_model.train_model_X_y. rewrite HX, bind_Ok, Hy.
    repeat (split; [done|]). split; by apply Hcells.
  - intros Hne.
    assert (Hmiss : ∀ n, n ∈ ml_model.feature_columns W' → has_col (columns out) n = false).
    { intros n. unfold ml_model.feature_columns. rewrite !elem_of_cons, elem_of_nil.
      intros [->|[->|[->|[->|[]]]]]; apply Habsent; names_fresh. }
    split; [|done]. unfold ml_model.train_model_X_y.
    by rewrite (getitems_all_missing out _ (feature_columns_nonempty W') Hmiss).
  - intros Hne.
    assert (Hmiss : ∀ n, n ∈ ml_model.target_columns V' → has_col (columns out) n = false).
    { intros n. unfold ml_model.target_columns. rewrite !elem_of_cons, elem_of_nil.
      intros [->|[->|[]]]; apply Habsent; names_fresh. }
    split; [|done]. unfold ml_model.train_model_X_y.
    destruct (getitems_all_present out _ Hfeat) as (X & HX & _).
    rewrite HX, bind_Ok.
    by rewrite (getitems_all_missing out _ (target_columns_nonempty V') Hmiss).
Qed.

Lemma has_col_elem (cols : list (string * Series)) (n : string) :
  has_col cols n = true → n ∈ cols.*1.
Proof.
  unfold has_col. induction cols as [|[k c] cols IH]; simpl; [done|].
  destruct (String.eqb_spec k n) as [->|_]; [by left|].
  intros H. right. by apply IH.
Qed.

Lemma only_base_columns_names (data : DataFrame) :
  (columns data).*1 = base_names → only_base_columns data.
Proof. intros Hn m Hm. rewrite <- Hn. by apply has_col_elem. Qed.

Lemma assembling_witness :
  ∃ out X y,
    metrics_calculations.calculate_metrics demo_frame 3 2 = Ok out ∧
    ml_model.train_model_X_y out 3 2 = Ok (X, y) ∧
    getitem X "Days_Since_High_Last_3_Days"
    = Ok (FloatS [price 0; price 0; price 1; price 0; price 1]) ∧
    ml_model.train_model_X_y out 5 3
    = Raise (KeyError [ "Days_Since_High_Last_5_Days"; "%_Diff_From_High_Last_5_Days";
                        "Days_Since_Low_Last_5_Days"; "%_Diff_From_Low_Last_5_Days" ]) ∧
    ml_model.train_model_X_y out 3 3
    = Raise (KeyError [ "%_Diff_From_High_Next_3_Days"; "%_Diff_From_Low_Next_3_Days" ]).
Proof.
  destruct (assembling_needs_the_computed_windows demo_frame
              [day 1; day 2; day 3; day 4; day 5]
              [price 10; price 12; price 9; price 15; price 11]
              [price 5; price 6; price 4; price 7; price 6]
              [price 6; price 7; price 8; price 8; price 7] 3 2 5 3)
    as (out & Hout & (X & y & HXy & _) & H1 & H2);
    [by constructor|by apply only_base_columns_names|lia|].
  exists out, X, y. split; [exact Hout|]. split; [exact HXy|]. split; [|split].
  - vm_compute in Hout. injection Hout as <-.
    vm_compute in HXy. injection HXy as <- _. vm_compute. reflexivity.
  - apply H1. lia.
  - apply H2. lia.
Defined.

(** ** The most recent extreme of the window *)

Lemma lookup_window_mask (n : nat) (a b : Z) (j : nat) :
  window_mask n a b !! j = Some true ↔ (j < n)%nat ∧ (a ≤ Z.of_nat j ≤ b)%Z.
Proof.
  unfold window_mask. rewrite list_lookup_fmap.
  destruct (decide (j < n)%nat) as [Hj|Hj].
  - rewrite lookup_range by done. simpl. split.
    + intros [= H]. apply andb_true_iff in H as [H1 H2]. lia.
    + intros [_ H]. f_equal. apply andb_true_iff. lia.
  - rewrite (proj2 (lookup_ge_None _ _)) by (rewrite length_range; lia).
    simpl. split; [done|lia].
Qed.

Lemma select_rows_lookup_pair {A B} (m : list bool) (l1 : list A) (l2 : list B)
    (k : nat) (x : A) (y : B) :
  select_rows m l1 !! k = Some x → select_rows m l2 !! k = Some y →
  ∃ j, m !! j = Some true ∧ l1 !! j = Some x ∧ l2 !! j = Some y.
Proof.
  revert l1 l2 k. induction m as [|b m IH]; intros [|x1 l1] [|y1 l2] k; simpl;
    try done; try (destruct b; done).
  destruct b.
  - destruct k as [|k]; simpl.
    + intros [= ->] [= ->]. by exists 0%nat.
    + intros H1 H2. destruct (IH _ _ _ H1 H2) as (j & ? & ? & ?). by exists (S j).
  - intros H1 H2. destruct (IH _ _ _ H1 H2) as (j & ? & ? & ?). by exists (S j).
Qed.

Lemma select_rows_lookup_pair_inv {A B} (m : list bool) (l1 : list A) (l2 : list B)
    (j : nat) (x : A) (y : B) :
  m !! j = Some true → l1 !! j = Some x → l2 !! j = Some y →
  ∃ k, select_rows m l1 !! k = Some x ∧ select_rows m l2 !! k = Some y.
Proof.
  revert l1 l2 j. induction m as [|b m IH]; intros [|x1 l1] [|y1 l2] j; simpl;
    try done.
  destruct j as [|j]; simpl.
  - intros [= ->] [= ->] [= ->]. by exists 0%nat.
  - intros Hm H1 H2. destruct (IH _ _ _ Hm H1 H2) as (k & ? & ?).
    destruct b; [by exists (S k)|by exists k].
Qed.

Lemma elem_of_select_rows {A} (m : list bool) (l : list A) (x : A) :
  x ∈ select_rows m l ↔ ∃ j, m !! j = Some true ∧ l !! j = Some x.
Proof.
  rewrite list_elem_of_lookup. split.
  - intros (k & Hk). destruct (select_rows_lookup_pair m l l k x x Hk Hk) as (j & ? & ? & _).
    by exists j.
  - intros (j & Hm & Hl).
    destruct (select_rows_lookup_pair_inv m l l j x x Hm Hl Hl) as (k & ? & _).
    by exists k.
Qed.

Lemma max_date_spec (l : list Z) :
  match max_date l with
  | None => l = []
  | Some d => d ∈ l ∧ ∀ e, e ∈ l → (e ≤ d)%Z
  end.
Proof.
  induction l as [|x l IH]; simpl; [done|].
  destruct (max_date l) as [m|].
  - destruct IH as [Hin Hub]. split.
    + destruct (Z.max_spec x m) as [[_ ->]|[_ ->]]; [by right|by left].
    + intros e He. apply elem_of_cons in He as [->|He]; [lia|].
      specialize (Hub e He). lia.
  - subst l. split; [by left|].
    intros e He. apply elem_of_cons in He as [->|He]; [lia|inversion He].
Qed.

Lemma last_such (P : nat → bool) (lo hi : nat) :
  (∃ j, (lo ≤ j ≤ hi)%nat ∧ P j = true) →
  ∃ j, (lo ≤ j ≤ hi)%nat ∧ P j = true ∧
       ∀ k, (j < k ≤ hi)%nat → P k = false.
Proof.
  induction hi as [|hi IH]; intros (j & Hj & HP).
  - exists j. split; [done|]. split; [done|]. intros k Hk. lia.
  - destruct (P (S hi)) eqn:E.
    + destruct (decide (lo ≤ S hi)%nat) as [Hlo|Hlo]; [|lia].
      exists (S hi). split; [lia|]. split; [done|]. intros k Hk. lia.
    + assert (Hj' : (lo ≤ j ≤ hi)%nat).
      { destruct (decide (j = S hi)) as [->|]; [congruence|lia]. }
      destruct (IH (ex_intro _ j (conj Hj' HP))) as (j0 & Hj0 & HP0 & Hlast).
      exists j0. split; [lia|]. split; [done|].
      intros k Hk. destruct (decide (k = S hi)) as [->|]; [done|]. apply Hlast. lia.
Qed.

Lemma days_between_timedelta (earlier later : Z) :
  (earlier ≤ later)%Z → days_between earlier later (timedelta_days (later - earlier)).
Proof.
  intros Hle. unfold days_between, timedelta_days, is_date, ns_per_day.
  repeat split; intros; Z.div_mod_to_equations; lia.
Qed.

Lemma window_cells (n : nat) (xs : list fval) (W : Z) (i : nat) (x : fval) :
  length xs = n → (W - 1 ≤ Z.of_nat i)%Z → (i < n)%nat →
  x ∈ select_rows (window_mask n (Z.max 0 (Z.of_nat i - W + 1)) (Z.of_nat i)) xs
  ↔ cell_in xs (Z.of_nat i - W + 1) (Z.of_nat i) x.
Proof.
  intros Hlen HW Hi. rewrite elem_of_select_rows. unfold cell_in.
  replace (Z.max 0 (Z.of_nat i - W + 1)) with (Z.of_nat i - W + 1)%Z by lia.
  split; intros (j & Hj & Hx); exists j.
  - apply lookup_window_mask in Hj. tauto.
  - split; [|done]. apply lookup_window_mask. split; [lia|done].
Qed.

Lemma extreme_of_max_over (l xs : list fval) (a b : Z) (v : fval) :
  (∀ x, x ∈ l ↔ cell_in xs a b x) → extreme_of fle_b l v → max_over xs a b v.
Proof.
  intros Hcell [[-> Hall]|(Hv & Hin & Hub)].
  - left. split; [done|]. intros x Hx. by apply Hall, Hcell.
  - right. split; [done|]. split; [by apply Hcell|].
    intros x Hx Hn. apply fle_b_spec, Hub; [by apply Hcell|done].
Qed.

Lemma extreme_of_min_over (l xs : list fval) (a b : Z) (v : fval) :
  (∀ x, x ∈ l ↔ cell_in xs a b x) → extreme_of fge_b l v → min_over xs a b v.
Proof.
  intros Hcell [[-> Hall]|(Hv & Hin & Hub)].
  - left. split; [done|]. intros x Hx. by apply Hall, Hcell.
  - right. split; [done|]. split; [by apply Hcell|].
    intros x Hx Hn. apply fle_b_spec. apply (Hub x); [by apply Hcell|done].
Qed.

Lemma days_since_cell_spec (le_b : fval → fval → bool)
    (dates : list Z) (xs : list fval) (W : Z) (i : nat) :
  length xs = length dates → ascending dates →
  (W - 1 ≤ Z.of_nat i)%Z → (i < length dates)%nat →
  let a := (Z.of_nat i - W + 1)%Z in
  let v := nan_extreme le_b
             (select_rows (window_mask (length dates) (Z.max 0 a) (Z.of_nat i)) xs) in
  (v = NaN ∧ days_since_cell (nan_extreme le_b) dates xs W (Z.of_nat i) = None) ∨
  (v ≠ NaN ∧
   ∃ (j : nat) (dj di : Z),
     most_recent_at xs a (Z.of_nat i) v j ∧
     dates !! j = Some dj ∧ dates !! i = Some di ∧ (dj ≤ di)%Z ∧
     days_since_cell (nan_extreme le_b) dates xs W (Z.of_nat i)
     = Some (timedelta_days (di - dj))).
Proof.
  intros Hlen Hasc HW Hi a v. unfold days_since_cell. fold a.
  set (m := window_mask (length dates) (Z.max 0 a) (Z.of_nat i)) in *.
  set (w := select_rows m xs) in *. fold v.
  set (sel := select_rows ((λ x, feq_b x v) <$> w) (select_rows m dates)).
  assert (Hm : ∀ j, m !! j = Some true ↔ (j < length dates)%nat ∧ (a ≤ Z.of_nat j ≤ Z.of_nat i)%Z).
  { intros j. unfold m. replace (Z.max 0 a) with a by (unfold a; lia).
    apply lookup_window_mask. }
  assert (Hsel : ∀ d, d ∈ sel ↔
            ∃ (j : nat) (x : fval), (a ≤ Z.of_nat j ≤ Z.of_nat i)%Z ∧ xs !! j = Some x ∧
                    feq_b x v = true ∧ dates !! j = Some d).
  { intros d. unfold sel. rewrite elem_of_select_rows. split.
    - intros (k & Hk & Hd). rewrite list_lookup_fmap in Hk.
      destruct (w !! k) as [x|] eqn:Hx; [|done]. simpl in Hk. injection Hk as Hk.
      destruct (select_rows_lookup_pair m xs dates k x d Hx Hd) as (j & Hj & ? & ?).
      apply Hm in Hj. exists j, x. tauto.
    - intros (j & x & Hj & Hx & Hf & Hd).
      destruct (select_rows_lookup_pair_inv m xs dates j x d) as (k & Hk1 & Hk2);
        [apply Hm; split; [by eapply lookup_lt_Some|done]|done..|].
      exists k. split; [|done]. rewrite list_lookup_fmap. unfold w.
      by rewrite Hk1, <- Hf. }
  pose proof (max_date_spec sel) as Hmax.
  destruct (fval_nan_dec v) as [Hv|Hv].
  - left. split; [done|]. destruct (max_date sel) as [hd|]; [|done].
    destruct Hmax as [Hin _]. apply Hsel in Hin as (j & x & _ & _ & Hf & _).
    rewrite Hv in Hf. by destruct x.
  - right. split; [done|].
    destruct (lookup_lt_is_Some_2 dates i Hi) as [di Hdi].
    rewrite Nat2Z.id, Hdi. simpl default.
    set (P := λ j : nat, match xs !! j with Some x => feq_b x v | None => false end).
    assert (HP : ∃ j, (Z.to_nat a ≤ j ≤ i)%nat ∧ P j = true).
    { pose proof (nan_extreme_elem le_b w Hv) as Hin. fold v in Hin.
      unfold w in Hin. apply elem_of_select_rows in Hin as (j & Hj & Hx).
      apply Hm in Hj. exists j. split; [lia|]. unfold P. rewrite Hx.
      by apply feq_b_refl. }
    destruct (last_such P _ _ HP) as (j & Hj & HPj & Hlast).
    unfold P in HPj. destruct (xs !! j) as [x|] eqn:Hx; [|done].
    destruct (lookup_lt_is_Some_2 dates j ltac:(lia)) as [dj Hdj].
    assert (Hja : (a ≤ Z.of_nat j ≤ Z.of_nat i)%Z) by (unfold a in *; lia).
    assert (Hdjsel : dj ∈ sel) by (apply Hsel; by exists j, x).
    destruct (max_date sel) as [hd|]; [|by rewrite Hmax in Hdjsel; inversion Hdjsel].
    destruct Hmax as [Hin Hub].
    apply Hsel in Hin as (j1 & x1 & Hj1 & Hx1 & Hf1 & Hd1).
    assert (Hle : (j1 ≤ j)%nat).
    { destruct (decide (j1 ≤ j)%nat) as [|Hgt]; [done|].
      specialize (Hlast j1 ltac:(lia)). unfold P in Hlast. rewrite Hx1 in Hlast.
      congruence. }
    pose proof (Hasc j1 j hd dj Hle Hd1 Hdj) as H1.
    pose proof (Hub dj Hdjsel) as H2.
    assert (hd = dj) as -> by lia.
    exists j, dj, di. split; [|split; [done|split; [done|split; [|done]]]].
    + split; [done|]. split; [exists x; split; [done|by apply feq_b_spec]|].
      intros k y Hk Hki Hy Hfeq. specialize (Hlast k ltac:(lia)).
      unfold P in Hlast. rewrite Hy in Hlast. apply feq_b_spec in Hfeq. congruence.
    + apply (Hasc j i); [lia|done..].
Qed.

Lemma days_since_high_cell_spec (dates : list Z) (high : list fval) (W : Z) (i : nat) :
  length high = length dates → ascending dates →
  (W - 1 ≤ Z.of_nat i)%Z → (i < length dates)%nat →
  days_since_spec max_over dates high W i
    (of_days (days_since_cell nanmax dates high W (Z.of_nat i))).
Proof.
  intros Hlen Hasc HW Hi. unfold days_since_spec.
  exists (nanmax (select_rows (window_mask (length dates)
                             (Z.max 0 (Z.of_nat i - W + 1)) (Z.of_nat i)) high)).
  split.
  - eapply extreme_of_max_over; [|apply nanmax_extreme].
    intros x. by apply window_cells.
  - destruct (days_since_cell_spec fle_b dates high W i Hlen Hasc HW Hi)
      as [[Hv Hc]|(Hv & j & dj & di & Hj & Hdj & Hdi & Hle & Hc)].
    + left. unfold nanmax. by rewrite Hc.
    + right. split; [exact Hv|].
      exists j, dj, di, (timedelta_days (di - dj)).
      split; [exact Hj|]. split; [done|]. split; [done|].
      split; [by apply days_between_timedelta|]. unfold nanmax. by rewrite Hc.
Qed.

Lemma days_since_low_cell_spec (dates : list Z) (low : list fval) (W : Z) (i : nat) :
  length low = length dates → ascending dates →
  (W - 1 ≤ Z.of_nat i)%Z → (i < length dates)%nat →
  days_since_spec min_over dates low W i
    (of_days (days_since_cell nanmin dates low W (Z.of_nat i))).
Proof.
  intros Hlen Hasc HW Hi. unfold days_since_spec.
  exists (nanmin (select_rows (window_mask (length dates)
                             (Z.max 0 (Z.of_nat i - W + 1)) (Z.of_nat i)) low)).
  split.
  - eapply extreme_of_min_over; [|apply nanmin_extreme].
    intros x. by apply window_cells.
  - destruct (days_since_cell_spec fge_b dates low W i Hlen Hasc HW Hi)
      as [[Hv Hc]|(Hv & j & dj & di & Hj & Hdj & Hdi & Hle & Hc)].
    + left. unfold nanmin. by rewrite Hc.
    + right. split; [exact Hv|].
      exists j, dj, di, (timedelta_days (di - dj)).
      split; [exact Hj|]. split; [done|]. split; [done|].
      split; [by apply days_between_timedelta|]. unfold nanmin. by rewrite Hc.
Qed.

(** C4.  Let [out] be the annotated table of any input, with [dates'],
    [high'] and [low'] its date, high and low columns.  For every
    [W >= 1] and every row [i >= W-1], the days-since-high cell of row [i]
    is the number of days between the date of row [i] and the date of the row
    of the window [i-W+1 .. i] closest to [i] whose high equals the window
    maximum (NaN when the window has no high at all); the days-since-low
    cell is the same with the window minimum of the lows. *)
Theorem days_since_counts_from_most_recent_extreme
    (data : DataFrame) (dates : list Z) (high low close : list fval) (W V : Z) :
  raw_frame data dates high low close → (1 ≤ W)%Z →
  ∃ out dates' high' low' close' dsh dsl,
    metrics_calculations.calculate_metrics data W V = Ok out ∧
    ohlc_frame out dates' high' low' close' ∧
    getitem out (Days_Since_High_Last W) = Ok (FloatS dsh) ∧
    getitem out (Days_Since_Low_Last W) = Ok (FloatS dsl) ∧
    ∀ i : nat, (i < len out)%nat → (W - 1 ≤ Z.of_nat i)%Z →
      ∃ ch cl,
        dsh !! i = Some ch ∧ dsl !! i = Some cl ∧
        days_since_spec max_over dates' high' W i ch ∧
        days_since_spec min_over dates' low' W i cl.
Proof.
  intros Hraw HW.
  destruct (calculate_metrics_columns _ _ _ _ _ W V Hraw HW)
    as (out & dates' & high' & low' & close' & Hout & Ho & Hlen & Hdl' & Hasc &
        _ & _ & Hdh & Hdl & _).
  eexists out, dates', high', low', close', _, _.
  split; [done|]. split; [done|].
  split; [by apply getitem_lookup|]. split; [by apply getitem_lookup|].
  intros i Hi HWi. rewrite Hlen, <- Hdl' in Hi.
  destruct Ho as [_ _ _ _ _ Hhl Hll _].
  eexists _, _. rewrite !lookup_days_since_column by done.
  destruct (Z.leb_spec (W - 1) (Z.of_nat i)); [|lia].
  split; [done|]. split; [done|].
  split; [by apply days_since_high_cell_spec|by apply days_since_low_cell_spec].
Qed.

Lemma days_since_witness :
  ∃ out dsh dsl,
    metrics_calculations.calculate_metrics demo_frame 3 2 = Ok out ∧
    getitem out (Days_Since_High_Last 3) = Ok (FloatS dsh) ∧
    getitem out (Days_Since_Low_Last 3) = Ok (FloatS dsl) ∧
    dsh !! 4%nat = Some (Num 1) ∧ dsl !! 4%nat = Some (Num 2).
Proof.
  destruct (days_since_counts_from_most_recent_extreme demo_frame
              [day 1; day 2; day 3; day 4; day 5]
              [price 10; price 12; price 9; price 15; price 11]
              [price 5; price 6; price 4; price 7; price 6]
              [price 6; price 7; price 8; price 8; price 7] 3 2)
    as (out & dates' & high' & low' & close' & dsh & dsl & Hout & _ & Hh & Hl & _);
    [by constructor|lia|].
  exists out, dsh, dsl. split; [exact Hout|]. split; [exact Hh|]. split; [exact Hl|].
  vm_compute in Hout. injection Hout as <-.
  vm_compute in Hh, Hl. injection Hh as <-. injection Hl as <-. split; reflexivity.
Defined.

(** * Further properties of the code *)

(** ** Parsing a response *)

Lemma utcfromtimestamp_in_range (ts : Z) :
  (min_timestamp ≤ ts ≤ max_timestamp)%Z → utcfromtimestamp ts = Ok (instant ts).
Proof.
  unfold utcfromtimestamp, min_timestamp, max_timestamp. intros H.
  repeat match goal with
         | |- context [(?a <? ?b)%Z] => destruct (Z.ltb_spec a b); [lia|]
         end.
  done.
Qed.

Lemma utcfromtimestamp_out_of_range (ts : Z) :
  ¬ (min_timestamp ≤ ts ≤ max_timestamp)%Z →
  ∃ e, utcfromtimestamp ts = Raise e ∧
       ((∃ msg, e = ValueError msg) ∨ (∃ msg, e = OSError msg) ∨
        (∃ msg, e = OverflowError msg)).
Proof.
  unfold utcfromtimestamp, min_timestamp, max_timestamp. intros H.
  repeat match goal with
         | |- context [(?a <? ?b)%Z] => destruct (Z.ltb_spec a b)
         end; simpl; eauto 10; lia.
Qed.

Lemma in_ns_range_datetime (ts : Z) :
  in_ns_range ts → (min_timestamp ≤ ts ≤ max_timestamp)%Z.
Proof. unfold in_ns_range, min_timestamp, max_timestamp. lia. Qed.

Lemma record_of_item_dated (item : Item) (ts : Z) :
  TIMESTAMP item = Some ts → (min_timestamp ≤ ts ≤ max_timestamp)%Z →
  record_of_item item = Ok (record_or_default item).
Proof.
  intros Hts Hr. unfold record_of_item, record_or_default.
  by rewrite Hts, (utcfromtimestamp_in_range _ Hr).
Qed.

Lemma parse_response_data_eval (data : list Item) :
  (∀ item, item ∈ data → dated item) →
  parse_response_data data = Ok (DataFrame_of_records (record_or_default <$> data)).
Proof.
  intros Hts. unfold parse_response_data.
  rewrite (mapM_Ok _ record_or_default); [done|].
  intros item Hin. destruct (Hts item Hin) as (ts & Hitem & Hr).
  by apply (record_of_item_dated _ ts), in_ns_range_datetime.
Qed.

(** The comprehension stops at the first item it cannot read. *)
Lemma mapM_first_Raise {A B} (f : A → result B) (e : exn) (pre post : list A) (x : A) :
  (∀ z, z ∈ pre → ∃ y, f z = Ok y) → f x = Raise e →
  mapM f (pre ++ x :: post) = Raise e.
Proof.
  intros Hpre Hx. induction pre as [|z pre IH]; simpl; [by rewrite Hx|].
  destruct (Hpre z ltac:(left)) as [y Hy]. rewrite Hy. simpl.
  rewrite IH; [done|]. intros w Hw. apply Hpre. by right.
Qed.

Lemma parse_response_data_raw (data : list Item) :
  data ≠ [] →
  let rs := record_or_default <$> data in
  raw_frame (DataFrame_of_records rs)
    ((λ r, r.1.1.1.1) <$> rs) ((λ r, r.1.1.2) <$> rs)
    ((λ r, r.1.2) <$> rs) ((λ r, r.2) <$> rs) ∧
  (columns (DataFrame_of_records rs)).*1 = base_names ∧
  index (DataFrame_of_records rs) = range (length data) ∧
  frame_wf (DataFrame_of_records rs).
Proof.
  intros Hne rs. unfold rs. destruct data as [|item data]; [done|].
  rewrite fmap_cons. unfold DataFrame_of_records.
  rewrite <- !fmap_cons.
  split; [constructor; cbn [columns index lookup_col String.eqb]; try done;
          unfold len; cbn [index]; by rewrite !length_fmap, length_range|].
  split; [done|]. split; [cbn [index]; by rewrite length_fmap|].
  unfold frame_wf, len. cbn [columns index]. rewrite length_range.
  repeat constructor; simpl; by rewrite !length_fmap.
Qed.

(** X1.  A non-empty response whose items all carry a timestamp that a
    [datetime64[ns]] column can hold, and in which each of the four prices
    is carried by at least one item, parses into a table with exactly the
    columns Date, Open, High, Low, Close, in this order, under the index
    [0 .. n-1]; row [i] holds the timestamp of item [i] (as a UTC instant)
    and its four prices, NaN where a price key is absent. *)
Theorem parse_response_data_builds_ohlc_table (data : list Item) :
  data ≠ [] →
  (∀ item, item ∈ data → dated item) →
  priced data →
  ∃ dates opens highs lows closes,
    parse_response_data data
    = Ok {| index := range (length data);
            columns := [ ("Date", DateS dates); ("Open", FloatS opens);
                         ("High", FloatS highs); ("Low", FloatS lows);
                         ("Close", FloatS closes) ] |} ∧
    ∀ (i : nat) (item : Item), data !! i = Some item →
      ∃ ts, TIMESTAMP item = Some ts ∧
            dates !! i = Some (ts * 1000000000)%Z ∧
            opens !! i = Some (of_price (OPEN item)) ∧
            highs !! i = Some (of_price (HIGH item)) ∧
            lows !! i = Some (of_price (LOW item)) ∧
            closes !! i = Some (of_price (CLOSE item)).
Proof.
  intros Hne Hts _. rewrite (parse_response_data_eval _ Hts).
  eexists _, _, _, _, _. split.
  - destruct data as [|item data]; [done|].
    rewrite fmap_cons. unfold DataFrame_of_records. rewrite <- !fmap_cons.
    by rewrite length_fmap.
  - intros i item Hi.
    destruct (Hts item ltac:(by eapply list_elem_of_lookup_2)) as (ts & Hitem & _).
    exists ts. rewrite !list_lookup_fmap, Hi. simpl.
    unfold instant, ns_per_second. by rewrite Hitem.
Qed.

Lemma demo_items_dated (item : Item) : item ∈ demo_items → dated item.
Proof.
  unfold demo_items. rewrite !elem_of_cons, elem_of_nil.
  intros [->|[->|[->|[]]]]; eexists; (split; [reflexivity|]);
    unfold in_ns_range; lia.
Qed.

Lemma demo_items_priced : priced demo_items.
Proof.
  repeat split; eexists; (split; [by left|]); by eexists.
Qed.

Lemma parse_response_data_witness :
  ∃ dates opens highs lows closes,
    parse_response_data demo_items
    = Ok {| index := range 3;
            columns := [ ("Date", DateS dates); ("Open", FloatS opens);
                         ("High", FloatS highs); ("Low", FloatS lows);
                         ("Close", FloatS closes) ] |} ∧
    dates = [day 1; day 2; day 3] ∧ highs = [Num 10; NaN; Num 9].
Proof.
  destruct (parse_response_data_builds_ohlc_table demo_items)
    as (dates & opens & highs & lows & closes & Hp & _).
  - discriminate.
  - exact demo_items_dated.
  - exact demo_items_priced.
  - exists dates, opens, highs, lows, closes. split; [exact Hp|].
    vm_compute in Hp. by injection Hp as <- _ <- _ _.
Defined.

(** X2.  The comprehension of [parse_response_data] stops at the first item
    it cannot read, and no partial table is returned.  When the items before
    it carry timestamps of the years 1 to 9999, an item without the
    TIMESTAMP key makes parsing raise [KeyError] for that key, and an item
    whose timestamp lies outside these years makes it raise the error of
    [datetime.utcfromtimestamp] ([ValueError], [OSError] or
    [OverflowError]), whatever the items after it hold. *)
Theorem parse_response_data_needs_timestamps (pre post : list Item) (item : Item) :
  (∀ x, x ∈ pre →
        ∃ ts, TIMESTAMP x = Some ts ∧ (min_timestamp ≤ ts ≤ max_timestamp)%Z) →
  (TIMESTAMP item = None →
   parse_response_data (pre ++ item :: post) = Raise (KeyError ["TIMESTAMP"])) ∧
  (∀ ts, TIMESTAMP item = Some ts → ¬ (min_timestamp ≤ ts ≤ max_timestamp)%Z →
         ∃ e, parse_response_data (pre ++ item :: post) = Raise e ∧
              ((∃ msg, e = ValueError msg) ∨ (∃ msg, e = OSError msg) ∨
               (∃ msg, e = OverflowError msg))).
Proof.
  intros Hpre.
  assert (Hok : ∀ z, z ∈ pre → ∃ y, record_of_item z = Ok y).
  { intros z Hz. destruct (Hpre z Hz) as (ts & Hts & Hr).
    eexists. by apply (record_of_item_dated _ ts). }
  split.
  - intros Hts. unfold parse_response_data.
    rewrite (mapM_first_Raise _ (KeyError ["TIMESTAMP"])); [done|done|].
    unfold record_of_item. by rewrite Hts.
  - intros ts Hts Hout.
    destruct (utcfromtimestamp_out_of_range ts Hout) as (e & He & Hkind).
    exists e. split; [|done]. unfold parse_response_data.
    rewrite (mapM_first_Raise _ e); [done|done|].
    unfold record_of_item. by rewrite Hts, He.
Qed.

Lemma parse_response_data_needs_timestamps_witness :
  parse_response_data
    (demo_items ++ {| TIMESTAMP := None; OPEN := Some 1%Q; HIGH := Some 1%Q;
                      LOW := Some 1%Q; CLOSE := Some 1%Q |}
                :: [ {| TIMESTAMP := Some 253402300800%Z; OPEN := None; HIGH := None;
                        LOW := None; CLOSE := None |} ])
  = Raise (KeyError ["TIMESTAMP"]) ∧
  ∃ msg,
    parse_response_data
      (demo_items ++ {| TIMESTAMP := Some 253402300800%Z; OPEN := None; HIGH := None;
                        LOW := None; CLOSE := None |}
                  :: [ {| TIMESTAMP := None; OPEN := Some 1%Q; HIGH := Some 1%Q;
                          LOW := Some 1%Q; CLOSE := Some 1%Q |} ])
    = Raise (ValueError msg).
Proof.
  assert (Hpre : ∀ x, x ∈ demo_items →
            ∃ ts, TIMESTAMP x = Some ts ∧ (min_timestamp ≤ ts ≤ max_timestamp)%Z).
  { intros x Hx. destruct (demo_items_dated x Hx) as (ts & Hts & Hr).
    exists ts. split; [done|]. by apply in_ns_range_datetime. }
  split.
  - by apply (parse_response_data_needs_timestamps demo_items).
  - destruct (parse_response_data_needs_timestamps demo_items
                [ {| TIMESTAMP := None; OPEN := Some 1%Q; HIGH := Some 1%Q;
                     LOW := Some 1%Q; CLOSE := Some 1%Q |} ]
                {| TIMESTAMP := Some 253402300800%Z; OPEN := None; HIGH := None;
                   LOW := None; CLOSE := None |} Hpre) as [_ Hbad].
    destruct (Hbad 253402300800%Z eq_refl) as (e & He & _);
      [unfold min_timestamp, max_timestamp; lia|].
    rewrite He. vm_compute in He. injection He as <-. by eexists.
Defined.

(** ** Filtering by the start date *)

Lemma select_rows_fmap_self {A} (f : A → bool) (l : list A) :
  select_rows (f <$> l) l = List.filter f l.
Proof.
  induction l as [|x l IH]; [done|]. cbn. destruct (f x); [f_equal|]; exact IH.
Qed.

Lemma length_select_rows {A B} (m : list bool) (l1 : list A) (l2 : list B) :
  length l1 = length l2 → length (select_rows m l1) = length (select_rows m l2).
Proof.
  revert l1 l2. induction m as [|b m IH]; intros [|x l1] [|y l2] Hl; simpl in *;
    try done.
  destruct b; simpl; [f_equal|]; apply IH; lia.
Qed.

Lemma select_rows_all {A} (m : list bool) (l : list A) :
  (∀ b, b ∈ m → b = true) → (length l ≤ length m)%nat → select_rows m l = l.
Proof.
  revert l. induction m as [|b m IH]; intros [|x l] Hall Hl; simpl in *;
    try done; try lia.
  rewrite (Hall b) by left. f_equal. apply IH; [|lia].
  intros c Hc. apply Hall. by right.
Qed.

Lemma filter_data_by_date_eval (data : DataFrame) (dates : list Z) (start : Z) :
  lookup_col "Date" (columns data) = Some (DateS dates) →
  filter_data_by_date data start
  = Ok (frame_select ((λ t, (start <=? t)%Z) <$> dates) data).
Proof.
  intros Hd. unfold filter_data_by_date. by rewrite (getitem_lookup _ _ _ Hd).
Qed.

Lemma elem_of_filter_dates (start d : Z) (dates : list Z) :
  d ∈ List.filter (λ t, (start <=? t)%Z) dates ↔ d ∈ dates ∧ (start ≤ d)%Z.
Proof.
  rewrite !list_elem_of_In, filter_In, Z.leb_le. done.
Qed.

(** X4.  Filtering by a start date keeps exactly the rows whose date is not
    before the start, in their original order and with their original index
    labels; every column is cut by the same row mask, so the rows stay
    aligned, and no kept date lies before the start. *)
Theorem filter_data_by_date_keeps_rows_from_start
    (data : DataFrame) (dates : list Z) (start : Z) :
  getitem data "Date" = Ok (DateS dates) → length dates = len data →
  let mask := (λ t, (start <=? t)%Z) <$> dates in
  ∃ out,
    filter_data_by_date data start = Ok out ∧
    getitem out "Date" = Ok (DateS (List.filter (λ t, (start <=? t)%Z) dates)) ∧
    (∀ d, d ∈ List.filter (λ t, (start <=? t)%Z) dates ↔ d ∈ dates ∧ (start ≤ d)%Z) ∧
    index out = select_rows mask (index data) ∧
    len out = length (List.filter (λ t, (start <=? t)%Z) dates) ∧
    (len out ≤ len data)%nat ∧
    (∀ n, lookup_col n (columns out) = series_select mask <$> lookup_col n (columns data)).
Proof.
  intros Hget Hlen mask. subst mask.
  assert (Hd : lookup_col "Date" (columns data) = Some (DateS dates)).
  { unfold getitem in Hget. destruct (lookup_col "Date" (columns data)); congruence. }
  eexists. split; [by apply filter_data_by_date_eval|].
  assert (Hl : len (frame_select ((λ t, (start <=? t)%Z) <$> dates) data)
               = length (List.filter (λ t, (start <=? t)%Z) dates)).
  { unfold len, frame_select. cbn [index]. rewrite <- select_rows_fmap_self.
    apply length_select_rows. unfold len in Hlen. lia. }
  split; [apply getitem_lookup; cbn [frame_select columns];
          rewrite lookup_col_select, Hd; simpl; by rewrite select_rows_fmap_self|].
  split; [intros d; apply elem_of_filter_dates|]. split; [done|]. split; [done|].
  split; [|intros n; apply lookup_col_select].
  rewrite Hl, <- Hlen.
  pose proof (filter_length (λ t, (start <=? t)%Z) dates) as Hf.
  rewrite <- Hf. apply Nat.le_add_r.
Qed.

Lemma filter_data_by_date_witness :
  ∃ out,
    filter_data_by_date demo_frame (day 3) = Ok out ∧
    getitem out "Date" = Ok (DateS [day 3; day 4; day 5]) ∧
    index out = [2; 3; 4]%Z.
Proof.
  destruct (filter_data_by_date_keeps_rows_from_start demo_frame
              [day 1; day 2; day 3; day 4; day 5] (day 3))
    as (out & Hout & Hd & _ & Hidx & _); [reflexivity|reflexivity|].
  exists out. split; [exact Hout|]. split; [exact Hd|exact Hidx].
Defined.

(** X3.  A table without a [Date] column is rejected with [KeyError] for
    that column by the date filter, by the normalizer and by
    [calculate_metrics] alike; the table an empty response parses to is such
    a table. *)
Theorem table_without_dates_is_rejected (data : DataFrame) (start W V : Z) :
  lookup_col "Date" (columns data) = None →
  filter_data_by_date data start = Raise (KeyError ["Date"]) ∧
  metrics_calculations.normalize data = Raise (KeyError ["Date"]) ∧
  metrics_calculations.calculate_metrics data W V = Raise (KeyError ["Date"]).
Proof.
  intros Hd.
  assert (Hget : getitem data "Date" = Raise (KeyError ["Date"]))
    by (unfold getitem; by rewrite Hd).
  assert (Hn : metrics_calculations.normalize data = Raise (KeyError ["Date"]))
    by (unfold metrics_calculations.normalize; by rewrite Hget).
  split; [unfold filter_data_by_date; by rewrite Hget|]. split; [done|].
  unfold metrics_calculations.calculate_metrics. by rewrite Hn.
Qed.

Lemma table_without_dates_witness :
  parse_response_data [] = Ok no_columns_frame ∧
  filter_data_by_date no_columns_frame (day 1) = Raise (KeyError ["Date"]) ∧
  metrics_calculations.calculate_metrics no_columns_frame 3 2 = Raise (KeyError ["Date"]).
Proof.
  split; [reflexivity|].
  destruct (table_without_dates_is_rejected no_columns_frame (day 1) 3 2)
    as (Hf & _ & Hc); [reflexivity|].
  split; [exact Hf|exact Hc].
Defined.

Lemma frame_wf_lookup (data : DataFrame) (n : string) (s : Series) :
  frame_wf data → lookup_col n (columns data) = Some s → series_len s = len data.
Proof.
  unfold frame_wf. induction (columns data) as [|[k c] cols IH]; simpl; [done|].
  intros Hwf. apply Forall_cons in Hwf as [Hc Hwf]. simpl in Hc.
  destruct (String.eqb k n); [by intros [= <-]|by apply IH].
Qed.

Lemma series_len_select (m : list bool) (s : Series) (idx : list Z) :
  series_len s = length idx →
  series_len (series_select m s) = length (select_rows m idx).
Proof. destruct s; simpl; apply length_select_rows. Qed.

Lemma frame_select_wf (m : list bool) (data : DataFrame) :
  frame_wf data → frame_wf (frame_select m data).
Proof.
  unfold frame_wf, frame_select, len. cbn [index columns]. intros Hwf.
  apply Forall_fmap. eapply Forall_impl; [exact Hwf|].
  intros [n s] Hs. simpl in *. by apply series_len_select.
Qed.

Lemma frame_select_all (m : list bool) (data : DataFrame) :
  frame_wf data → (∀ b, b ∈ m → b = true) → (len data ≤ length m)%nat →
  frame_select m data = data.
Proof.
  intros Hwf Hall Hlen. destruct data as [idx cols].
  unfold frame_select, frame_wf, len in *. cbn [index columns] in *.
  f_equal; [by apply select_rows_all|].
  induction cols as [|[n s] cols IH]; [done|].
  apply Forall_cons in Hwf as [Hs Hwf]. simpl in Hs.
  rewrite fmap_cons, IH by done. f_equal. unfold prod_map. simpl. f_equal.
  destruct s; simpl in *; f_equal; apply select_rows_all; (done || lia).
Qed.

(** X5.  Filtering is idempotent: filtering the filtered table by the same
    start date changes nothing; and a table whose dates all lie on or after
    the start date is returned unchanged. *)
Theorem filter_data_by_date_is_idempotent
    (data : DataFrame) (dates : list Z) (start : Z) :
  getitem data "Date" = Ok (DateS dates) → frame_wf data →
  ∃ out,
    filter_data_by_date data start = Ok out ∧
    filter_data_by_date out start = Ok out ∧
    frame_wf out ∧
    ((∀ d, d ∈ dates → (start ≤ d)%Z) → out = data).
Proof.
  intros Hget Hwf.
  assert (Hd : lookup_col "Date" (columns data) = Some (DateS dates)).
  { unfold getitem in Hget. destruct (lookup_col "Date" (columns data)); congruence. }
  pose proof (frame_wf_lookup _ _ _ Hwf Hd) as Hlen. simpl in Hlen.
  set (f := λ t, (start <=? t)%Z).
  exists (frame_select (f <$> dates) data).
  split; [by apply filter_data_by_date_eval|].
  pose proof (frame_select_wf (f <$> dates) data Hwf) as Hwf'.
  assert (Hd' : lookup_col "Date" (columns (frame_select (f <$> dates) data))
                = Some (DateS (List.filter f dates))).
  { cbn [frame_select columns]. rewrite lookup_col_select, Hd. simpl.
    by rewrite select_rows_fmap_self. }
  split; [|split; [done|]].
  - rewrite (filter_data_by_date_eval _ _ _ Hd'). f_equal.
    apply frame_select_all; [done|..].
    + intros b Hb. apply list_elem_of_fmap in Hb as (d & -> & Hin).
      apply list_elem_of_In, filter_In in Hin. tauto.
    + rewrite length_fmap.
      pose proof (frame_wf_lookup _ _ _ Hwf' Hd') as Hl. simpl in Hl. lia.
  - intros Hall. apply frame_select_all; [done|..].
    + intros b Hb. apply list_elem_of_fmap in Hb as (d & -> & Hin).
      apply Z.leb_le. by apply Hall.
    + rewrite length_fmap. lia.
Qed.

Lemma filter_data_by_date_idempotent_witness :
  ∃ out,
    filter_data_by_date demo_frame (day 3) = Ok out ∧
    filter_data_by_date out (day 3) = Ok out ∧ len out = 3%nat.
Proof.
  destruct (filter_data_by_date_is_idempotent demo_frame
              [day 1; day 2; day 3; day 4; day 5] (day 3))
    as (out & H1 & H2 & _); [reflexivity|by repeat constructor|].
  exists out. split; [exact H1|]. split; [exact H2|].
  vm_compute in H1. by injection H1 as <-.
Defined.

(** ** From the response to the feature matrix *)

Lemma frame_select_raw (m : list bool) (data : DataFrame) (dates : list Z)
    (high low close : list fval) :
  raw_frame data dates high low close →
  raw_frame (frame_select m data) (select_rows m dates) (select_rows m high)
            (select_rows m low) (select_rows m close).
Proof.
  intros [Hd Hh Hl Hc Hdl Hhl Hll Hcl]. unfold len in *.
  constructor; cbn [frame_select columns index];
    rewrite ?lookup_col_select, ?Hd, ?Hh, ?Hl, ?Hc; try done;
    unfold len; cbn [index]; by apply length_select_rows.
Qed.

Lemma frame_select_only_base (m : list bool) (data : DataFrame) :
  only_base_columns data → only_base_columns (frame_select m data).
Proof.
  intros Hb n Hn. apply Hb. unfold has_col in *.
  cbn [frame_select columns] in Hn. rewrite lookup_col_select in Hn.
  by destruct (lookup_col n (columns data)).
Qed.

Lemma train_model_after_metrics
    (data : DataFrame) (dates : list Z) (high low close : list fval) (W V : Z) :
  raw_frame data dates high low close → (1 ≤ W)%Z →
  ∃ out X y,
    metrics_calculations.calculate_metrics data W V = Ok out ∧
    ml_model.train_model_X_y out W V = Ok (X, y) ∧
    (columns X).*1 = ml_model.feature_columns W ∧
    (columns y).*1 = ml_model.target_columns V ∧
    index X = index out ∧ index y = index out ∧
    index out = range (len data) ∧
    lookup_col "Date" (columns out) = Some (DateS (take_rows (argsort dates) dates)).
Proof.
  intros Hraw HW.
  pose proof (calculate_metrics_eval _ _ _ _ _ W V Hraw HW) as Hout. cbv zeta in Hout.
  destruct (calculate_metrics_columns _ _ _ _ _ W V Hraw HW)
    as (out & dates' & high' & low' & close' & Hout' & _ & _ & _ & _ &
        _ & _ & Hdh & Hdl & _ & _ & Hphl & Hpll & Hphn & Hpln).
  assert (Hfeat : ∀ n, n ∈ ml_model.feature_columns W → has_col (columns out) n = true).
  { intros n. unfold ml_model.feature_columns. rewrite !elem_of_cons, elem_of_nil.
    intros [->|[->|[->|[->|[]]]]]; by eapply has_col_lookup. }
  assert (Htarg : ∀ n, n ∈ ml_model.target_columns V → has_col (columns out) n = true).
  { intros n. unfold ml_model.target_columns. rewrite !elem_of_cons, elem_of_nil.
    intros [->|[->|[]]]; by eapply has_col_lookup. }
  destruct (getitems_all_present out _ Hfeat) as (X & HX & HiX & HcX & _).
  destruct (getitems_all_present out _ Htarg) as (y & Hy & Hiy & Hcy & _).
  exists out, X, y. split; [done|].
  split; [unfold ml_model.train_model_X_y; by rewrite HX, bind_Ok, Hy|].
  split; [done|]. split; [done|]. split; [done|]. split; [done|].
  rewrite Hout in Hout'. injection Hout' as <-. cbn [index columns].
  split; [done|]. unfold future_columns, historical_columns. col_lookup.
  rewrite lookup_col_take. destruct Hraw as [-> _ _ _ _ _ _ _]. done.
Qed.

(** X6.  The data path of [main.py] composes without error: for a non-empty
    response whose items all carry a timestamp that a [datetime64[ns]]
    column can hold and in which each of the four prices is carried by at
    least one item, any start date and any window lengths [W >= 1] and [V],
    parsing, filtering by the start date, annotating and selecting the
    feature and target columns all succeed.  The annotated table has one row
    per item dated on or after the start (possibly none), renumbered from
    zero and in ascending date order. *)
Theorem response_flows_through_the_pipeline (items : list Item) (start W V : Z) :
  items ≠ [] →
  (∀ item, item ∈ items → dated item) →
  priced items →
  (1 ≤ W)%Z →
  let kept_dates :=
    List.filter (λ t, (start <=? t)%Z)
      ((λ item, (default 0 (TIMESTAMP item) * 1000000000)%Z) <$> items) in
  ∃ raw kept out X y dates',
    parse_response_data items = Ok raw ∧
    filter_data_by_date raw start = Ok kept ∧
    metrics_calculations.calculate_metrics kept W V = Ok out ∧
    ml_model.train_model_X_y out W V = Ok (X, y) ∧
    index out = range (length kept_dates) ∧
    index X = index out ∧ index y = index out ∧
    getitem out "Date" = Ok (DateS dates') ∧
    Permutation dates' kept_dates ∧ ascending dates' ∧
    (∀ d, d ∈ dates' → (start ≤ d)%Z).
Proof.
  intros Hne Hts _ HW kept_dates.
  pose proof (parse_response_data_eval _ Hts) as Hparse.
  destruct (parse_response_data_raw items Hne) as (Hraw & Hnames & _ & _).
  cbv zeta in Hraw.
  set (raw := DataFrame_of_records (record_or_default <$> items)) in *.
  set (dates := (λ r, r.1.1.1.1) <$> (record_or_default <$> items)) in *.
  assert (Hdates : dates = (λ item, (default 0 (TIMESTAMP item) * 1000000000)%Z)
                           <$> items).
  { unfold dates. by rewrite <- list_fmap_compose. }
  set (m := (λ t, (start <=? t)%Z) <$> dates).
  pose proof (frame_select_raw m _ _ _ _ _ Hraw) as Hkept.
  destruct (train_model_after_metrics _ _ _ _ _ W V Hkept HW)
    as (out & X & y & Hout & Htrain & _ & _ & HiX & Hiy & Hidx & Hd).
  assert (Hsel : select_rows m dates = kept_dates).
  { unfold m, kept_dates. by rewrite select_rows_fmap_self, Hdates. }
  exists raw, (frame_select m raw), out, X, y, (take_rows (argsort (select_rows m dates))
                                                  (select_rows m dates)).
  split; [done|].
  split; [apply filter_data_by_date_eval; by destruct Hraw|].
  split; [done|]. split; [done|].
  split; [rewrite Hidx; destruct Hkept as [_ _ _ _ <- _ _ _]; by rewrite Hsel|].
  split; [done|]. split; [done|]. split; [by apply getitem_lookup|].
  assert (Hperm : Permutation (take_rows (argsort (select_rows m dates))
                                 (select_rows m dates)) kept_dates).
  { rewrite <- Hsel. apply take_rows_Permutation, argsort_Permutation. }
  split; [done|]. split; [apply argsort_ascending|].
  intros d Hin. rewrite Hperm in Hin. unfold kept_dates in Hin.
  apply list_elem_of_In, filter_In in Hin as [_ Hle]. by apply Z.leb_le.
Qed.

Lemma response_pipeline_witness :
  ∃ out X y,
    (raw ← parse_response_data demo_items;
     kept ← filter_data_by_date raw (day 2);
     metrics_calculations.calculate_metrics kept 2 2) = Ok out ∧
    ml_model.train_model_X_y out 2 2 = Ok (X, y) ∧
    index out = [0; 1]%Z.
Proof.
  destruct (response_flows_through_the_pipeline demo_items (day 2) 2 2)
    as (raw & kept & out & X & y & dates' & Hp & Hf & Hc & Ht & Hidx & _).
  - discriminate.
  - exact demo_items_dated.
  - exact demo_items_priced.
  - lia.
  - exists out, X, y. rewrite Hp, bind_Ok, Hf, bind_Ok.
    split; [exact Hc|]. split; [exact Ht|exact Hidx].
Defined.

(** ** Rejected arguments and missing columns *)

Lemma rolling_rejects (agg : list fval → fval) (W : Z) (xs : list fval) :
  (W < 1)%Z → ∃ msg, rolling agg W 1 xs = Raise (ValueError msg).
Proof.
  intros HW. unfold rolling. destruct (Z.ltb_spec W 0); [by eexists|].
  destruct (Z.ltb_spec W 1); [by eexists|lia].
Qed.

(** X7.  A window length [W < 1] is rejected: on every table that has the
    columns the metrics read, including an empty one, the trailing-high
    computation, the historical stage and [calculate_metrics] all raise
    [ValueError], whatever the forward window [V]. *)
Theorem window_below_one_is_rejected
    (data : DataFrame) (dates : list Z) (high low close : list fval) (W V : Z) :
  raw_frame data dates high low close → (W < 1)%Z →
  ∃ msg,
    utils.calculate_historical_high data W = Raise (ValueError msg) ∧
    metrics_calculations.add_historical_metrics data W = Raise (ValueError msg) ∧
    metrics_calculations.calculate_metrics data W V = Raise (ValueError msg).
Proof.
  intros Hraw HW.
  assert (Hstage : ∀ (d : DataFrame) (h : list fval),
            lookup_col "High" (columns d) = Some (FloatS h) →
            ∃ msg, utils.calculate_historical_high d W = Raise (ValueError msg) ∧
                   metrics_calculations.add_historical_metrics d W
                   = Raise (ValueError msg) ∧ rolling nanmax W 1 h = Raise (ValueError msg)).
  { intros d h Hh. destruct (rolling_rejects nanmax W h HW) as [msg Hmsg].
    assert (Hc : utils.calculate_historical_high d W = Raise (ValueError msg)).
    { unfold utils.calculate_historical_high. rewrite (getitem_lookup _ _ _ Hh).
      simpl. by rewrite Hmsg. }
    exists msg. split; [done|]. split; [|done].
    unfold metrics_calculations.add_historical_metrics. by rewrite Hc. }
  pose proof (normalize_eval _ _ _ _ _ Hraw) as Hn.
  pose proof (normalize_ohlc _ _ _ _ _ Hraw) as Ho. cbv zeta in Ho.
  destruct (Hstage data high ltac:(by destruct Hraw)) as (msg & H1 & H2 & Hr).
  destruct (Hstage _ _ (ohlc_High _ _ _ _ _ Ho)) as (msg' & _ & H3 & Hr').
  assert (msg' = msg) as ->.
  { unfold rolling in Hr, Hr'.
    destruct (W <? 0)%Z; [congruence|]. destruct (W <? 1)%Z; congruence. }
  exists msg. split; [done|]. split; [done|].
  unfold metrics_calculations.calculate_metrics. by rewrite Hn, bind_Ok, H3.
Qed.

Lemma window_below_one_witness :
  ∃ msg, metrics_calculations.calculate_metrics empty_frame 0 2 = Raise (ValueError msg).
Proof.
  destruct (window_below_one_is_rejected empty_frame [] [] [] [] 0 2)
    as (msg & _ & _ & H); [by constructor|lia|].
  by exists msg.
Defined.

Lemma range_S (n : nat) : range (S n) = 0%Z :: seqZ 1 (Z.of_nat n).
Proof.
  unfold range. rewrite seqZ_cons by lia. f_equal. f_equal. lia.
Qed.

Lemma future_extreme_missing (agg : list fval → fval) (col : string)
    (data : DataFrame) (V : Z) :
  lookup_col col (columns data) = None →
  mapM (λ i,
    if (i <? Z.of_nat (len data) - 1)%Z
    then h ← getitem data col ≫= as_float;
         Ok (agg (iloc_slice (i + 1) (Z.min (Z.of_nat (len data)) (i + V)) h))
    else h ← getitem data col ≫= as_float; iloc_at i h) (range (len data))
  = if decide (len data = 0%nat) then Ok [] else Raise (KeyError [col]).
Proof.
  intros Hcol. destruct (len data) as [|n] eqn:E; [done|].
  rewrite range_S. simpl mapM. unfold getitem. rewrite Hcol. simpl.
  by destruct (0 <? Z.of_nat (S n) - 1)%Z.
Qed.

(** X8.  On a table without a [High] column the trailing-high computation
    and the historical stage raise [KeyError] for that column.  The
    forward-high computation raises the same error only when the table has
    rows: on a table without rows it returns an empty column, whether or not
    the [High] column exists.  The same holds for [Low]. *)
Theorem missing_price_column_errors (data : DataFrame) (W V : Z) :
  (lookup_col "High" (columns data) = None →
     utils.calculate_historical_high data W = Raise (KeyError ["High"]) ∧
     metrics_calculations.add_historical_metrics data W = Raise (KeyError ["High"]) ∧
     (len data ≠ 0%nat → utils.calculate_future_high data V = Raise (KeyError ["High"])) ∧
     (len data = 0%nat → utils.calculate_future_high data V = Ok (FloatS []))) ∧
  (lookup_col "Low" (columns data) = None →
     utils.calculate_historical_low data W = Raise (KeyError ["Low"]) ∧
     (len data ≠ 0%nat → utils.calculate_future_low data V = Raise (KeyError ["Low"])) ∧
     (len data = 0%nat → utils.calculate_future_low data V = Ok (FloatS []))).
Proof.
  split; intros Hcol.
  - assert (Hc : utils.calculate_historical_high data W = Raise (KeyError ["High"])).
    { unfold utils.calculate_historical_high, getitem. by rewrite Hcol. }
    split; [done|].
    split; [unfold metrics_calculations.add_historical_metrics; by rewrite Hc|].
    unfold utils.calculate_future_high.
    rewrite (future_extreme_missing nanmax "High" data V Hcol).
    split; intros Hlen; by destruct (decide (len data = 0%nat)).
  - split; [unfold utils.calculate_historical_low, getitem; by rewrite Hcol|].
    unfold utils.calculate_future_low.
    rewrite (future_extreme_missing nanmin "Low" data V Hcol).
    split; intros Hlen; by destruct (decide (len data = 0%nat)).
Qed.

Lemma missing_price_column_witness :
  utils.calculate_future_high priceless_frame 2 = Raise (KeyError ["High"]) ∧
  utils.calculate_future_high no_columns_frame 2 = Ok (FloatS []).
Proof.
  split.
  - apply (missing_price_column_errors priceless_frame 3 2); [reflexivity|discriminate].
  - by apply (missing_price_column_errors no_columns_frame 3 2).
Defined.

(** ** Laws of the windows *)

Lemma iloc_slice_ext {A} (a b : Z) (l1 l2 : list A) :
  (0 ≤ a)%Z → (0 ≤ b)%Z →
  (b ≤ Z.of_nat (length l1))%Z → (b ≤ Z.of_nat (length l2))%Z →
  (∀ j : nat, (a ≤ Z.of_nat j < b)%Z → l1 !! j = l2 !! j) →
  iloc_slice a b l1 = iloc_slice a b l2.
Proof.
  intros Ha Hb Hb1 Hb2 Hext. unfold iloc_slice, py_index.
  destruct (Z.ltb_spec a 0); [lia|]. destruct (Z.ltb_spec b 0); [lia|].
  replace (Z.min b (Z.of_nat (length l1))) with b by lia.
  replace (Z.min b (Z.of_nat (length l2))) with b by lia.
  destruct (decide (a < b)%Z) as [Hab|Hab].
  - replace (Z.min a (Z.of_nat (length l1))) with a by lia.
    replace (Z.min a (Z.of_nat (length l2))) with a by lia.
    apply list_eq. intros k.
    destruct (decide (k < Z.to_nat (b - a))%nat) as [Hk|Hk].
    + rewrite !lookup_take_lt, !lookup_drop by done. apply Hext. lia.
    + by rewrite !lookup_take_ge by lia.
  - replace (Z.to_nat (b - Z.min a (Z.of_nat (length l1)))) with 0%nat by lia.
    replace (Z.to_nat (b - Z.min a (Z.of_nat (length l2)))) with 0%nat by lia.
    done.
Qed.

Lemma lookup_trailing (agg : list fval → fval) (W : Z) (xs : list fval) (i : nat) :
  (i < length xs)%nat →
  trailing agg W xs !! i
  = Some (agg (iloc_slice (Z.max 0 (Z.of_nat i - W + 1)) (Z.of_nat i + 1)
                 (prep_values xs))).
Proof. intros Hi. unfold trailing. by rewrite list_lookup_fmap, lookup_range. Qed.

Lemma trailing_local (agg : list fval → fval) (W : Z) (xs ys : list fval) (i : nat) :
  (i < length xs)%nat → (i < length ys)%nat →
  (∀ j : nat, (Z.max 0 (Z.of_nat i - W + 1) ≤ Z.of_nat j ≤ Z.of_nat i)%Z →
              xs !! j = ys !! j) →
  trailing agg W xs !! i = trailing agg W ys !! i.
Proof.
  intros Hx Hy Hext. rewrite !lookup_trailing by done. do 2 f_equal.
  apply iloc_slice_ext; rewrite ?length_prep_values; try lia.
  intros j Hj. rewrite !lookup_prep_values. f_equal. apply Hext. lia.
Qed.

(** X9.  No look-ahead in the trailing extremes: the trailing high and the
    trailing low of row [i] are determined by the highs and lows of the rows
    [max(0, i-W+1) .. i] alone.  Two tables that agree on these rows give the
    same cells at row [i], however they differ elsewhere (in later rows, in
    earlier rows, or in length). *)
Theorem trailing_extremes_depend_on_the_window_only
    (d1 d2 : DataFrame) (h1 h2 l1 l2 : list fval) (W : Z) (i : nat) :
  getitem d1 "High" = Ok (FloatS h1) → getitem d2 "High" = Ok (FloatS h2) →
  getitem d1 "Low" = Ok (FloatS l1) → getitem d2 "Low" = Ok (FloatS l2) →
  (1 ≤ W)%Z →
  (i < length h1)%nat → (i < length h2)%nat → (i < length l1)%nat → (i < length l2)%nat →
  (∀ j : nat, (Z.max 0 (Z.of_nat i - W + 1) ≤ Z.of_nat j ≤ Z.of_nat i)%Z →
              h1 !! j = h2 !! j ∧ l1 !! j = l2 !! j) →
  ∃ th1 th2 tl1 tl2,
    utils.calculate_historical_high d1 W = Ok (FloatS th1) ∧
    utils.calculate_historical_high d2 W = Ok (FloatS th2) ∧
    utils.calculate_historical_low d1 W = Ok (FloatS tl1) ∧
    utils.calculate_historical_low d2 W = Ok (FloatS tl2) ∧
    th1 !! i = th2 !! i ∧ tl1 !! i = tl2 !! i.
Proof.
  intros Hh1 Hh2 Hl1 Hl2 HW ? ? ? ? Hext.
  assert (Hlk : ∀ d n s, getitem d n = Ok s → lookup_col n (columns d) = Some s).
  { intros d n s. unfold getitem. destruct (lookup_col n (columns d)); congruence. }
  eexists _, _, _, _.
  split; [apply calculate_historical_high_eval; [by apply Hlk|done]|].
  split; [apply calculate_historical_high_eval; [by apply Hlk|done]|].
  split; [apply calculate_historical_low_eval; [by apply Hlk|done]|].
  split; [apply calculate_historical_low_eval; [by apply Hlk|done]|].
  split; apply trailing_local; try done; intros j Hj; by apply Hext.
Qed.

Lemma trailing_locality_witness :
  ∃ th1 th2,
    utils.calculate_historical_high demo_frame 2 = Ok (FloatS th1) ∧
    utils.calculate_historical_high twin_frame 2 = Ok (FloatS th2) ∧
    th1 !! 1%nat = th2 !! 1%nat.
Proof.
  destruct (trailing_extremes_depend_on_the_window_only demo_frame twin_frame
              [price 10; price 12; price 9; price 15; price 11] [price 10; price 12]
              [price 5; price 6; price 4; price 7; price 6] [price 5; price 6] 2 1)
    as (th1 & th2 & _ & _ & H1 & H2 & _ & _ & Heq & _);
    try reflexivity; try lia; try (simpl; lia).
  - intros [|[|j]] Hj; simpl; (done || lia).
  - by exists th1, th2.
Defined.

(** X10.  Widening the trailing window never lowers the trailing high and
    never raises the trailing low: for [1 <= W <= W'], wherever the cell for
    [W] holds a value the cell for [W'] holds one that is at least (for the
    low: at most) as large; and a row's own high (low), when it is a finite
    number, never exceeds its trailing high (never falls below its trailing
    low).  An infinite high is not counted: the rolling window drops it. *)
Theorem trailing_extremes_are_monotone_in_the_window
    (data : DataFrame) (high low : list fval) (W W' : Z) (i : nat) (x y : fval) :
  getitem data "High" = Ok (FloatS high) → getitem data "Low" = Ok (FloatS low) →
  (1 ≤ W)%Z → (W ≤ W')%Z → high !! i = Some x → low !! i = Some y →
  ∃ th th' tl tl' vh vh' vl vl',
    utils.calculate_historical_high data W = Ok (FloatS th) ∧
    utils.calculate_historical_high data W' = Ok (FloatS th') ∧
    utils.calculate_historical_low data W = Ok (FloatS tl) ∧
    utils.calculate_historical_low data W' = Ok (FloatS tl') ∧
    th !! i = Some vh ∧ th' !! i = Some vh' ∧ tl !! i = Some vl ∧ tl' !! i = Some vl' ∧
    (is_finite x = true → fle x vh) ∧ (vh ≠ NaN → fle vh vh') ∧
    (is_finite y = true → fle vl y) ∧ (vl ≠ NaN → fle vl' vl).
Proof.
  intros Hh Hl HW HWW Hx Hy.
  destruct (trailing_high_rows data high W Hh HW) as (th & Hth & _ & Hrh).
  destruct (trailing_high_rows data high W' Hh ltac:(lia)) as (th' & Hth' & _ & Hrh').
  destruct (trailing_low_rows data low W Hl HW) as (tl & Htl & _ & Hrl).
  destruct (trailing_low_rows data low W' Hl ltac:(lia)) as (tl' & Htl' & _ & Hrl').
  apply lookup_lt_Some in Hx as Hi. apply lookup_lt_Some in Hy as Hi'.
  destruct (Hrh i Hi) as (vh & Hvh & Hmax). destruct (Hrh' i Hi) as (vh' & Hvh' & Hmax').
  destruct (Hrl i Hi') as (vl & Hvl & Hmin). destruct (Hrl' i Hi') as (vl' & Hvl' & Hmin').
  exists th, th', tl, tl', vh, vh', vl, vl'. repeat (split; [done|]).
  assert (Hwider : ∀ xs z, cell_in xs (Z.max 0 (Z.of_nat i - W + 1)) (Z.of_nat i) z →
                           cell_in xs (Z.max 0 (Z.of_nat i - W' + 1)) (Z.of_nat i) z).
  { intros xs z (j & Hj & Hz). exists j. split; [lia|done]. }
  assert (Hown : ∀ xs z, xs !! i = Some z →
                         cell_in xs (Z.max 0 (Z.of_nat i - W + 1)) (Z.of_nat i) z).
  { intros xs z Hz. exists i. split; [lia|done]. }
  split; [|split; [|split]].
  - intros Hn. destruct Hmax as [[_ Hall]|(_ & _ & Hub)].
    + rewrite (Hall x) in Hn; [done|by apply Hown].
    + apply Hub; [by apply Hown|done].
  - intros Hn. destruct Hmax as [[-> _]|(Hfin & Hin & _)]; [done|].
    destruct Hmax' as [[_ Hall]|(_ & _ & Hub)].
    + rewrite (Hall vh) in Hfin; [done|by apply Hwider].
    + apply Hub; [by apply Hwider|done].
  - intros Hn. destruct Hmin as [[_ Hall]|(_ & _ & Hlb)].
    + rewrite (Hall y) in Hn; [done|by apply Hown].
    + apply Hlb; [by apply Hown|done].
  - intros Hn. destruct Hmin as [[-> _]|(Hfin & Hin & _)]; [done|].
    destruct Hmin' as [[_ Hall]|(_ & _ & Hlb)].
    + rewrite (Hall vl) in Hfin; [done|by apply Hwider].
    + apply Hlb; [by apply Hwider|done].
Qed.

Lemma trailing_monotone_witness :
  ∃ th th',
    utils.calculate_historical_high demo_frame 2 = Ok (FloatS th) ∧
    utils.calculate_historical_high demo_frame 4 = Ok (FloatS th') ∧
    th !! 4%nat = Some (price 15) ∧ th' !! 4%nat = Some (price 15).
Proof.
  destruct (trailing_extremes_are_monotone_in_the_window demo_frame
              [price 10; price 12; price 9; price 15; price 11]
              [price 5; price 6; price 4; price 7; price 6] 2 4 4 (price 11) (price 6))
    as (th & th' & _ & _ & _ & _ & _ & _ & H1 & H2 & _); try reflexivity; try lia.
  exists th, th'. split; [exact H1|]. split; [exact H2|].
  vm_compute in H1, H2. injection H1 as <-. injection H2 as <-. split; reflexivity.
Defined.

Lemma iloc_slice_single {A} (l : list A) (i : nat) (x : A) :
  l !! i = Some x → iloc_slice (Z.of_nat i) (Z.of_nat i + 1) l = [x].
Proof.
  intros Hx. apply lookup_lt_Some in Hx as Hi. unfold iloc_slice, py_index.
  destruct (Z.ltb_spec (Z.of_nat i) 0); [lia|].
  destruct (Z.ltb_spec (Z.of_nat i + 1) 0); [lia|].
  replace (Z.to_nat (Z.min (Z.of_nat i + 1) (Z.of_nat (length l))
                     - Z.min (Z.of_nat i) (Z.of_nat (length l)))) with 1%nat by lia.
  replace (Z.to_nat (Z.min (Z.of_nat i) (Z.of_nat (length l)))) with i by lia.
  rewrite (drop_S _ _ _ Hx). done.
Qed.

Lemma nan_extreme_single (le_b : fval → fval → bool) (x : fval) :
  nan_extreme le_b [x] = x.
Proof. by destruct x. Qed.

Lemma trailing_window_one (le_b : fval → fval → bool) (xs : list fval) :
  trailing (nan_extreme le_b) 1 xs = prep_values xs.
Proof.
  apply list_eq. intros i. destruct (prep_values xs !! i) as [x|] eqn:Hx.
  - rewrite lookup_trailing
      by (rewrite <- length_prep_values; by eapply lookup_lt_Some).
    replace (Z.max 0 (Z.of_nat i - 1 + 1)) with (Z.of_nat i) by lia.
    by rewrite (iloc_slice_single _ _ _ Hx), nan_extreme_single.
  - apply lookup_ge_None. rewrite length_trailing, <- length_prep_values.
    by apply lookup_ge_None.
Qed.

(** X11.  With a window of one period the trailing extremes are the columns
    themselves, except that an infinite cell comes back as NaN:
    [calculate_historical_high] returns the [High] column with its infinite
    cells blanked, and [calculate_historical_low] the [Low] column likewise;
    on a column without an infinite cell that is the column as it is, missing
    cells included. *)
Theorem window_of_one_returns_the_column (data : DataFrame) (high low : list fval) :
  getitem data "High" = Ok (FloatS high) → getitem data "Low" = Ok (FloatS low) →
  utils.calculate_historical_high data 1
  = Ok (FloatS ((λ x, if is_inf x then NaN else x) <$> high)) ∧
  utils.calculate_historical_low data 1
  = Ok (FloatS ((λ x, if is_inf x then NaN else x) <$> low)) ∧
  (Forall (λ x, is_inf x = false) high →
   utils.calculate_historical_high data 1 = Ok (FloatS high)) ∧
  (Forall (λ x, is_inf x = false) low →
   utils.calculate_historical_low data 1 = Ok (FloatS low)).
Proof.
  intros Hh Hl.
  assert (Hlk : ∀ n s, getitem data n = Ok s → lookup_col n (columns data) = Some s).
  { intros n s. unfold getitem. destruct (lookup_col n (columns data)); congruence. }
  rewrite (calculate_historical_high_eval _ high), (calculate_historical_low_eval _ low)
    by (by apply Hlk || lia).
  unfold nanmax, nanmin. rewrite !trailing_window_one.
  split; [done|]. split; [done|].
  split; intros Hfin; by rewrite prep_values_finite.
Qed.

Lemma window_of_one_witness :
  utils.calculate_historical_high inf_frame 1
  = Ok (FloatS [NaN; NaN; price 3; NaN]) ∧
  utils.calculate_historical_low demo_frame 1
  = Ok (FloatS [price 5; price 6; price 4; price 7; price 6]).
Proof.
  split.
  - by apply (window_of_one_returns_the_column inf_frame
                [NaN; PosInf; price 3; NaN] [NaN; NegInf; price 2; NaN]).
  - apply (window_of_one_returns_the_column demo_frame
             [price 10; price 12; price 9; price 15; price 11]
             [price 5; price 6; price 4; price 7; price 6]); [done|done|].
    by repeat constructor.
Defined.

Lemma days_between_same (d n : Z) : days_between d d n → n = 0%Z.
Proof. unfold days_between, ns_per_day. intros (H0 & H1 & _). lia. Qed.

Lemma days_since_spec_window_one (is_extreme : list fval → Z → Z → fval → Prop)
    (dates : list Z) (xs : list fval) (i : nat) (x cell : fval) :
  (∀ v, is_extreme xs (Z.of_nat i - 1 + 1)%Z (Z.of_nat i) v →
        (v = NaN ∧ ∀ z, cell_in xs (Z.of_nat i - 1 + 1) (Z.of_nat i) z → z = NaN) ∨
        (v ≠ NaN ∧ cell_in xs (Z.of_nat i - 1 + 1) (Z.of_nat i) v)) →
  xs !! i = Some x →
  days_since_spec is_extreme dates xs 1 i cell →
  cell = if is_nan x then NaN else Num 0.
Proof.
  intros Hext Hx (v & Hv & Hcell).
  assert (Hown : cell_in xs (Z.of_nat i - 1 + 1) (Z.of_nat i) x)
    by (exists i; split; [lia|done]).
  destruct (Hext v Hv) as [[-> Hall]|(Hn & j & Hj & Hvj)].
  - rewrite (Hall x Hown). simpl. destruct Hcell as [[_ ->]|[? _]]; done.
  - assert (j = i) as -> by lia. assert (v = x) as -> by congruence.
    destruct Hcell as [[? _]|(_ & k & dj & di & n & Hk & Hdj & Hdi & Hn' & ->)]; [done|].
    destruct Hk as (Hk & _). assert (k = i) as -> by lia.
    assert (dj = di) as -> by congruence.
    rewrite (days_between_same _ _ Hn'). by destruct x.
Qed.

(** X12.  With a window of one period the days-since columns carry no
    information beyond availability: in the annotated table of any input,
    the days-since-high cell of a row is 0 when the row's high is present and
    NaN when it is missing, and likewise for the low. *)
Theorem window_of_one_days_since_is_zero
    (data : DataFrame) (dates : list Z) (high low close : list fval) (V : Z) :
  raw_frame data dates high low close →
  ∃ out highs lows dsh dsl,
    metrics_calculations.calculate_metrics data 1 V = Ok out ∧
    getitem out "High" = Ok (FloatS highs) ∧ getitem out "Low" = Ok (FloatS lows) ∧
    getitem out (Days_Since_High_Last 1) = Ok (FloatS dsh) ∧
    getitem out (Days_Since_Low_Last 1) = Ok (FloatS dsl) ∧
    dsh = (λ x, if is_nan x then NaN else Num 0) <$> highs ∧
    dsl = (λ x, if is_nan x then NaN else Num 0) <$> lows.
Proof.
  intros Hraw.
  destruct (calculate_metrics_columns _ _ _ _ _ 1 V Hraw ltac:(lia))
    as (out & dates' & high' & low' & close' & Hout & Ho & Hlen & Hdl' & Hasc &
        _ & _ & Hdh & Hdl & _).
  destruct Ho as [_ _ Hh Hl _ Hhl Hll _].
  eexists out, high', low', _, _. split; [done|].
  split; [by apply getitem_lookup|]. split; [by apply getitem_lookup|].
  split; [by apply getitem_lookup|]. split; [by apply getitem_lookup|].
  split; apply list_eq; intros i; rewrite list_lookup_fmap.
  - destruct (high' !! i) as [x|] eqn:Hx; simpl.
    + apply lookup_lt_Some in Hx as Hi. rewrite Hhl in Hi.
      rewrite lookup_days_since_column by done.
      destruct (Z.leb_spec (1 - 1) (Z.of_nat i)); [|lia]. f_equal.
      eapply (days_since_spec_window_one max_over); [|done|].
      * intros v [[-> Hall]|(Hn & Hin & _)]; [by left|by right].
      * apply days_since_high_cell_spec; (done || lia).
    + apply lookup_ge_None. rewrite length_days_since_column, <- Hhl.
      by apply lookup_ge_None.
  - destruct (low' !! i) as [x|] eqn:Hx; simpl.
    + apply lookup_lt_Some in Hx as Hi. rewrite Hll in Hi.
      rewrite lookup_days_since_column by done.
      destruct (Z.leb_spec (1 - 1) (Z.of_nat i)); [|lia]. f_equal.
      eapply (days_since_spec_window_one min_over); [|done|].
      * intros v [[-> Hall]|(Hn & Hin & _)]; [by left|by right].
      * apply days_since_low_cell_spec; (done || lia).
    + apply lookup_ge_None. rewrite length_days_since_column, <- Hll.
      by apply lookup_ge_None.
Qed.

Lemma window_of_one_days_since_witness :
  ∃ out dsh,
    metrics_calculations.calculate_metrics gap_frame 1 2 = Ok out ∧
    getitem out (Days_Since_High_Last 1) = Ok (FloatS dsh) ∧ dsh = [NaN].
Proof.
  destruct (window_of_one_days_since_is_zero gap_frame [day 1] [NaN] [NaN] [NaN] 2)
    as (out & highs & lows & dsh & dsl & Hout & Hh & _ & Hd & _ & Heq & _);
    [by constructor|].
  exists out, dsh. split; [exact Hout|]. split; [exact Hd|].
  vm_compute in Hout. injection Hout as <-.
  vm_compute in Hh. injection Hh as <-. exact Heq.
Defined.

(** X13.  A forward window is a trailing window seen from its last row: for
    [V >= 2] and every row [i] whose forward window fits in the table
    ([i + V <= N]) and holds no infinite price, the forward high over the
    next [V-1] rows is the trailing high of window [V-1] at row [i+V-1], and
    likewise for the lows.  (An infinite price is kept by the forward
    extreme and dropped by the trailing one.) *)
Theorem forward_window_is_a_shifted_trailing_window
    (data : DataFrame) (high low : list fval) (V : Z) (i : nat) :
  getitem data "High" = Ok (FloatS high) → length high = len data →
  getitem data "Low" = Ok (FloatS low) → length low = len data →
  (2 ≤ V)%Z → (Z.of_nat i + V ≤ Z.of_nat (len data))%Z →
  (∀ (j : nat) (x : fval), (Z.of_nat i < Z.of_nat j < Z.of_nat i + V)%Z →
     high !! j = Some x ∨ low !! j = Some x → is_inf x = false) →
  ∃ fh th fl tl,
    utils.calculate_future_high data V = Ok (FloatS fh) ∧
    utils.calculate_historical_high data (V - 1) = Ok (FloatS th) ∧
    utils.calculate_future_low data V = Ok (FloatS fl) ∧
    utils.calculate_historical_low data (V - 1) = Ok (FloatS tl) ∧
    fh !! i = th !! (i + Z.to_nat (V - 1))%nat ∧
    fl !! i = tl !! (i + Z.to_nat (V - 1))%nat ∧
    is_Some (fh !! i) ∧ is_Some (fl !! i).
Proof.
  intros Hh Hlh Hl Hll HV Hi Hfin.
  destruct (future_high_rows data high V Hh Hlh) as (fh & Hfh & _ & Hrh & _).
  destruct (future_low_rows data low V Hl Hll) as (fl & Hfl & _ & Hrl & _).
  assert (Hlk : ∀ n s, getitem data n = Ok s → lookup_col n (columns data) = Some s).
  { intros n s. unfold getitem. destruct (lookup_col n (columns data)); congruence. }
  eexists fh, _, fl, _. split; [done|].
  split; [apply calculate_historical_high_eval; [by apply Hlk|lia]|]. split; [done|].
  split; [apply calculate_historical_low_eval; [by apply Hlk|lia]|].
  rewrite Hrh, Hrl by lia. rewrite !lookup_trailing by lia.
  assert (Hprep : ∀ xs : list fval,
            (∀ (j : nat) (x : fval), (Z.of_nat i < Z.of_nat j < Z.of_nat i + V)%Z →
               xs !! j = Some x → is_inf x = false) →
            length xs = len data →
            iloc_slice (Z.of_nat i + 1) (Z.min (Z.of_nat (len data)) (Z.of_nat i + V)) xs
            = iloc_slice (Z.max 0 (Z.of_nat (i + Z.to_nat (V - 1)) - (V - 1) + 1))
                (Z.of_nat (i + Z.to_nat (V - 1)) + 1) (prep_values xs)).
  { intros xs Hxs Hlen.
    replace (Z.max 0 (Z.of_nat (i + Z.to_nat (V - 1)) - (V - 1) + 1))
      with (Z.of_nat i + 1)%Z by lia.
    replace (Z.of_nat (i + Z.to_nat (V - 1)) + 1)%Z
      with (Z.min (Z.of_nat (len data)) (Z.of_nat i + V)) by lia.
    apply iloc_slice_ext; rewrite ?length_prep_values; try lia.
    intros j Hj. rewrite lookup_prep_values.
    destruct (xs !! j) as [x|] eqn:Hx; [|done]. simpl.
    by rewrite (Hxs j x) by (done || lia). }
  repeat split; try by eexists.
  - do 2 f_equal. apply Hprep; [|done]. intros j x Hj Hx. apply (Hfin j x); auto.
  - do 2 f_equal. apply Hprep; [|done]. intros j x Hj Hx. apply (Hfin j x); auto.
Qed.

Lemma forward_shift_witness :
  ∃ fh th,
    utils.calculate_future_high demo_frame 3 = Ok (FloatS fh) ∧
    utils.calculate_historical_high demo_frame 2 = Ok (FloatS th) ∧
    fh !! 1%nat = Some (price 15) ∧ th !! 3%nat = Some (price 15).
Proof.
  destruct (forward_window_is_a_shifted_trailing_window demo_frame
              [price 10; price 12; price 9; price 15; price 11]
              [price 5; price 6; price 4; price 7; price 6] 3 1)
    as (fh & th & _ & _ & H1 & H2 & _); try reflexivity; try lia;
    try (vm_compute; discriminate).
  { intros j x _ [Hx|Hx];
      do 5 (destruct j as [|j]; [by injection Hx as <-|]); done. }
  exists fh, th. split; [exact H1|]. split; [exact H2|].
  vm_compute in H1, H2. injection H1 as <-. injection H2 as <-. split; reflexivity.
Defined.

(** ** Sign and missing values of the percentage difference *)

Lemma round64_fle_nonpos (q : Q) : (q <= 0)%Q → fle (round64 q) (Num 0).
Proof. intros Hq. by destruct (round64_nonpos q Hq) as [->|(v & -> & Hv)]. Qed.

Lemma round64_fle_nonneg (q : Q) : (0 <= q)%Q → fle (Num 0) (round64 q).
Proof. intros Hq. by destruct (round64_nonneg q Hq) as [->|(v & -> & Hv)]. Qed.

(** Dividing by a positive number, multiplying by 100 and rounding to two
    decimals keep a cell on its side of zero. *)
Lemma fdiv_pos_sign (z : fval) (b : Q) :
  (0 < b)%Q →
  (fle z (Num 0) → fle (fdiv z (Num b)) (Num 0)) ∧
  (fle (Num 0) z → fle (Num 0) (fdiv z (Num b))).
Proof.
  intros Hb.
  assert (E : Qeq_bool b 0 = false).
  { destruct (Qeq_bool b 0) eqn:E; [|done]. apply Qeq_bool_iff in E. lra. }
  assert (E' : Qle_bool 0 b = true) by (apply Qle_bool_iff; lra).
  destruct z as [| |d|]; simpl; rewrite ?E, ?E'; try done.
  split; intros Hd.
  - apply round64_fle_nonpos. apply Qle_shift_div_r; [done|]. lra.
  - apply round64_fle_nonneg. apply Qle_shift_div_l; [done|]. lra.
Qed.

Lemma fmul_100_sign (z : fval) :
  (fle z (Num 0) → fle (fmul z (Num 100)) (Num 0)) ∧
  (fle (Num 0) z → fle (Num 0) (fmul z (Num 100))).
Proof.
  destruct z as [| |d|]; simpl; try done.
  split; intros Hd; [apply round64_fle_nonpos|apply round64_fle_nonneg]; lra.
Qed.

Lemma frint_sign (z : fval) :
  (fle z (Num 0) → fle (frint z) (Num 0)) ∧ (fle (Num 0) z → fle (Num 0) (frint z)).
Proof.
  destruct z as [| |d|]; simpl; try done.
  destruct (round_half_even_near d) as [Hlo Hhi].
  split; intros Hd; change 0%Q with (inject_Z 0); rewrite <- Zle_Qle.
  - apply inject_Z_half_le. lra.
  - apply inject_Z_half_ge. lra.
Qed.

Lemma fround2_sign (z : fval) :
  (fle z (Num 0) → fle (fround2 z) (Num 0)) ∧ (fle (Num 0) z → fle (Num 0) (fround2 z)).
Proof.
  unfold fround2.
  destruct (fmul_100_sign z) as [H1 H1'].
  destruct (frint_sign (fmul z (Num 100))) as [H2 H2'].
  destruct (fdiv_pos_sign (frint (fmul z (Num 100))) 100 ltac:(reflexivity)) as [H3 H3'].
  split; auto.
Qed.

Lemma pct_cell_sign (a b : Q) :
  (0 < b)%Q →
  let cell := fround2 (fmul (fdiv (fsub (Num a) (Num b)) (Num b)) (Num 100)) in
  ((a <= b)%Q → fle cell (Num 0)) ∧ ((b <= a)%Q → fle (Num 0) cell) ∧
  ((a == b)%Q → cell = Num 0).
Proof.
  intros Hb cell. unfold cell.
  destruct (fdiv_pos_sign (fsub (Num a) (Num b)) b Hb) as [H1 H1'].
  destruct (fmul_100_sign (fdiv (fsub (Num a) (Num b)) (Num b))) as [H2 H2'].
  destruct (fround2_sign (fmul (fdiv (fsub (Num a) (Num b)) (Num b)) (Num 100)))
    as [H3 H3'].
  split; [|split].
  - intros Hab. apply H3, H2, H1. cbn [fsub]. apply round64_fle_nonpos. lra.
  - intros Hab. apply H3', H2', H1'. cbn [fsub]. apply round64_fle_nonneg. lra.
  - intros Hab. cbn [fsub]. rewrite (round64_zero (a - b)) by lra. cbn [fdiv].
    destruct (Qeq_bool b 0) eqn:E; [apply Qeq_bool_iff in E; lra|].
    rewrite (round64_zero (0 / b)) by (unfold Qdiv; ring). cbn [fmul].
    rewrite (round64_zero (0 * 100)) by reflexivity.
    unfold fround2. cbn [fmul]. rewrite (round64_zero (0 * 100)) by reflexivity.
    reflexivity.
Qed.

(** X14.  Against a positive reference the percentage difference has the
    sign of [current - reference], also after the rounding of every step:
    the cell is at most 0 (a number, or minus infinity when the computation
    overflows) when the current value does not exceed the reference, at
    least 0 (a number or plus infinity) when it is not below it, and exactly
    0 when the two are equal. *)
Theorem pct_diff_has_the_sign_of_the_difference
    (current reference : list fval) (i : nat) (a b : Q) :
  current !! i = Some (Num a) → reference !! i = Some (Num b) → (0 < b)%Q →
  ∃ p cell,
    utils.calculate_pct_diff (FloatS current) (FloatS reference) = Ok (FloatS p) ∧
    p !! i = Some cell ∧
    ((a <= b)%Q → fle cell (Num 0)) ∧ ((b <= a)%Q → fle (Num 0) cell) ∧
    ((a == b)%Q → cell = Num 0).
Proof.
  intros Ha Hb Hpos. eexists (pct_diff_cells current reference), _.
  split; [reflexivity|]. split.
  - rewrite lookup_pct_diff_cells by (apply lookup_lt_Some in Ha; lia).
    by rewrite Ha, Hb.
  - cbn [default]. by apply pct_cell_sign.
Qed.

Lemma pct_diff_sign_witness :
  ∃ p cell,
    utils.calculate_pct_diff (FloatS [price 90; price 1])
                             (FloatS [price 100; Num (1 # 10 ^ 320)]) = Ok (FloatS p) ∧
    p !! 0%nat = Some cell ∧ fle cell (Num 0) ∧ p !! 1%nat = Some PosInf.
Proof.
  destruct (pct_diff_has_the_sign_of_the_difference
              [price 90; price 1] [price 100; Num (1 # 10 ^ 320)] 0 90 100)
    as (p & cell & Hp & Hx & Hle & _); [reflexivity|reflexivity|reflexivity|].
  exists p, cell. split; [exact Hp|]. split; [exact Hx|].
  split; [apply Hle; discriminate|].
  rewrite calculate_pct_diff_eval in Hp. injection Hp as <-.
  vm_compute. reflexivity.
Defined.

(** X15.  Missing values propagate through the percentage difference: a row
    whose current value or whose reference is NaN, or that one of the two
    aligned series lacks, gets NaN; no error is raised. *)
Theorem pct_diff_propagates_missing_values
    (current reference : list fval) (i : nat) :
  (i < Nat.max (length current) (length reference))%nat →
  default NaN (current !! i) = NaN ∨ default NaN (reference !! i) = NaN →
  ∃ p,
    utils.calculate_pct_diff (FloatS current) (FloatS reference) = Ok (FloatS p) ∧
    length p = Nat.max (length current) (length reference) ∧
    p !! i = Some NaN.
Proof.
  intros Hi Hnan. exists (pct_diff_cells current reference).
  split; [reflexivity|].
  split; [unfold pct_diff_cells; rewrite !length_fmap, !length_align_with; lia|].
  rewrite lookup_pct_diff_cells by done. f_equal.
  destruct Hnan as [-> | ->]; [done|].
  by destruct (default NaN (current !! i)).
Qed.

Lemma pct_diff_missing_witness :
  ∃ p,
    utils.calculate_pct_diff (FloatS [price 6; NaN]) (FloatS [NaN; price 5]) = Ok (FloatS p) ∧
    p = [NaN; NaN].
Proof.
  destruct (pct_diff_propagates_missing_values [price 6; NaN] [NaN; price 5] 0)
    as (p & Hp & _); [simpl; lia|by right|].
  exists p. split; [exact Hp|]. vm_compute in Hp. by injection Hp as <-.
Defined.

(** ** Annotating more than once *)

Lemma lookup_col_assign (n m : string) (s : Series) (cols : list (string * Series)) :
  lookup_col m (assign_col n s cols)
  = if String.eqb n m then Some s else lookup_col m cols.
Proof.
  destruct (String.eqb_spec n m) as [->|Hne].
  - apply lookup_col_assign_eq.
  - by apply lookup_col_assign_other.
Qed.

Lemma lookup_historical (W : Z) (dates : list Z) (high low close : list fval)
    (cols : list (string * Series)) (m : string) :
  lookup_col m (historical_columns W dates high low close cols)
  = match lookup_col m (own_historical_columns W dates high low close) with
    | Some v => Some v
    | None => lookup_col m cols
    end.
Proof.
  unfold own_historical_columns, historical_columns.
  rewrite !lookup_col_assign. cbn [lookup_col].
  repeat match goal with
         | |- context [String.eqb ?a m] => destruct (String.eqb a m); [reflexivity|]
         end.
  reflexivity.
Qed.

Lemma own_historical_names (W : Z) (dates : list Z) (high low close : list fval)
    (m : string) (v : Series) :
  lookup_col m (own_historical_columns W dates high low close) = Some v →
  m ∈ historical_names W.
Proof.
  unfold own_historical_columns, historical_columns, historical_names.
  rewrite !lookup_col_assign. simpl lookup_col. rewrite !elem_of_cons.
  repeat match goal with
         | |- context [String.eqb ?a m] =>
             destruct (String.eqb_spec a m) as [<-|_]; [by eauto 10|]
         end.
  done.
Qed.

Lemma historical_stage_ohlc (data : DataFrame) (dates : list Z)
    (high low close : list fval) (W : Z) :
  ohlc_frame data dates high low close →
  ohlc_frame {| index := index data;
                columns := historical_columns W dates high low close (columns data) |}
             dates high low close.
Proof.
  intros [Hidx Hd Hh Hl Hc Hhl Hll Hcl].
  constructor; cbn [index columns]; try done;
    rewrite lookup_historical_other; try done;
    unfold historical_names; rewrite !not_elem_of_cons;
    repeat split; try apply not_elem_of_nil; by apply String.eqb_neq.
Qed.

Lemma historical_columns_twice (W : Z) (dates : list Z) (high low close : list fval)
    (cols : list (string * Series)) :
  historical_columns W dates high low close
    (historical_columns W dates high low close cols)
  = historical_columns W dates high low close cols.
Proof.
  remember (historical_columns W dates high low close cols) as C eqn:HC.
  unfold historical_columns.
  rewrite !assign_col_same; [done|..]; subst C; unfold historical_columns; by col_lookup.
Qed.

Lemma future_columns_twice (V : Z) (high low close : list fval)
    (cols : list (string * Series)) :
  future_columns V high low close (future_columns V high low close cols)
  = future_columns V high low close cols.
Proof.
  remember (future_columns V high low close cols) as C eqn:HC.
  unfold future_columns.
  rewrite !assign_col_same; [done|..]; subst C; unfold future_columns; by col_lookup.
Qed.

(** X16.  Annotating twice with the same window length is the same as
    annotating once: running the historical stage (or the forward stage) on
    its own output returns that output unchanged, without duplicating a
    column. *)
Theorem annotating_again_changes_nothing
    (data : DataFrame) (dates : list Z) (high low close : list fval) (W V : Z) :
  ohlc_frame data dates high low close → (1 ≤ W)%Z →
  ∃ d1 d2,
    metrics_calculations.add_historical_metrics data W = Ok d1 ∧
    metrics_calculations.add_historical_metrics d1 W = Ok d1 ∧
    metrics_calculations.add_future_metrics d1 V = Ok d2 ∧
    metrics_calculations.add_future_metrics d2 V = Ok d2.
Proof.
  intros Ho HW.
  pose proof (historical_stage_ohlc _ _ _ _ _ W Ho) as Ho1.
  pose proof (len_ohlc _ _ _ _ _ Ho1) as Hlen1.
  eexists _, _. split; [by apply add_historical_metrics_eval|].
  split.
  { rewrite (add_historical_metrics_eval _ _ _ _ _ W Ho1 HW). cbn [index columns].
    by rewrite historical_columns_twice. }
  destruct Ho1 as [_ _ Hh Hl Hc Hhl Hll Hcl].
  assert (Hf1 := add_future_metrics_eval _ high low close V Hh Hl Hc
                   ltac:(lia) ltac:(lia) ltac:(lia)).
  split; [exact Hf1|].
  rewrite (add_future_metrics_eval _ high low close V); cbn [index columns].
  - by rewrite future_columns_twice.
  - rewrite lookup_future_other; [done|names_fresh].
  - rewrite lookup_future_other; [done|names_fresh].
  - rewrite lookup_future_other; [done|names_fresh].
  - unfold len in *. cbn [index] in *. lia.
  - unfold len in *. cbn [index] in *. lia.
  - unfold len in *. cbn [index] in *. lia.
Qed.

Lemma annotating_again_witness :
  ∃ d1,
    metrics_calculations.add_historical_metrics demo_frame 3 = Ok d1 ∧
    metrics_calculations.add_historical_metrics d1 3 = Ok d1 ∧
    length (columns d1) = 11%nat.
Proof.
  destruct (annotating_again_changes_nothing demo_frame
              [day 1; day 2; day 3; day 4; day 5]
              [price 10; price 12; price 9; price 15; price 11]
              [price 5; price 6; price 4; price 7; price 6]
              [price 6; price 7; price 8; price 8; price 7] 3 2)
    as (d1 & d2 & H1 & H2 & _); [by constructor|lia|].
  exists d1. split; [exact H1|]. split; [exact H2|].
  vm_compute in H1. by injection H1 as <-.
Defined.

(** X17.  Annotations for different window lengths coexist: annotating with
    [W] and then with [W' <> W] leaves the columns written for [W] as they
    were, and the two orders of annotating give tables with the same
    contents under every column name. *)
Theorem annotations_for_different_windows_coexist
    (data : DataFrame) (dates : list Z) (high low close : list fval) (W W' : Z) :
  ohlc_frame data dates high low close → (1 ≤ W)%Z → (1 ≤ W')%Z → W ≠ W' →
  ∃ d1 d12 d2 d21,
    metrics_calculations.add_historical_metrics data W = Ok d1 ∧
    metrics_calculations.add_historical_metrics d1 W' = Ok d12 ∧
    metrics_calculations.add_historical_metrics data W' = Ok d2 ∧
    metrics_calculations.add_historical_metrics d2 W = Ok d21 ∧
    (∀ n, n ∈ historical_names W →
          is_Some (lookup_col n (columns d1)) ∧
          lookup_col n (columns d12) = lookup_col n (columns d1)) ∧
    (∀ n, lookup_col n (columns d12) = lookup_col n (columns d21)) ∧
    index d12 = index data ∧ index d21 = index data.
Proof.
  intros Ho HW HW' Hne.
  pose proof (historical_stage_ohlc _ _ _ _ _ W Ho) as Ho1.
  pose proof (historical_stage_ohlc _ _ _ _ _ W' Ho) as Ho2.
  eexists _, _, _, _.
  split; [by apply add_historical_metrics_eval|].
  split; [by apply add_historical_metrics_eval|].
  split; [by apply add_historical_metrics_eval|].
  split; [by apply add_historical_metrics_eval|].
  cbn [index columns].
  assert (Hdisj : ∀ n, n ∈ historical_names W → n ∉ historical_names W').
  { intros n. unfold historical_names at 1. rewrite !elem_of_cons, elem_of_nil.
    intros [->|[->|[->|[->|[->|[->|[]]]]]]]; names_fresh. }
  split; [|split; [|done]].
  - intros n Hn. split.
    + destruct Ho as [_ _ _ _ _ Hhl Hll Hcl].
      destruct (lookup_historical_own W dates high low close (columns data) n
                  Hhl Hll Hcl Hn) as (cells & -> & _). by eexists.
    + apply lookup_historical_other. by apply Hdisj.
  - intros n. rewrite !lookup_historical.
    destruct (lookup_col n (own_historical_columns W' dates high low close)) as [v'|] eqn:E';
      destruct (lookup_col n (own_historical_columns W dates high low close)) as [v|] eqn:E;
      try done.
    apply own_historical_names in E, E'. by destruct (Hdisj n E).
Qed.

Lemma annotations_coexist_witness :
  ∃ d1 d12,
    metrics_calculations.add_historical_metrics demo_frame 2 = Ok d1 ∧
    metrics_calculations.add_historical_metrics d1 3 = Ok d12 ∧
    getitem d12 (High_Last 2) = getitem d1 (High_Last 2) ∧
    length (columns d12) = 17%nat.
Proof.
  destruct (annotations_for_different_windows_coexist demo_frame
              [day 1; day 2; day 3; day 4; day 5]
              [price 10; price 12; price 9; price 15; price 11]
              [price 5; price 6; price 4; price 7; price 6]
              [price 6; price 7; price 8; price 8; price 7] 2 3)
    as (d1 & d12 & d2 & d21 & H1 & H12 & _); [by constructor|lia|lia|lia|].
  exists d1, d12. split; [exact H1|]. split; [exact H12|].
  vm_compute in H1. injection H1 as <-.
  vm_compute in H12. injection H12 as <-. split; reflexivity.
Defined.

(** ** The order of the columns *)

Lemma lookup_col_None (cols : list (string * Series)) (n : string) :
  n ∉ cols.*1 → lookup_col n cols = None.
Proof.
  intros Hn. destruct (lookup_col n cols) as [s|] eqn:E; [|done].
  destruct Hn. apply has_col_elem. unfold has_col. by rewrite E.
Qed.

Lemma assign_col_names_fresh (n : string) (s : Series) (cols : list (string * Series)) :
  n ∉ cols.*1 → (assign_col n s cols).*1 = cols.*1 ++ [n].
Proof.
  induction cols as [|[k c] cols IH]; simpl; [done|].
  rewrite not_elem_of_cons. intros [Hk Hn].
  destruct (String.eqb_spec k n) as [->|_]; [done|].
  rewrite fmap_cons. simpl. f_equal. by apply IH.
Qed.

Lemma take_columns_names (p : list nat) (cols : list (string * Series)) :
  (prod_map id (series_take p) <$> cols).*1 = cols.*1.
Proof. induction cols as [|[k c] cols IH]; [done|]. rewrite !fmap_cons. simpl. f_equal. exact IH. Qed.

Lemma assign_col_names (n : string) (s : Series) (cols : list (string * Series))
    (l : list string) :
  cols.*1 = l → n ∉ l → (assign_col n s cols).*1 = l ++ [n].
Proof. intros <-. apply assign_col_names_fresh. Qed.

Ltac name_is_new :=
  unfold base_names; rewrite ?not_elem_of_app, ?not_elem_of_cons;
  repeat split; try apply not_elem_of_nil; by apply String.eqb_neq.

Ltac names_chain Hnames :=
  first [ eapply assign_col_names; [names_chain Hnames | name_is_new]
        | rewrite take_columns_names; exact Hnames ].

(** X18.  On a table with the five base columns the annotated table lists
    its columns in a fixed order: Date, Open, High, Low, Close, then the six
    historical columns (high, days since high, % from high, low, days since
    low, % from low), then the four forward columns (high, % from high, low,
    % from low); no column is dropped or duplicated. *)
Theorem annotated_columns_come_in_a_fixed_order
    (data : DataFrame) (dates : list Z) (high low close : list fval) (W V : Z) :
  raw_frame data dates high low close → (columns data).*1 = base_names → (1 ≤ W)%Z →
  ∃ out,
    metrics_calculations.calculate_metrics data W V = Ok out ∧
    (columns out).*1 = base_names ++ historical_names W ++ future_names V ∧
    NoDup (columns out).*1.
Proof.
  intros Hraw Hnames HW.
  pose proof (calculate_metrics_eval _ _ _ _ _ W V Hraw HW) as Hout. cbv zeta in Hout.
  eexists. split; [exact Hout|]. cbn [columns].
  assert (Hcols : (future_columns V (take_rows (argsort dates) high)
                     (take_rows (argsort dates) low) (take_rows (argsort dates) close)
                     (historical_columns W (take_rows (argsort dates) dates)
                        (take_rows (argsort dates) high) (take_rows (argsort dates) low)
                        (take_rows (argsort dates) close)
                        (prod_map id (series_take (argsort dates)) <$> columns data))).*1
                  = base_names ++ historical_names W ++ future_names V).
  { unfold future_columns, historical_columns.
    etrans; [names_chain Hnames|]. reflexivity. }
  split; [exact Hcols|]. rewrite Hcols.
  unfold base_names, historical_names, future_names. simpl app.
  repeat (apply NoDup_cons; split;
          [rewrite ?not_elem_of_cons; repeat split; try apply not_elem_of_nil;
           by apply String.eqb_neq|]).
  apply NoDup_nil_2.
Qed.

Lemma annotated_columns_witness :
  ∃ out,
    metrics_calculations.calculate_metrics demo_frame 3 2 = Ok out ∧
    (columns out).*1
    = [ "Date"; "Open"; "High"; "Low"; "Close";
        "High_Last_3_Days"; "Days_Since_High_Last_3_Days"; "%_Diff_From_High_Last_3_Days";
        "Low_Last_3_Days"; "Days_Since_Low_Last_3_Days"; "%_Diff_From_Low_Last_3_Days";
        "High_Next_2_Days"; "%_Diff_From_High_Next_2_Days";
        "Low_Next_2_Days"; "%_Diff_From_Low_Next_2_Days" ].
Proof.
  destruct (annotated_columns_come_in_a_fixed_order demo_frame
              [day 1; day 2; day 3; day 4; day 5]
              [price 10; price 12; price 9; price 15; price 11]
              [price 5; price 6; price 4; price 7; price 6]
              [price 6; price 7; price 8; price 8; price 7] 3 2)
    as (out & Hout & Hn & _); [by constructor|reflexivity|lia|].
  exists out. split; [exact Hout|]. rewrite Hn. reflexivity.
Defined.

(** ** The sheet the table is written to *)

Lemma name_in_elem (name : string) (sheetnames : list string) :
  name_in name sheetnames = true ↔ name ∈ sheetnames.
Proof.
  unfold name_in. rewrite existsb_exists. setoid_rewrite <- list_elem_of_In. split.
  - intros (x & Hx & Heq). apply String.eqb_eq in Heq. by subst.
  - intros Hin. exists name. split; [done|]. apply String.eqb_refl.
Qed.

Lemma suffixed_inj (sheet_name : string) : Inj (=) (=) (suffixed sheet_name).
Proof.
  intros j k Heq. unfold suffixed in Heq.
  apply String.app_inj in Heq. apply String.app_inj in Heq. by apply pretty_Z_inj.
Qed.

Lemma free_suffix_Some (fuel : nat) (sheetnames : list string) (sheet_name : string)
    (suffix r : Z) :
  free_suffix fuel sheetnames sheet_name suffix = Some r →
  (suffix ≤ r)%Z ∧
  name_in (suffixed sheet_name r) sheetnames = false ∧
  ∀ j, (suffix ≤ j < r)%Z → name_in (suffixed sheet_name j) sheetnames = true.
Proof.
  revert suffix. induction fuel as [|fuel IH]; intros suffix; simpl; [done|].
  destruct (name_in (suffixed sheet_name suffix) sheetnames) eqn:E.
  - intros Hr. apply IH in Hr as (Hle & Hfree & Hbelow).
    split; [lia|]. split; [done|]. intros j Hj.
    destruct (decide (j = suffix)) as [->|]; [done|]. apply Hbelow. lia.
  - intros [= <-]. split; [lia|]. split; [done|]. intros j Hj. lia.
Qed.

Lemma free_suffix_first (fuel : nat) (sheetnames : list string) (sheet_name : string)
    (suffix r : Z) :
  (suffix ≤ r < suffix + Z.of_nat fuel)%Z →
  name_in (suffixed sheet_name r) sheetnames = false →
  (∀ j, (suffix ≤ j < r)%Z → name_in (suffixed sheet_name j) sheetnames = true) →
  free_suffix fuel sheetnames sheet_name suffix = Some r.
Proof.
  revert suffix. induction fuel as [|fuel IH]; intros suffix Hr Hfree Hbelow; [lia|].
  simpl. destruct (decide (r = suffix)) as [->|Hne].
  - by rewrite Hfree.
  - rewrite Hbelow by lia. apply IH; [lia|done|]. intros j Hj. apply Hbelow. lia.
Qed.

Lemma free_suffix_None (fuel : nat) (sheetnames : list string) (sheet_name : string)
    (suffix : Z) :
  free_suffix fuel sheetnames sheet_name suffix = None →
  ∀ j, (suffix ≤ j < suffix + Z.of_nat fuel)%Z →
       name_in (suffixed sheet_name j) sheetnames = true.
Proof.
  revert suffix. induction fuel as [|fuel IH]; intros suffix; simpl; [lia|].
  destruct (name_in (suffixed sheet_name suffix) sheetnames) eqn:E; [|done].
  intros Hnone j Hj. destruct (decide (j = suffix)) as [->|]; [done|].
  apply (IH _ Hnone). lia.
Qed.

(** A book of [n] sheets cannot hold [n + 1] numbered copies of a name. *)
Lemma free_suffix_enough_fuel (fuel : nat) (sheetnames : list string)
    (sheet_name : string) (suffix : Z) :
  length sheetnames < fuel →
  is_Some (free_suffix fuel sheetnames sheet_name suffix).
Proof.
  intros Hfuel.
  destruct (free_suffix fuel sheetnames sheet_name suffix) as [r|] eqn:E; [by eexists|].
  pose proof (free_suffix_None _ _ _ _ E) as Hall.
  assert (Hsub : suffixed sheet_name <$> seqZ suffix (Z.of_nat fuel) ⊆+ sheetnames).
  { apply NoDup_submseteq.
    - apply (NoDup_fmap_2 _), NoDup_seqZ.
    - intros x (j & -> & Hj)%list_elem_of_fmap. apply elem_of_seqZ in Hj.
      apply name_in_elem, Hall. lia. }
  apply submseteq_length in Hsub. rewrite length_fmap, length_seqZ in Hsub. lia.
Qed.

Lemma contains_slash_app (a b : string) :
  contains_slash (a +:+ b) = contains_slash a || contains_slash b.
Proof. induction a as [|c a IH]; simpl; [done|]. by rewrite IH, orb_assoc. Qed.

Lemma contains_slash_remove (s : string) : contains_slash (remove_slashes s) = false.
Proof.
  induction s as [|c s IH]; simpl; [done|].
  destruct (Ascii.eqb c "/") eqn:E; simpl; [done|]. by rewrite E.
Qed.

Lemma remove_slashes_id (s : string) : contains_slash s = false → remove_slashes s = s.
Proof.
  induction s as [|c s IH]; simpl; [done|].
  destruct (Ascii.eqb c "/"); simpl; [done|]. intros Hs. by rewrite IH.
Qed.

Lemma contains_slash_pretty_N_go (x : N) (s : string) :
  contains_slash (pretty_N_go x s) = contains_slash s.
Proof.
  revert s. induction (N.lt_wf_0 x) as [x _ IH]; intros s.
  assert (x = 0 ∨ 0 < x)%N as [->|Hx] by lia; [by rewrite pretty_N_go_0|].
  rewrite pretty_N_go_step by done. rewrite IH by (by apply N.div_lt).
  unfold pretty_N_char. by repeat case_match.
Qed.

Lemma contains_slash_pretty_N (x : N) : contains_slash (pretty x) = false.
Proof.
  unfold pretty, pretty_N. case_decide; [done|]. by rewrite contains_slash_pretty_N_go.
Qed.

Lemma contains_slash_pretty_Z (z : Z) : contains_slash (pretty z) = false.
Proof.
  destruct z as [|p|p]; [done|apply contains_slash_pretty_N|].
  unfold pretty, pretty_Z. rewrite contains_slash_app. simpl.
  apply contains_slash_pretty_N.
Qed.

Lemma contains_slash_suffixed (sheet_name : string) (suffix : Z) :
  contains_slash (suffixed sheet_name suffix) = contains_slash sheet_name.
Proof.
  unfold suffixed. rewrite !contains_slash_app, contains_slash_pretty_Z. simpl.
  by rewrite !orb_false_r.
Qed.

(** X19.  The search for a free sheet name always ends, and never picks a
    name that is already in the workbook: once the bound on the number of
    tests exceeds the number of sheets of the book, [add_to_excel] opens the
    writer in append mode with one and the same sheet name, whatever the
    bound, and that name is not a sheet of the book. *)
Theorem add_to_excel_never_reuses_a_sheet
    (sheetnames : list string) (sheet_name : string) :
  ∃ name,
    name_in name sheetnames = false ∧
    ∀ fuel, length sheetnames < fuel →
      add_to_excel fuel (Some sheetnames) sheet_name = Some (ModeAppend, name).
Proof.
  unfold add_to_excel. cbv zeta.
  destruct (name_in (remove_slashes sheet_name) sheetnames) eqn:E.
  - destruct (free_suffix_enough_fuel (S (length sheetnames)) sheetnames
                (remove_slashes sheet_name) 1) as [r Hr]; [lia|].
    pose proof (free_suffix_Some _ _ _ _ _ Hr) as (Hle & Hfree & Hbelow).
    exists (suffixed (remove_slashes sheet_name) r). split; [done|].
    intros fuel Hfuel.
    destruct (free_suffix_enough_fuel fuel sheetnames
                (remove_slashes sheet_name) 1 Hfuel) as [r' Hr'].
    rewrite Hr'. simpl.
    pose proof (free_suffix_Some _ _ _ _ _ Hr') as (Hle' & Hfree' & Hbelow').
    assert (r' = r) as ->; [|done].
    destruct (Z.lt_trichotomy r' r) as [Hlt|[->|Hgt]]; [|done|].
    + rewrite Hbelow in Hfree' by lia. done.
    + rewrite Hbelow' in Hfree by lia. done.
  - exists (remove_slashes sheet_name). by split.
Qed.

Lemma add_to_excel_never_reuses_witness :
  ∃ name,
    name_in name demo_sheetnames = false ∧
    add_to_excel 5 (Some demo_sheetnames) "BTC/USD" = Some (ModeAppend, name).
Proof.
  destruct (add_to_excel_never_reuses_a_sheet demo_sheetnames "BTC/USD")
    as (name & Hfree & Hall).
  exists name. split; [exact Hfree|]. apply Hall. simpl. lia.
Defined.

(** X20.  The sheet name [add_to_excel] settles on in an existing workbook is
    the cleaned name when that is free, and otherwise the cleaned name with
    the smallest suffix [_k], [k ≥ 1], that is free: every smaller suffix
    names a sheet of the book. *)
Theorem add_to_excel_takes_the_first_free_suffix
    (fuel : nat) (sheetnames : list string) (sheet_name name : string) (mode : write_mode) :
  add_to_excel fuel (Some sheetnames) sheet_name = Some (mode, name) →
  mode = ModeAppend ∧
  ((name_in (remove_slashes sheet_name) sheetnames = false ∧
    name = remove_slashes sheet_name) ∨
   (name_in (remove_slashes sheet_name) sheetnames = true ∧
    ∃ k, (1 ≤ k)%Z ∧ name = suffixed (remove_slashes sheet_name) k ∧
         name_in name sheetnames = false ∧
         ∀ j, (1 ≤ j < k)%Z →
              name_in (suffixed (remove_slashes sheet_name) j) sheetnames = true)).
Proof.
  unfold add_to_excel. cbv zeta.
  destruct (name_in (remove_slashes sheet_name) sheetnames) eqn:E.
  - destruct (free_suffix fuel sheetnames (remove_slashes sheet_name) 1) as [r|] eqn:Hr;
      simpl; [|done].
    intros [= <- <-]. split; [done|]. right. split; [done|].
    apply free_suffix_Some in Hr as (Hle & Hfree & Hbelow). by exists r.
  - intros [= <- <-]. split; [done|]. by left.
Qed.

Lemma add_to_excel_first_free_suffix_witness :
  ModeAppend = ModeAppend ∧
  ((name_in (remove_slashes "BTC/USD") demo_sheetnames = false ∧
    "BTCUSD_3" = remove_slashes "BTC/USD") ∨
   (name_in (remove_slashes "BTC/USD") demo_sheetnames = true ∧
    ∃ k, (1 ≤ k)%Z ∧ "BTCUSD_3" = suffixed (remove_slashes "BTC/USD") k ∧
         name_in "BTCUSD_3" demo_sheetnames = false ∧
         ∀ j, (1 ≤ j < k)%Z →
              name_in (suffixed (remove_slashes "BTC/USD") j) demo_sheetnames = true)).
Proof.
  apply (add_to_excel_takes_the_first_free_suffix 5 demo_sheetnames "BTC/USD").
  reflexivity.
Defined.

(** X21.  Whatever workbook is found, the sheet name handed to the writer
    contains no slash; a new file is created exactly when no workbook was
    found, and then the name is the given one without its slashes.  A name
    without slashes whose sheet does not exist yet is used as it is. *)
Theorem add_to_excel_name_has_no_slash
    (fuel : nat) (book : option (list string)) (sheet_name name : string)
    (mode : write_mode) :
  add_to_excel fuel book sheet_name = Some (mode, name) →
  contains_slash name = false ∧
  (mode = ModeWrite ↔ book = None) ∧
  (book = None → name = remove_slashes sheet_name) ∧
  (contains_slash sheet_name = false →
   (∀ sheetnames, book = Some sheetnames → name_in sheet_name sheetnames = false) →
   name = sheet_name).
Proof.
  unfold add_to_excel. cbv zeta. destruct book as [sheetnames|].
  - destruct (name_in (remove_slashes sheet_name) sheetnames) eqn:E.
    + destruct (free_suffix fuel sheetnames (remove_slashes sheet_name) 1) as [r|];
        simpl; [|done].
      intros [= <- <-]. rewrite contains_slash_suffixed, contains_slash_remove.
      split; [done|]. split; [done|]. split; [done|].
      intros Hclean Hfree. rewrite (remove_slashes_id _ Hclean) in E.
      rewrite (Hfree sheetnames) in E; done.
    + intros [= <- <-]. rewrite contains_slash_remove.
      split; [done|]. split; [done|]. split; [done|].
      intros Hclean _. by apply remove_slashes_id.
  - intros [= <- <-]. rewrite contains_slash_remove.
    split; [done|]. split; [done|]. split; [done|].
    intros Hclean _. by apply remove_slashes_id.
Qed.

Lemma add_to_excel_no_slash_witness :
  contains_slash "BTCUSD" = false ∧
  (ModeWrite = ModeWrite ↔ None = @None (list string)) ∧
  (None = @None (list string) → "BTCUSD" = remove_slashes "BTC/USD") ∧
  (contains_slash "BTC/USD" = false →
   (∀ sheetnames, None = Some sheetnames → name_in "BTC/USD" sheetnames = false) →
   "BTCUSD" = "BTC/USD").
Proof.
  apply (add_to_excel_name_has_no_slash 0 None "BTC/USD" "BTCUSD" ModeWrite).
  reflexivity.
Defined.

(** ** Tables that are already in date order *)

Lemma zip_positions_sorted (keys : list Z) (start : nat) :
  ascending keys →
  StronglySorted (λ a b : Z * nat, is_true (DateOrder.leb a b))
    (zip keys (seq start (length keys))).
Proof.
  revert start. induction keys as [|k keys IH]; intros start Hasc; simpl; constructor.
  - apply IH. intros i j di dj Hij Hi Hj. by apply (Hasc (S i) (S j)); [lia|..].
  - apply Forall_lookup. intros i [k' j'] Hi.
    apply lookup_zip_Some in Hi as [Hk Hj]. simpl in Hk.
    apply lookup_seq in Hj as [-> _].
    unfold is_true. rewrite DateOrder_leb_iff. simpl.
    pose proof (Hasc 0%nat (S i) k k' ltac:(lia) eq_refl Hk). lia.
Qed.

Lemma strictly_ascending_ascending (l : list Z) : strictly_ascending l → ascending l.
Proof.
  intros Hs j k dj dk Hjk Hj Hk.
  destruct (decide (j = k)) as [->|Hne]; [rewrite Hj in Hk; injection Hk as ->; lia|].
  pose proof (Hs j k dj dk ltac:(lia) Hj Hk). lia.
Qed.

(** Sorting a column that is already in date order moves nothing. *)
Lemma argsort_sorted (keys : list Z) :
  ascending keys → argsort keys = seq 0 (length keys).
Proof.
  intros Hs. unfold argsort.
  assert (Hsort : DateSort.sort (zip keys (seq 0 (length keys)))
                  = zip keys (seq 0 (length keys))).
  { apply (StronglySorted_unique_strong (λ a b : Z * nat, is_true (DateOrder.leb a b))).
    - intros [k1 j1] [k2 j2] _ _ Hle Hge. unfold is_true in Hle, Hge.
      rewrite DateOrder_leb_iff in Hle, Hge. simpl in Hle, Hge.
      f_equal; lia.
    - apply DateSort.StronglySorted_sort. exact DateOrder_leb_trans.
    - by apply zip_positions_sorted.
    - symmetry. apply DateSort.Permuted_sort. }
  rewrite Hsort. apply snd_zip. by rewrite length_seq.
Qed.

Lemma argsort_in_order (keys : list Z) :
  strictly_ascending keys → argsort keys = seq 0 (length keys).
Proof. intros Hs. by apply argsort_sorted, strictly_ascending_ascending. Qed.

Lemma take_rows_in_order {A} (l : list A) : take_rows (seq 0 (length l)) l = l.
Proof. exact (take_rows_seq [] l). Qed.

Lemma series_take_in_order (s : Series) : series_take (seq 0 (series_len s)) s = s.
Proof. destruct s; simpl; by rewrite take_rows_in_order. Qed.

Lemma take_columns_in_order (n : nat) (cols : list (string * Series)) :
  Forall (λ c, series_len c.2 = n) cols →
  prod_map id (series_take (seq 0 n)) <$> cols = cols.
Proof.
  induction 1 as [|[k c] cols Hc _ IH]; [done|].
  rewrite fmap_cons, IH. simpl in *. by rewrite <- Hc, series_take_in_order.
Qed.

Lemma normalize_in_order (data : DataFrame) (dates : list Z) :
  frame_wf data → lookup_col "Date" (columns data) = Some (DateS dates) →
  strictly_ascending dates →
  metrics_calculations.normalize data
  = Ok {| index := range (len data); columns := columns data |}.
Proof.
  intros Hwf Hd Hs.
  pose proof (frame_wf_lookup _ _ _ Hwf Hd) as Hlen. simpl in Hlen.
  rewrite (normalize_dates_eval _ _ Hd Hlen), (argsort_in_order _ Hs), Hlen.
  by rewrite take_columns_in_order.
Qed.

Lemma series_len_take_argsort (keys : list Z) (s : Series) :
  series_len s = length keys → series_len (series_take (argsort keys) s) = series_len s.
Proof. destruct s; simpl; apply length_take_rows_argsort. Qed.

(** X22.  A table that comes in chronological order (strictly increasing
    dates) is left as it is by the normalizer, which only renumbers the index
    [0 .. N-1]; [calculate_metrics] then returns every column of its input
    that is not one of the columns it writes itself, cell for cell in the
    same rows. *)
Theorem chronological_table_keeps_its_rows
    (data : DataFrame) (dates : list Z) (high low close : list fval) (W V : Z) :
  frame_wf data → raw_frame data dates high low close →
  strictly_ascending dates → (1 ≤ W)%Z →
  ∃ out,
    metrics_calculations.normalize data
    = Ok {| index := range (len data); columns := columns data |} ∧
    metrics_calculations.calculate_metrics data W V = Ok out ∧
    index out = range (len data) ∧
    ∀ n s, n ∉ historical_names W → n ∉ future_names V →
           getitem data n = Ok s → getitem out n = Ok s.
Proof.
  intros Hwf Hraw Hs HW.
  pose proof (calculate_metrics_eval _ _ _ _ _ W V Hraw HW) as Hout. cbv zeta in Hout.
  eexists. split; [|split; [exact Hout|]].
  { apply (normalize_in_order _ dates); [done| |done]. by destruct Hraw. }
  cbn [index columns]. split; [done|].
  intros n s Hh Hf Hget. unfold getitem in *. cbn [columns].
  rewrite lookup_future_other, lookup_historical_other by done.
  rewrite (argsort_in_order _ Hs).
  destruct Hraw as [_ _ _ _ Hdl _ _ _]. rewrite Hdl.
  by rewrite take_columns_in_order.
Qed.

Lemma chronological_table_witness :
  ∃ out,
    metrics_calculations.normalize demo_frame
    = Ok {| index := range (len demo_frame); columns := columns demo_frame |} ∧
    metrics_calculations.calculate_metrics demo_frame 3 2 = Ok out ∧
    index out = range (len demo_frame) ∧
    ∀ n s, n ∉ historical_names 3 → n ∉ future_names 2 →
           getitem demo_frame n = Ok s → getitem out n = Ok s.
Proof.
  apply (chronological_table_keeps_its_rows demo_frame
           [day 1; day 2; day 3; day 4; day 5]
           [price 10; price 12; price 9; price 15; price 11]
           [price 5; price 6; price 4; price 7; price 6]
           [price 6; price 7; price 8; price 8; price 7] 3 2).
  - repeat constructor.
  - by constructor.
  - intros j k dj dk Hjk Hj Hk.
    do 5 (destruct j as [|j];
          [do 5 (destruct k as [|k]; [simplify_eq/=; first [lia|reflexivity]|]); done|]).
    done.
  - lia.
Defined.

(** X23.  Normalizing is idempotent on tables without duplicate dates: the
    normalized table has one cell per row in every column, and normalizing it
    again returns it unchanged, index included. *)
Theorem normalizing_twice_changes_nothing (data : DataFrame) (dates : list Z) :
  frame_wf data → getitem data "Date" = Ok (DateS dates) → NoDup dates →
  ∃ out,
    metrics_calculations.normalize data = Ok out ∧
    frame_wf out ∧ len out = len data ∧
    metrics_calculations.normalize out = Ok out.
Proof.
  intros Hwf Hget Hnd.
  assert (Hd : lookup_col "Date" (columns data) = Some (DateS dates)).
  { unfold getitem in Hget. destruct (lookup_col "Date" (columns data)); congruence. }
  pose proof (frame_wf_lookup _ _ _ Hwf Hd) as Hlen. simpl in Hlen.
  eexists. split; [by apply (normalize_dates_eval _ dates)|].
  set (out := {| index := range (len data);
                 columns := prod_map id (series_take (argsort dates)) <$> columns data |}).
  assert (Hlo : len out = len data) by apply len_range_frame.
  assert (Hwo : frame_wf out).
  { unfold frame_wf. rewrite Hlo. cbn [columns]. apply Forall_fmap.
    eapply Forall_impl; [exact Hwf|]. intros [k c] Hc. simpl in *.
    rewrite series_len_take_argsort; [done|lia]. }
  split; [done|]. split; [done|].
  rewrite (normalize_in_order out (take_rows (argsort dates) dates)); [|done|..].
  - by rewrite Hlo.
  - cbn [out columns]. by rewrite lookup_col_take, Hd.
  - apply ascending_NoDup; [apply argsort_ascending|].
    assert (Hp : Permutation (take_rows (argsort dates) dates) dates)
      by apply take_rows_Permutation, argsort_Permutation.
    by rewrite Hp.
Qed.

Lemma normalizing_twice_witness :
  ∃ out,
    metrics_calculations.normalize reversed_frame = Ok out ∧
    frame_wf out ∧ len out = len reversed_frame ∧
    metrics_calculations.normalize out = Ok out.
Proof.
  apply (normalizing_twice_changes_nothing reversed_frame [day 2; day 1]).
  - repeat constructor.
  - reflexivity.
  - apply NoDup_cons. split; [|apply NoDup_singleton].
    rewrite list_elem_of_singleton. by vm_compute.
Defined.
